(** * YunoHost configuration panels: a shallow embedding of
      [src/yunohost/utils/config.py]

    The development follows the Python module top to bottom: Python values
    and the handful of builtins the module calls, the interpreter state the
    module reads and mutates (files, class attributes, the terminal), the
    [Question] classes, the answer collector and the [ConfigPanel]
    controller.  Theorems about the controller come last. *)

From Stdlib Require Import ZArith QArith List String Ascii Bool Lia.
From Stdlib Require Import DecimalString Permutation.
Import ListNotations.

Local Open Scope string_scope.
Local Open Scope list_scope.

Set Implicit Arguments.
Set Warnings "-register-all".

(* ================================================================= *)
(** ** Python strings (restricted to ASCII) *)

(** The functions of this module are the methods of [str] on strings whose
    characters all are in the ASCII range, [Str.is_ascii].  Outside of it
    Python goes by the Unicode properties of a character (a no-break space
    is stripped, an accented capital is lowered, a digit of another script
    counts as a digit), which the functions below do not follow. *)

Module Str.

Definition is_ascii_char (c : ascii) : bool := (nat_of_ascii c <? 128)%nat.

(** [s.isascii()] *)
Definition is_ascii (s : string) : bool :=
  forallb is_ascii_char (list_ascii_of_string s).

(** [str.strip()] without argument removes the characters for which
    [str.isspace()] holds; in the ASCII range these are 9-13 and 28-32. *)
Definition is_space (c : ascii) : bool :=
  let n := nat_of_ascii c in
  ((9 <=? n) && (n <=? 13) || (28 <=? n) && (n <=? 32))%nat.

Fixpoint lstrip_by (p : ascii -> bool) (s : string) : string :=
  match s with
  | EmptyString => EmptyString
  | String c r => if p c then lstrip_by p r else s
  end.

Fixpoint rstrip_by (p : ascii -> bool) (s : string) : string :=
  match s with
  | EmptyString => EmptyString
  | String c r =>
      match rstrip_by p r with
      | EmptyString => if p c then EmptyString else String c EmptyString
      | r' => String c r'
      end
  end.

Definition strip_by (p : ascii -> bool) (s : string) : string :=
  rstrip_by p (lstrip_by p s).

Definition strip : string -> string := strip_by is_space.

Definition mem_chars (chars : string) (c : ascii) : bool :=
  existsb (Ascii.eqb c) (list_ascii_of_string chars).

Definition lower_char (c : ascii) : ascii :=
  let n := nat_of_ascii c in
  if ((65 <=? n) && (n <=? 90))%nat then ascii_of_nat (n + 32) else c.

Definition upper_char (c : ascii) : ascii :=
  let n := nat_of_ascii c in
  if ((97 <=? n) && (n <=? 122))%nat then ascii_of_nat (n - 32) else c.

Fixpoint lower (s : string) : string :=
  match s with
  | EmptyString => EmptyString
  | String c r => String (lower_char c) (lower r)
  end.

Definition capitalize (s : string) : string :=
  match s with
  | EmptyString => EmptyString
  | String c r => String (upper_char c) (lower r)
  end.

(** [s.split(sep)] for a one-character separator: never the empty list. *)
Fixpoint split (sep : ascii) (s : string) : list string :=
  match s with
  | EmptyString => [EmptyString]
  | String c r =>
      if Ascii.eqb c sep then EmptyString :: split sep r
      else match split sep r with
           | [] => [String c EmptyString]
           | h :: t => String c h :: t
           end
  end.

(** [s.count(c)] for a one-character needle. *)
Fixpoint count (sep : ascii) (s : string) : nat :=
  match s with
  | EmptyString => 0
  | String c r => (if Ascii.eqb c sep then 1 else 0) + count sep r
  end.

(** [sep.join(parts)] *)
Fixpoint join (sep : string) (parts : list string) : string :=
  match parts with
  | [] => EmptyString
  | [x] => x
  | x :: r => (x ++ sep ++ join sep r)%string
  end.

Definition startswith (p s : string) : bool := String.prefix p s.

Definition drop (n : nat) (s : string) : string :=
  String.substring n (String.length s - n) s.

Definition is_digit (c : ascii) : bool :=
  let n := nat_of_ascii c in ((48 <=? n) && (n <=? 57))%nat.

(** [s.isdigit()]: non-empty and made of digits only. *)
Definition isdigit (s : string) : bool :=
  match s with
  | EmptyString => false
  | _ => forallb is_digit (list_ascii_of_string s)
  end.

Definition digits_to_Z (s : string) : Z :=
  fold_left (fun acc c => (10 * acc + Z.of_nat (nat_of_ascii c - 48))%Z)
            (list_ascii_of_string s) 0%Z.

Definition digit_value (c : ascii) : Z := Z.of_nat (nat_of_ascii c - 48).

(** The digits of an integer literal: at least one digit, and single
    underscores between digits only.  The result is the number written
    and how many digits there are. *)
Fixpoint literal_digits (need_digit : bool) (s : string) (acc : Z) (n : nat)
  : option (Z * nat) :=
  match s with
  | EmptyString => if need_digit then None else Some (acc, n)
  | String c r =>
      if is_digit c then
        literal_digits false r (10 * acc + digit_value c)%Z (S n)
      else if Ascii.eqb c "_" && negb need_digit then
        literal_digits true r acc n
      else None
  end.

(** The sign of a literal, if it has one, and what comes after it. *)
Definition sign_split (t : string) : bool * string :=
  match t with
  | String "-" r => (true, r)
  | String "+" r => (false, r)
  | _ => (false, t)
  end.

(** [int(s)] for a string: white space around the literal, an optional
    sign, then the digits; [None] where [int] raises [ValueError], which
    it also does when there are more digits than the limit the
    interpreter is run with, [sys.get_int_max_str_digits()], if it has
    one. *)
Definition to_int (limit : option nat) (s : string) : option Z :=
  let signed := sign_split (strip s) in
  match literal_digits true (snd signed) 0%Z 0 with
  | Some (z, n) =>
      if match limit with Some l => (l <? n)%nat | None => false end
      then None
      else Some (if fst signed then (- z)%Z else z)
  | None => None
  end.

(** [str(n)] for an integer. *)
Definition of_Z (z : Z) : string := NilZero.string_of_int (Z.to_int z).

Definition mem (s : string) (l : list string) : bool :=
  existsb (String.eqb s) l.

Definition last_segment (s : string) : string :=
  List.last (split "." s) EmptyString.

End Str.

(* ================================================================= *)
(** ** Python values *)

(** A float is kept as the number it denotes; only comparisons are made. *)
Inductive pyfloat :=
| FFinite (q : Q)
| FPosInf
| FNegInf
| FNaN.

(** The values that TOML and YAML documents, command-line arguments and the
    module itself produce.  Mappings keep insertion order and have string
    keys (TOML keys always are strings). *)
Inductive pyvalue :=
| VNone
| VBool (b : bool)
| VInt (z : Z)
| VFloat (f : pyfloat)
| VStr (s : string)
| VList (l : list pyvalue)
| VDict (d : list (string * pyvalue)).

Definition dict := list (string * pyvalue).

(** Exceptions, with the arguments the module passes to them. *)
Inductive exn :=
| YunohostError (key : string) (kwargs : dict)
| YunohostValidationError (key : string) (kwargs : dict)
| MoulinetteError (key : string)
| KeyError (k : pyvalue)
| IndexError
| TypeError (msg : string)
| ValueError (msg : string)
| OverflowError (msg : string)
| AttributeError (type_name attr : string)
| AssertionError (msg : string)
| KeyboardInterrupt
| EOFError.

Inductive result (A : Type) :=
| Ok (a : A)
| Err (e : exn).
Arguments Ok {A} a.
Arguments Err {A} e.

(** [except YunohostError] also catches its subclass. *)
Definition is_YunohostError (e : exn) : bool :=
  match e with
  | YunohostError _ _ | YunohostValidationError _ _ => true
  | _ => false
  end.

Definition is_YunohostValidationError (e : exn) : bool :=
  match e with
  | YunohostValidationError _ _ => true
  | _ => false
  end.

Module Dict.

Fixpoint lookup (k : string) (d : dict) : option pyvalue :=
  match d with
  | [] => None
  | (k', v) :: r => if String.eqb k k' then Some v else lookup k r
  end.

Definition mem (k : string) (d : dict) : bool :=
  match lookup k d with Some _ => true | None => false end.

(** [d.get(k, default)] *)
Definition get (d : dict) (k : string) (default : pyvalue) : pyvalue :=
  match lookup k d with Some v => v | None => default end.

(** [d[k] = v]: an existing key keeps its place. *)
Fixpoint set (d : dict) (k : string) (v : pyvalue) : dict :=
  match d with
  | [] => [(k, v)]
  | (k', v') :: r =>
      if String.eqb k k' then (k', v) :: r else (k', v') :: set r k v
  end.

(** [d.update(d2)], also [{**d, **d2}] on a fresh copy. *)
Definition update (d d2 : dict) : dict :=
  fold_left (fun acc kv => set acc (fst kv) (snd kv)) d2 d.

(** [d.setdefault(k, v)]: the mapping afterwards. *)
Definition setdefault (d : dict) (k : string) (v : pyvalue) : dict :=
  if mem k d then d else set d k v.

Definition keys (d : dict) : list string := map fst d.

End Dict.

Module Py.

Definition type_name (v : pyvalue) : string :=
  match v with
  | VNone => "NoneType"
  | VBool _ => "bool"
  | VInt _ => "int"
  | VFloat _ => "float"
  | VStr _ => "str"
  | VList _ => "list"
  | VDict _ => "dict"
  end.

Definition float_of_Z (z : Z) : pyfloat := FFinite (inject_Z z).

Definition Z_of_bool (b : bool) : Z := if b then 1%Z else 0%Z.

Definition Qeqb (a b : Q) : bool := Qeq_bool a b.
Definition Qltb (a b : Q) : bool := negb (Qle_bool b a).

(** [a == b] and [a < b] on floats; every comparison with NaN is false. *)
Definition float_eqb (a b : pyfloat) : bool :=
  match a, b with
  | FFinite x, FFinite y => Qeqb x y
  | FPosInf, FPosInf | FNegInf, FNegInf => true
  | _, _ => false
  end.

Definition float_ltb (a b : pyfloat) : bool :=
  match a, b with
  | FNaN, _ | _, FNaN => false
  | FNegInf, FNegInf => false
  | FNegInf, _ => true
  | _, FNegInf => false
  | FPosInf, _ => false
  | _, FPosInf => true
  | FFinite x, FFinite y => Qltb x y
  end.

(** Python's [==].  Booleans, integers and floats compare by number;
    lists element by element; mappings key by key. *)
Fixpoint eqb (a b : pyvalue) : bool :=
  match a, b with
  | VNone, VNone => true
  | VBool x, VBool y => Bool.eqb x y
  | VBool x, VInt y => Z.eqb (Z_of_bool x) y
  | VInt x, VBool y => Z.eqb x (Z_of_bool y)
  | VInt x, VInt y => Z.eqb x y
  | VBool x, VFloat y => float_eqb (float_of_Z (Z_of_bool x)) y
  | VFloat x, VBool y => float_eqb x (float_of_Z (Z_of_bool y))
  | VInt x, VFloat y => float_eqb (float_of_Z x) y
  | VFloat x, VInt y => float_eqb x (float_of_Z y)
  | VFloat x, VFloat y => float_eqb x y
  | VStr x, VStr y => String.eqb x y
  | VList xs, VList ys =>
      (fix go (xs ys : list pyvalue) : bool :=
         match xs, ys with
         | [], [] => true
         | x :: xs', y :: ys' => eqb x y && go xs' ys'
         | _, _ => false
         end) xs ys
  | VDict d1, VDict d2 =>
      Nat.eqb (List.length d1) (List.length d2) &&
      (fix go (d : list (string * pyvalue)) : bool :=
         match d with
         | [] => true
         | (k, v) :: r =>
             match Dict.lookup k d2 with
             | Some v2 => eqb v v2 && go r
             | None => false
             end
         end) d1
  | _, _ => false
  end.

(** Truth value of an object in a condition. *)
Definition truthy (v : pyvalue) : bool :=
  match v with
  | VNone => false
  | VBool b => b
  | VInt z => negb (Z.eqb z 0)
  | VFloat f => negb (float_eqb f (FFinite 0))
  | VStr s => negb (String.eqb s "")
  | VList l => match l with [] => false | _ => true end
  | VDict d => match d with [] => false | _ => true end
  end.

(** [v in [None, ""]] *)
Definition is_none_or_empty (v : pyvalue) : bool :=
  eqb v VNone || eqb v (VStr "").

(** [x in l] for a list [l]. *)
Definition mem_list (x : pyvalue) (l : list pyvalue) : bool :=
  existsb (eqb x) l.

Definition chars (s : string) : list pyvalue :=
  map (fun c => VStr (String c EmptyString)) (list_ascii_of_string s).

(** Substring test, [needle in s] for two strings. *)
Fixpoint is_substring (needle s : string) : bool :=
  String.prefix needle s ||
  match s with
  | EmptyString => false
  | String _ r => is_substring needle r
  end.

(** [x in c] *)
Definition contains (c x : pyvalue) : result bool :=
  match c with
  | VList l => Ok (mem_list x l)
  | VDict d =>
      match x with
      | VStr k => Ok (Dict.mem k d)
      | VList _ | VDict _ => Err (TypeError "unhashable type")
      | _ => Ok false
      end
  | VStr s =>
      match x with
      | VStr n => Ok (is_substring n s)
      | _ => Err (TypeError "'in <string>' requires string as left operand")
      end
  | _ => Err (TypeError "argument is not iterable")
  end.

(** [iter(v)]: the items a [for] loop visits. *)
Definition iter (v : pyvalue) : result (list pyvalue) :=
  match v with
  | VList l => Ok l
  | VDict d => Ok (map VStr (Dict.keys d))
  | VStr s => Ok (chars s)
  | _ => Err (TypeError "object is not iterable")
  end.

Definition nth_index (A : Type) (l : list A) (i : Z) : option A :=
  let n := Z.of_nat (List.length l) in
  let j := if (i <? 0)%Z then (n + i)%Z else i in
  if ((0 <=? j) && (j <? n))%Z then nth_error l (Z.to_nat j) else None.

(** [c[k]] *)
Definition getitem (c k : pyvalue) : result pyvalue :=
  match c with
  | VDict d =>
      match k with
      | VStr s =>
          match Dict.lookup s d with
          | Some v => Ok v
          | None => Err (KeyError k)
          end
      | VList _ | VDict _ => Err (TypeError "unhashable type")
      | _ => Err (KeyError k)
      end
  | VList l =>
      match k with
      | VInt i =>
          match nth_index l i with
          | Some v => Ok v
          | None => Err IndexError
          end
      | VBool b =>
          match nth_index l (Z_of_bool b) with
          | Some v => Ok v
          | None => Err IndexError
          end
      | _ => Err (TypeError "list indices must be integers or slices")
      end
  | VStr s =>
      match k with
      | VInt i =>
          match nth_index (chars s) i with
          | Some v => Ok v
          | None => Err IndexError
          end
      | _ => Err (TypeError "string indices must be integers")
      end
  | _ => Err (TypeError "object is not subscriptable")
  end.

End Py.

(* ================================================================= *)
(** ** The interpreter state the module works on *)

(** Builtins and collaborators whose code lives outside the module: each is
    a function of its arguments, fixed for one run. *)
Record Env := {
  (** [str(v)] for floats, lists and mappings *)
  py_repr : pyvalue -> string;
  (** [float(s)] for a string *)
  float_of_str : string -> result pyfloat;
  (** [re.match(regexp, s)] is not [None] *)
  re_match : pyvalue -> string -> result bool;
  (** [urllib.parse.parse_qs(s, keep_blank_values=True)] *)
  parse_qs : string -> list (string * list string);
  (** [urllib.parse.parse_qsl(s, keep_blank_values=True)] *)
  parse_qsl : string -> list (string * string);
  (** [urllib.parse.quote(s)] *)
  url_quote : string -> string;
  (** [base64.b64decode(v)] *)
  b64decode : pyvalue -> result string;
  (** [yunohost.utils.i18n._value_for_locale] *)
  value_for_locale : pyvalue -> result pyvalue;
  (** [m18n.n(key, **kwargs)] and [m18n.g(key)] *)
  m18n_n : string -> dict -> string;
  m18n_g : string -> string;
  (** [moulinette.interfaces.cli.colorize] *)
  colorize : string -> string -> string;
  (** [str(e)] for an exception *)
  str_of_exn : exn -> string;
  (** [yunohost.utils.password.assert_password_is_strong_enough] *)
  assert_password_is_strong_enough : string -> pyvalue -> result unit;
  (** [datetime.strptime(v, fmt)] succeeds *)
  strptime : pyvalue -> string -> result unit;
  (** [os.path.dirname(os.path.realpath(p))] *)
  dirname_realpath : string -> string;
  (** [list(s)] for a set [s] of strings, given by its members in the order
      of their first insertion: the order in which the interpreter walks the
      set.  The language leaves that order open, and nothing is known of
      this function unless a theorem assumes it (that it gives each member
      once, say). *)
  set_order : list string -> list string;
  (** [sys.get_int_max_str_digits()], [None] for an interpreter without
      such a limit *)
  int_max_str_digits : option nat;
}.

(** What a path holds.  A document is kept parsed; reading it with the
    wrong reader fails as a corrupted file does. *)
Inductive node :=
| NDir
| NToml (doc : dict)
| NYaml (doc : dict)
| NRaw (content : string).

Inductive io_op :=
| Stat
| ReadToml
| ReadYaml
| WriteYaml (doc : dict)
| Mkdir
| Rmtree
| Mkdtemp
| Mkstemp
| ReadFile
| WriteFile (content : string).

(** Everything the module does that is visible from outside, in order. *)
Inductive event :=
| EvIO (op : io_op) (path : string)
| EvLog (level : string) (msg : string)
| EvDisplay (msg : pyvalue)
| EvPrompt (msg : pyvalue) (is_password : bool) (prefill : pyvalue)
| EvReload (service : string)
| EvOperationLogger (method : string).

Record world := {
  (** [Moulinette.interface.type] *)
  interface_type : string;
  (** [os.isatty(1)] *)
  isatty : bool;
  (** what [Moulinette.prompt] will return, call after call *)
  stdin : list (result string);
  (** the file system *)
  fs : list (string * node);
  (** what an external call raises, if anything, by function name *)
  fault : string -> option exn;
  (** [BooleanQuestion.yes_answers] and [BooleanQuestion.no_answers] *)
  yes_answers : list string;
  no_answers : list string;
  (** [FileQuestion.upload_dirs] *)
  upload_dirs : list string;
  (** [data_to_redact] of each of [OperationLogger._instances] *)
  oplog_instances : list (list string);
  (** live system state: [domain_list], [_get_maindomain], [user_list],
      [user_info] *)
  domains : list string;
  maindomain : string;
  users : list (string * dict);
  (** counter behind [tempfile] names *)
  tmp_seed : nat;
  trace : list event;
}.

Definition set_stdin (w : world) (x : list (result string)) : world :=
  {| interface_type := interface_type w; isatty := isatty w; stdin := x;
     fs := fs w; fault := fault w; yes_answers := yes_answers w;
     no_answers := no_answers w; upload_dirs := upload_dirs w;
     oplog_instances := oplog_instances w; domains := domains w;
     maindomain := maindomain w; users := users w; tmp_seed := tmp_seed w;
     trace := trace w |}.

Definition set_fs (w : world) (x : list (string * node)) : world :=
  {| interface_type := interface_type w; isatty := isatty w; stdin := stdin w;
     fs := x; fault := fault w; yes_answers := yes_answers w;
     no_answers := no_answers w; upload_dirs := upload_dirs w;
     oplog_instances := oplog_instances w; domains := domains w;
     maindomain := maindomain w; users := users w; tmp_seed := tmp_seed w;
     trace := trace w |}.

Definition set_yes_answers (w : world) (x : list string) : world :=
  {| interface_type := interface_type w; isatty := isatty w; stdin := stdin w;
     fs := fs w; fault := fault w; yes_answers := x;
     no_answers := no_answers w; upload_dirs := upload_dirs w;
     oplog_instances := oplog_instances w; domains := domains w;
     maindomain := maindomain w; users := users w; tmp_seed := tmp_seed w;
     trace := trace w |}.

Definition set_no_answers (w : world) (x : list string) : world :=
  {| interface_type := interface_type w; isatty := isatty w; stdin := stdin w;
     fs := fs w; fault := fault w; yes_answers := yes_answers w;
     no_answers := x; upload_dirs := upload_dirs w;
     oplog_instances := oplog_instances w; domains := domains w;
     maindomain := maindomain w; users := users w; tmp_seed := tmp_seed w;
     trace := trace w |}.

Definition set_upload_dirs (w : world) (x : list string) : world :=
  {| interface_type := interface_type w; isatty := isatty w; stdin := stdin w;
     fs := fs w; fault := fault w; yes_answers := yes_answers w;
     no_answers := no_answers w; upload_dirs := x;
     oplog_instances := oplog_instances w; domains := domains w;
     maindomain := maindomain w; users := users w; tmp_seed := tmp_seed w;
     trace := trace w |}.

Definition set_oplog_instances (w : world) (x : list (list string)) : world :=
  {| interface_type := interface_type w; isatty := isatty w; stdin := stdin w;
     fs := fs w; fault := fault w; yes_answers := yes_answers w;
     no_answers := no_answers w; upload_dirs := upload_dirs w;
     oplog_instances := x; domains := domains w;
     maindomain := maindomain w; users := users w; tmp_seed := tmp_seed w;
     trace := trace w |}.

Definition set_tmp_seed (w : world) (x : nat) : world :=
  {| interface_type := interface_type w; isatty := isatty w; stdin := stdin w;
     fs := fs w; fault := fault w; yes_answers := yes_answers w;
     no_answers := no_answers w; upload_dirs := upload_dirs w;
     oplog_instances := oplog_instances w; domains := domains w;
     maindomain := maindomain w; users := users w; tmp_seed := x;
     trace := trace w |}.

Definition set_trace (w : world) (x : list event) : world :=
  {| interface_type := interface_type w; isatty := isatty w; stdin := stdin w;
     fs := fs w; fault := fault w; yes_answers := yes_answers w;
     no_answers := no_answers w; upload_dirs := upload_dirs w;
     oplog_instances := oplog_instances w; domains := domains w;
     maindomain := maindomain w; users := users w; tmp_seed := tmp_seed w;
     trace := x |}.

(* ----------------------------------------------------------------- *)
(** *** Computations: state passing with exceptions *)

Definition M (A : Type) : Type := world -> result A * world.

Definition ret {A : Type} (a : A) : M A := fun w => (Ok a, w).

Definition raise {A : Type} (e : exn) : M A := fun w => (Err e, w).

Definition bind {A B : Type} (m : M A) (f : A -> M B) : M B :=
  fun w =>
    match m w with
    | (Ok a, w') => f a w'
    | (Err e, w') => (Err e, w')
    end.

Definition lift {A : Type} (r : result A) : M A := fun w => (r, w).

(** the state as it is now *)
Definition get_world : M world := fun w => (Ok w, w).

(** an assignment to a part of the state *)
Definition modify (f : world -> world) : M unit := fun w => (Ok tt, f w).

Declare Scope py_scope.
Delimit Scope py_scope with py.
Notation "x <- m ;; k" := (bind m (fun x => k))
  (at level 61, m at next level, right associativity) : py_scope.
Notation "m ;; k" := (bind m (fun _ => k))
  (at level 61, right associativity) : py_scope.
Local Open Scope py_scope.

(** [try: body  except ...]: the outcome of the body, for the handlers to
    look at *)
Definition catch {A : Type} (body : M A) : M (result A) :=
  fun w => (Ok (fst (body w)), snd (body w)).

(** [try: body  finally: cleanup] *)
Definition try_finally {A : Type} (body : M A) (cleanup : M unit) : M A :=
  r <- catch body ;;
  cleanup ;;
  lift r.

(** A [for] loop over the items of a list, stopping at the first
    exception. *)
Fixpoint for_each {A : Type} (l : list A) (body : A -> M unit) : M unit :=
  match l with
  | [] => ret tt
  | x :: r => body x ;; for_each r body
  end.

Definition when (b : bool) (m : M unit) : M unit :=
  if b then m else ret tt.

Definition emit (e : event) : M unit :=
  modify (fun w => set_trace w (trace w ++ [e])).

(** An external call: raises what the run makes it raise. *)
Definition external (name : string) : M unit :=
  w <- get_world ;;
  match fault w name with
  | Some e => raise e
  | None => ret tt
  end.

Definition logger (level msg : string) : M unit := emit (EvLog level msg).

(* ----------------------------------------------------------------- *)
(** *** Files *)

Module FS.

Fixpoint find (p : string) (l : list (string * node)) : option node :=
  match l with
  | [] => None
  | (p', n) :: r => if String.eqb p p' then Some n else find p r
  end.

Fixpoint put (l : list (string * node)) (p : string) (n : node)
  : list (string * node) :=
  match l with
  | [] => [(p, n)]
  | (p', n') :: r =>
      if String.eqb p p' then (p', n) :: r else (p', n') :: put r p n
  end.

(** what is left after removing [p] and everything below it *)
Definition remove_tree (l : list (string * node)) (p : string)
  : list (string * node) :=
  filter (fun e => negb (String.eqb (fst e) p
                         || String.prefix (p ++ "/")%string (fst e))) l.

Definition exists_ (p : string) (l : list (string * node)) : bool :=
  match find p l with
  | Some _ => true
  | None => false
  end.

End FS.

(** [os.path.exists] *)
Definition os_path_exists (p : string) : M bool :=
  emit (EvIO Stat p) ;;
  w <- get_world ;;
  ret (FS.exists_ p (fs w)).

(** [os.path.isfile] *)
Definition os_path_isfile (p : string) : M bool :=
  emit (EvIO Stat p) ;;
  w <- get_world ;;
  ret (match FS.find p (fs w) with
       | Some NDir | None => false
       | Some _ => true
       end).

Definition read_toml (p : string) : M dict :=
  emit (EvIO ReadToml p) ;;
  external "read_toml" ;;
  w <- get_world ;;
  match FS.find p (fs w) with
  | Some (NToml d) => ret d
  | Some _ => raise (MoulinetteError "corrupted_toml")
  | None => raise (MoulinetteError "file_not_exist")
  end.

Definition read_yaml (p : string) : M dict :=
  emit (EvIO ReadYaml p) ;;
  external "read_yaml" ;;
  w <- get_world ;;
  match FS.find p (fs w) with
  | Some (NYaml d) => ret d
  | Some _ => raise (MoulinetteError "corrupted_yaml")
  | None => raise (MoulinetteError "file_not_exist")
  end.

Definition write_to_yaml (p : string) (d : dict) : M unit :=
  emit (EvIO (WriteYaml d) p) ;;
  external "write_to_yaml" ;;
  modify (fun w => set_fs w (FS.put (fs w) p (NYaml d))).

Definition mkdir (p : string) : M unit :=
  emit (EvIO Mkdir p) ;;
  external "mkdir" ;;
  modify (fun w => set_fs w (FS.put (fs w) p NDir)).

Definition rmtree (p : string) : M unit :=
  emit (EvIO Rmtree p) ;;
  external "rmtree" ;;
  modify (fun w => set_fs w (FS.remove_tree (fs w) p)).

Definition read_file (p : string) : M string :=
  emit (EvIO ReadFile p) ;;
  external "read_file" ;;
  w <- get_world ;;
  match FS.find p (fs w) with
  | Some (NRaw c) => ret c
  | Some _ => raise (MoulinetteError "cannot_open_file")
  | None => raise (MoulinetteError "file_not_exist")
  end.

Definition write_to_file (p : string) (content : string) : M unit :=
  emit (EvIO (WriteFile content) p) ;;
  external "write_to_file" ;;
  modify (fun w => set_fs w (FS.put (fs w) p (NRaw content))).

(** [tempfile.mkdtemp(prefix=...)]: a new directory. *)
Definition mkdtemp (prefix : string) : M string :=
  external "mkdtemp" ;;
  w <- get_world ;;
  let p := ("/tmp/" ++ prefix ++ Str.of_Z (Z.of_nat (tmp_seed w)))%string in
  modify (fun w => set_tmp_seed w (S (tmp_seed w))) ;;
  modify (fun w => set_fs w (FS.put (fs w) p NDir)) ;;
  emit (EvIO Mkdtemp p) ;;
  ret p.

(** [tempfile.mkstemp(dir=...)]: a new empty file, of which the module
    keeps the path. *)
Definition mkstemp (dir : string) : M string :=
  external "mkstemp" ;;
  w <- get_world ;;
  let p := (dir ++ "/tmp" ++ Str.of_Z (Z.of_nat (tmp_seed w)))%string in
  modify (fun w => set_tmp_seed w (S (tmp_seed w))) ;;
  modify (fun w => set_fs w (FS.put (fs w) p (NRaw ""))) ;;
  emit (EvIO Mkstemp p) ;;
  ret p.

(* ----------------------------------------------------------------- *)
(** *** The terminal and the services *)

(** [Moulinette.interface.type == "cli" and os.isatty(1)] *)
Definition interactive : M bool :=
  w <- get_world ;;
  ret (String.eqb (interface_type w) "cli" && isatty w).

Definition Moulinette_display (msg : pyvalue) : M unit := emit (EvDisplay msg).

(** [Moulinette.prompt]: the next line typed, [EOFError] when there is
    none. *)
Definition Moulinette_prompt (message : pyvalue) (is_password : bool)
                             (prefill : pyvalue) : M string :=
  emit (EvPrompt message is_password prefill) ;;
  w <- get_world ;;
  match stdin w with
  | [] => raise EOFError
  | r :: rest => modify (fun w => set_stdin w rest) ;; lift r
  end.

Definition service_reload_or_restart (service : string) : M unit :=
  emit (EvReload service) ;;
  external "service_reload_or_restart".

(* ================================================================= *)
(** ** The [Question] classes *)

Inductive qclass :=
| StringQuestion
| EmailQuestion
| URLQuestion
| DateQuestion
| TimeQuestion
| ColorQuestion
| TagsQuestion
| PasswordQuestion
| PathQuestion
| BooleanQuestion
| DomainQuestion
| UserQuestion
| NumberQuestion
| DisplayTextQuestion
| FileQuestion.

(** An instance: its class and its [__dict__]. *)
Record Question := {
  q_class : qclass;
  q_attrs : dict;
}.

(** [self.k], for an attribute the constructor has set. *)
Definition attr (self : Question) (k : string) : pyvalue :=
  Dict.get (q_attrs self) k VNone.

(** [self.k = v] *)
Definition setattr (self : Question) (k : string) (v : pyvalue) : Question :=
  {| q_class := q_class self; q_attrs := Dict.set (q_attrs self) k v |}.

(** The [option] argument of the static methods: a mapping or a
    [Question], of which the method then takes the [__dict__]. *)
Inductive optarg :=
| OptDict (d : dict)
| OptQuestion (q : Question).

Definition option_dict (option : optarg) : dict :=
  match option with
  | OptDict d => d
  | OptQuestion q => q_attrs q
  end.

(** Class attributes. *)
Definition hide_user_input_in_prompt (c : qclass) : bool :=
  match c with
  | PasswordQuestion => true
  | _ => false
  end.

Definition class_pattern (c : qclass) : pyvalue :=
  match c with
  | EmailQuestion =>
      VDict [("regexp", VStr "^.+@.+"); ("error", VStr "config_validate_email")]
  | URLQuestion =>
      VDict [("regexp", VStr "^https?://.*$");
             ("error", VStr "config_validate_url")]
  | DateQuestion =>
      VDict [("regexp", VStr "^\d{4}-\d\d-\d\d$");
             ("error", VStr "config_validate_date")]
  | TimeQuestion =>
      VDict [("regexp", VStr "^(1[12]|0?\d):[0-5]\d$");
             ("error", VStr "config_validate_time")]
  | ColorQuestion =>
      VDict [("regexp", VStr "^#[ABCDEFabcdef\d]{3,6}$");
             ("error", VStr "config_validate_color")]
  | _ => VNone
  end.

(** [getattr(self, "default_value", None)] *)
Definition class_default_value (c : qclass) : pyvalue :=
  match c with
  | StringQuestion | EmailQuestion | URLQuestion | DateQuestion
  | TimeQuestion | ColorQuestion | PasswordQuestion | PathQuestion => VStr ""
  | BooleanQuestion => VInt 0
  | _ => VNone
  end.

(** [getattr(self, "readonly", False)] *)
Definition class_readonly (c : qclass) : bool :=
  match c with
  | DisplayTextQuestion => true
  | _ => false
  end.

Definition forbidden_chars : string := "{}".

(** [BooleanQuestion.yes_answers] and [no_answers] as the class body
    declares them. *)
Definition declared_yes_answers : list string :=
  ["1"; "yes"; "y"; "true"; "t"; "on"].
Definition declared_no_answers : list string :=
  ["0"; "no"; "n"; "false"; "f"; "off"].

(** [ARGUMENTS_TYPE_PARSERS] *)
Definition ARGUMENTS_TYPE_PARSERS : list (string * qclass) :=
  [ ("string", StringQuestion);
    ("text", StringQuestion);
    ("select", StringQuestion);
    ("tags", TagsQuestion);
    ("email", EmailQuestion);
    ("url", URLQuestion);
    ("date", DateQuestion);
    ("time", TimeQuestion);
    ("color", ColorQuestion);
    ("password", PasswordQuestion);
    ("path", PathQuestion);
    ("boolean", BooleanQuestion);
    ("domain", DomainQuestion);
    ("user", UserQuestion);
    ("number", NumberQuestion);
    ("range", NumberQuestion);
    ("display_text", DisplayTextQuestion);
    ("alert", DisplayTextQuestion);
    ("markdown", DisplayTextQuestion);
    ("file", FileQuestion) ].

Fixpoint assoc_class (k : string) (l : list (string * qclass))
  : option qclass :=
  match l with
  | [] => None
  | (k', c) :: r => if String.eqb k k' then Some c else assoc_class k r
  end.

(** [ARGUMENTS_TYPE_PARSERS[t]] *)
Definition parser_for (t : pyvalue) : result qclass :=
  match t with
  | VStr s =>
      match assoc_class s ARGUMENTS_TYPE_PARSERS with
      | Some c => Ok c
      | None => Err (KeyError t)
      end
  | VList _ | VDict _ => Err (TypeError "unhashable type")
  | _ => Err (KeyError t)
  end.

Section Questions.

Variable env : Env.

(** [str(v)] *)
Definition py_str (v : pyvalue) : string :=
  match v with
  | VNone => "None"
  | VBool true => "True"
  | VBool false => "False"
  | VInt z => Str.of_Z z
  | VStr s => s
  | _ => py_repr env v
  end.

(** [sep.join(v)] *)
Definition py_join (sep : string) (v : pyvalue) : result string :=
  let strings :=
    fix strings (l : list pyvalue) : result (list string) :=
      match l with
      | [] => Ok []
      | VStr s :: r =>
          match strings r with
          | Ok ss => Ok (s :: ss)
          | Err e => Err e
          end
      | _ :: _ => Err (TypeError "sequence item: expected str instance")
      end in
  match Py.iter v with
  | Ok items =>
      match strings items with
      | Ok ss => Ok (Str.join sep ss)
      | Err e => Err e
      end
  | Err _ => Err (TypeError "can only join an iterable")
  end.

(** [v.strip()] when [v] is a string, else [v] *)
Definition strip_if_str (v : pyvalue) : pyvalue :=
  match v with
  | VStr s => VStr (Str.strip s)
  | _ => v
  end.

(* --------------------------------------------------------------- *)
(** *** [Question.__init__] *)

Definition Question_init (c : qclass) (question : dict) : M Question :=
  name <- lift (Py.getitem (VDict question) (VStr "name")) ;;
  let d : dict :=
    [ ("name", name);
      ("type", Dict.get question "type" (VStr "string"));
      ("default", Dict.get question "default" VNone);
      ("optional", Dict.get question "optional" (VBool false));
      ("choices", Dict.get question "choices" (VList []));
      ("pattern", Dict.get question "pattern" (class_pattern c));
      ("ask", Dict.get question "ask" (VDict [("en", name)]));
      ("help", Dict.get question "help" VNone);
      ("redact", Dict.get question "redact" (VBool false));
      ("current_value", Dict.get question "current_value" VNone);
      ("value", Dict.get question "value" VNone) ] in
  let self := {| q_class := c; q_attrs := d |} in
  (* Empty value is parsed as empty string *)
  ret (if Py.eqb (attr self "default") (VStr "")
       then setattr self "default" VNone
       else self).

(* --------------------------------------------------------------- *)
(** *** [humanize] and [normalize] *)

Definition Question_humanize (value : pyvalue) (option : optarg) : M pyvalue :=
  ret (VStr (py_str value)).

Definition Question_normalize (value : pyvalue) (option : optarg) : M pyvalue :=
  ret (strip_if_str value).

Definition TagsQuestion_humanize (value : pyvalue) (option : optarg)
  : M pyvalue :=
  match value with
  | VList _ => s <- lift (py_join "," value) ;; ret (VStr s)
  | _ => ret value
  end.

Definition TagsQuestion_normalize (value : pyvalue) (option : optarg)
  : M pyvalue :=
  match value with
  | VList _ => s <- lift (py_join "," value) ;; ret (VStr s)
  | _ => ret (strip_if_str value)
  end.

Definition PathQuestion_normalize (value : pyvalue) (option : optarg)
  : M pyvalue :=
  let option := option_dict option in
  match value with
  | VStr s =>
      let finish :=
        ret (VStr ("/" ++ Str.strip_by (Str.mem_chars " /") (Str.strip s))) in
      if negb (Py.truthy (VStr (Str.strip s))) then
        if Py.truthy (Dict.get option "optional" VNone) then
          ret (VStr "")
        (* Hmpf here we could just have a "else" case
           but we also want PathQuestion.normalize("") to return "/"
           (i.e. if no option is provided, hence .get("optional") is None *)
        else
          match Dict.get option "optional" VNone with
          | VBool false =>
              raise (YunohostValidationError "app_argument_invalid"
                       [("name", Dict.get option "name" VNone);
                        ("error", VStr "Question is mandatory")])
          | _ => finish
          end
      else finish
  | _ => raise (AttributeError (Py.type_name value) "strip")
  end.

Definition BooleanQuestion_normalize (value : pyvalue) (option : optarg)
  : M pyvalue :=
  let option := option_dict option in
  let value := strip_if_str value in
  let technical_yes := Dict.get option "yes" (VInt 1) in
  let technical_no := Dict.get option "no" (VInt 0) in
  (* both names are bound to the lists of the class itself *)
  w <- get_world ;;
  when (Str.mem (Str.lower (py_str technical_yes)) (no_answers w))
    (raise (AssertionError
              ("'yes' value can't be in "
               ++ py_repr env (VList (map VStr (no_answers w))))%string)) ;;
  when (Str.mem (Str.lower (py_str technical_no)) (yes_answers w))
    (raise (AssertionError
              ("'no' value can't be in "
               ++ py_repr env (VList (map VStr (yes_answers w))))%string)) ;;
  (* [+=] extends the class lists in place *)
  modify (fun w =>
            set_no_answers w
              (no_answers w ++ [Str.lower (py_str technical_no)])) ;;
  modify (fun w =>
            set_yes_answers w
              (yes_answers w ++ [Str.lower (py_str technical_yes)])) ;;
  w <- get_world ;;
  let strvalue := Str.lower (py_str value) in
  if Str.mem strvalue (yes_answers w) then ret technical_yes
  else if Str.mem strvalue (no_answers w) then ret technical_no
  else if Str.mem strvalue ["none"; ""] then ret VNone
  else
    raise (YunohostValidationError "app_argument_choice_invalid"
             [("name", Dict.get option "name" VNone);
              ("value", VStr strvalue);
              ("choices", VStr "yes/no")]).

Definition BooleanQuestion_humanize (value : pyvalue) (option : optarg)
  : M pyvalue :=
  let option := option_dict option in
  let yes := Dict.get option "yes" (VInt 1) in
  let no := Dict.get option "no" (VInt 0) in
  value <- BooleanQuestion_normalize value (OptDict option) ;;
  if Py.eqb value yes then ret (VStr "yes")
  else if Py.eqb value no then ret (VStr "no")
  else
    match value with
    | VNone => ret (VStr "")
    | _ =>
        raise (YunohostValidationError "app_argument_choice_invalid"
                 [("name", Dict.get option "name" VNone);
                  ("value", value);
                  ("choices", VStr "yes/no")])
    end.

Definition DomainQuestion_normalize (value : pyvalue) (option : optarg)
  : M pyvalue :=
  match value with
  | VStr s =>
      let s :=
        if Str.startswith "https://" s then
          Str.drop (String.length "https://") s
        else if Str.startswith "http://" s then
          Str.drop (String.length "http://") s
        else s in
      (* Remove trailing slashes *)
      ret (VStr (Str.lower (Str.rstrip_by (Str.mem_chars "/") s)))
  | _ => raise (AttributeError (Py.type_name value) "startswith")
  end.

Definition NumberQuestion_normalize (value : pyvalue) (option : optarg)
  : M pyvalue :=
  match value with
  | VInt _ | VBool _ => ret value
  | _ =>
      let value := strip_if_str value in
      match value with
      | VStr s =>
          if Str.isdigit s then
            match Str.to_int (int_max_str_digits env) s with
            | Some z => ret (VInt z)
            | None =>
                raise (ValueError "invalid literal for int() with base 10")
            end
          else if Py.is_none_or_empty value then ret value
          else
            raise (YunohostValidationError "app_argument_invalid"
                     [("name", Dict.get (option_dict option) "name" VNone);
                      ("error", VStr (m18n_n env "invalid_number" []))])
      | _ =>
          if Py.is_none_or_empty value then ret value
          else
            raise (YunohostValidationError "app_argument_invalid"
                     [("name", Dict.get (option_dict option) "name" VNone);
                      ("error", VStr (m18n_n env "invalid_number" []))])
      end
  end.

(** [question_class.normalize] / [self.normalize] *)
Definition normalize (c : qclass) : pyvalue -> optarg -> M pyvalue :=
  match c with
  | TagsQuestion => TagsQuestion_normalize
  | PathQuestion => PathQuestion_normalize
  | BooleanQuestion => BooleanQuestion_normalize
  | DomainQuestion => DomainQuestion_normalize
  | NumberQuestion => NumberQuestion_normalize
  | _ => Question_normalize
  end.

(** [question_class.humanize] / [self.humanize] *)
Definition humanize (c : qclass) : pyvalue -> optarg -> M pyvalue :=
  match c with
  | TagsQuestion => TagsQuestion_humanize
  | BooleanQuestion => BooleanQuestion_humanize
  | _ => Question_humanize
  end.

End Questions.

(* ================================================================= *)
(** ** Validation, prompting and the resolution loop *)

Section Resolution.

Variable env : Env.

(** [v is None] *)
Definition is_None (v : pyvalue) : bool :=
  match v with
  | VNone => true
  | _ => false
  end.

(** [int(v)]: a float is cut towards zero, a string is read as a
    literal in base ten. *)
Definition py_int (v : pyvalue) : result Z :=
  match v with
  | VInt z => Ok z
  | VBool b => Ok (Py.Z_of_bool b)
  | VFloat (FFinite q) => Ok (Z.quot (Qnum q) (Zpos (Qden q)))
  | VFloat FNaN => Err (ValueError "cannot convert float NaN to integer")
  | VFloat _ =>
      Err (OverflowError "cannot convert float infinity to integer")
  | VStr s =>
      match Str.to_int (int_max_str_digits env) s with
      | Some z => Ok z
      | None => Err (ValueError "invalid literal for int() with base 10")
      end
  | _ => Err (TypeError "int() argument must be a string or a number")
  end.

(** [z < v] and [z > v] for an integer [z] *)
Definition int_lt (z : Z) (v : pyvalue) : result bool :=
  match v with
  | VInt y => Ok (z <? y)%Z
  | VBool b => Ok (z <? Py.Z_of_bool b)%Z
  | VFloat f => Ok (Py.float_ltb (Py.float_of_Z z) f)
  | _ => Err (TypeError "'<' not supported between these instances")
  end.

Definition int_gt (z : Z) (v : pyvalue) : result bool :=
  match v with
  | VInt y => Ok (y <? z)%Z
  | VBool b => Ok (Py.Z_of_bool b <? z)%Z
  | VFloat f => Ok (Py.float_ltb f (Py.float_of_Z z))
  | _ => Err (TypeError "'>' not supported between these instances")
  end.

(** [text += s] for a string [s] *)
Definition iadd_str (text : pyvalue) (s : string) : result pyvalue :=
  match text with
  | VStr t => Ok (VStr (t ++ s))
  | VList l => Ok (VList (l ++ Py.chars s))
  | _ => Err (TypeError "unsupported operand type(s) for +=")
  end.

(* --------------------------------------------------------------- *)
(** *** [_prevalidate] *)

Definition Question_prevalidate (self : Question) : M Question :=
  when (Py.is_none_or_empty (attr self "value")
        && negb (Py.truthy (attr self "optional")))
    (raise (YunohostValidationError "app_argument_required"
              [("name", attr self "name")])) ;;
  (* we have an answer, do some post checks *)
  when (negb (Py.is_none_or_empty (attr self "value")))
    ((if Py.truthy (attr self "choices") then
        found <- lift (Py.contains (attr self "choices") (attr self "value")) ;;
        if negb found then
          choices <- lift (py_join ", " (attr self "choices")) ;;
          raise (YunohostValidationError "app_argument_choice_invalid"
                   [("name", attr self "name");
                    ("value", attr self "value");
                    ("choices", VStr choices)])
        else ret tt
      else ret tt) ;;
     (if Py.truthy (attr self "pattern") then
        regexp <- lift (Py.getitem (attr self "pattern") (VStr "regexp")) ;;
        matched <- lift (re_match env regexp (py_str env (attr self "value"))) ;;
        if negb matched then
          error <- lift (Py.getitem (attr self "pattern") (VStr "error")) ;;
          raise (YunohostValidationError (py_str env error)
                   [("name", attr self "name");
                    ("value", attr self "value")])
        else ret tt
      else ret tt)) ;;
  ret self.

Definition DateQuestion_prevalidate (self : Question) : M Question :=
  self <- Question_prevalidate self ;;
  if negb (Py.is_none_or_empty (attr self "value")) then
    match strptime env (attr self "value") "%Y-%m-%d" with
    | Ok _ => ret self
    | Err (ValueError _) =>
        raise (YunohostValidationError "config_validate_date" [])
    | Err e => raise e
    end
  else ret self.

(** the loop of [TagsQuestion._prevalidate]: each tag in turn becomes
    [self.value] and goes through the base check *)
Fixpoint TagsQuestion_check_each (values : list pyvalue) (self : Question)
  : M Question :=
  match values with
  | [] => ret self
  | value :: rest =>
      self <- Question_prevalidate (setattr self "value" value) ;;
      TagsQuestion_check_each rest self
  end.

Definition TagsQuestion_prevalidate (self : Question) : M Question :=
  let values :=
    match attr self "value" with
    | VStr s => VList (map VStr (Str.split "," s))
    | VNone => VList []
    | v => v
    end in
  items <- lift (Py.iter values) ;;
  self <- TagsQuestion_check_each items self ;;
  ret (setattr self "value" values).

(** [any(char in self.value for char in self.forbidden_chars)] *)
Fixpoint any_char_in (chars : list pyvalue) (v : pyvalue) : result bool :=
  match chars with
  | [] => Ok false
  | c :: rest =>
      match Py.contains v c with
      | Ok true => Ok true
      | Ok false => any_char_in rest v
      | Err e => Err e
      end
  end.

Definition PasswordQuestion_prevalidate (self : Question) : M Question :=
  self <- Question_prevalidate self ;;
  if negb (Py.is_none_or_empty (attr self "value")) then
    forbidden <- lift (any_char_in (Py.chars forbidden_chars)
                                   (attr self "value")) ;;
    when forbidden
      (raise (YunohostValidationError "pattern_password_app"
                [("forbidden_chars", VStr forbidden_chars)])) ;;
    (* If it's an optional argument the value should be empty or strong
       enough *)
    lift (assert_password_is_strong_enough env "user" (attr self "value")) ;;
    ret self
  else ret self.

Definition NumberQuestion_prevalidate (self : Question) : M Question :=
  self <- Question_prevalidate self ;;
  if Py.is_none_or_empty (attr self "value") then ret self
  else
    (if negb (is_None (attr self "min")) then
       n <- lift (py_int (attr self "value")) ;;
       below <- lift (int_lt n (attr self "min")) ;;
       when below
         (raise (YunohostValidationError "app_argument_invalid"
                   [("name", attr self "name");
                    ("error",
                     VStr (m18n_n env "invalid_number_min"
                                  [("min", attr self "min")]))]))
     else ret tt) ;;
    (if negb (is_None (attr self "max")) then
       n <- lift (py_int (attr self "value")) ;;
       above <- lift (int_gt n (attr self "max")) ;;
       when above
         (raise (YunohostValidationError "app_argument_invalid"
                   [("name", attr self "name");
                    ("error",
                     VStr (m18n_n env "invalid_number_max"
                                  [("max", attr self "max")]))]))
     else ret tt) ;;
    ret self.

Definition FileQuestion_prevalidate (self : Question) : M Question :=
  let self :=
    match attr self "value" with
    | VNone => setattr self "value" (attr self "current_value")
    | _ => self
    end in
  self <- Question_prevalidate self ;;
  w <- get_world ;;
  (if negb (String.eqb (interface_type w) "api") then
     let missing : M unit :=
       raise (YunohostValidationError "app_argument_invalid"
                [("name", attr self "name");
                 ("error",
                  VStr (m18n_n env "file_does_not_exist"
                          [("path",
                            VStr (py_str env (attr self "value")))]))]) in
     if negb (Py.truthy (attr self "value")) then missing
     else
       found <- os_path_exists (py_str env (attr self "value")) ;;
       when (negb found) missing
   else ret tt) ;;
  ret self.

(** [self._prevalidate()] *)
Definition prevalidate (self : Question) : M Question :=
  match q_class self with
  | DateQuestion => DateQuestion_prevalidate self
  | TagsQuestion => TagsQuestion_prevalidate self
  | PasswordQuestion => PasswordQuestion_prevalidate self
  | NumberQuestion => NumberQuestion_prevalidate self
  | FileQuestion => FileQuestion_prevalidate self
  | _ => Question_prevalidate self
  end.

(* --------------------------------------------------------------- *)
(** *** [_format_text_for_user_input_in_cli] and [_prompt] *)

Definition Question_format_text_for_user_input_in_cli (self : Question)
  : M pyvalue :=
  text_for_user_input_in_cli <- lift (value_for_locale env (attr self "ask")) ;;
  if Py.truthy (attr self "choices") then
    (* Prevent displaying a shitload of choices
       (e.g. 100+ available users when choosing an app admin...) *)
    choices <-
      match attr self "choices" with
      | VDict d => ret (true, map snd d)
      | VList l => ret (true, l)
      | VStr s => ret (false, Py.chars s)
      | _ => raise (TypeError "object is not subscriptable")
      end ;;
    let is_list := fst choices in
    let choices_to_display := firstn 20 (snd choices) in
    let remaining_choices := List.length (skipn 20 (snd choices)) in
    choices_to_display <-
      (if (0 <? remaining_choices)%nat then
         if is_list then
           ret (choices_to_display ++
                [VStr (m18n_n env "other_available_options"
                         [("n", VInt (Z.of_nat remaining_choices))])])
         else raise (TypeError "can only concatenate str to str")
       else ret choices_to_display) ;;
    choices_to_display <- lift (py_join " | " (VList choices_to_display)) ;;
    lift (iadd_str text_for_user_input_in_cli
                   (" [" ++ choices_to_display ++ "]"))
  else ret text_for_user_input_in_cli.

Definition BooleanQuestion_format_text_for_user_input_in_cli
           (self : Question) : M pyvalue :=
  text_for_user_input_in_cli <-
    Question_format_text_for_user_input_in_cli self ;;
  lift (iadd_str text_for_user_input_in_cli " [yes | no]").

Definition DisplayTextQuestion_format_text_for_user_input_in_cli
           (self : Question) : M pyvalue :=
  text <- lift (value_for_locale env (attr self "ask")) ;;
  if Py.mem_list (attr self "style")
       [VStr "success"; VStr "info"; VStr "warning"; VStr "danger"] then
    let style := py_str env (attr self "style") in
    let color :=
      if String.eqb style "success" then "green"
      else if String.eqb style "info" then "cyan"
      else if String.eqb style "warning" then "yellow"
      else "red" in
    let prompt :=
      if negb (String.eqb style "danger") then m18n_g env style
      else m18n_n env "danger" [] in
    ret (VStr (colorize env prompt color ++ " " ++ py_str env text))
  else ret text.

(** [self._format_text_for_user_input_in_cli()] *)
Definition format_text_for_user_input_in_cli (self : Question)
  : M pyvalue :=
  match q_class self with
  | BooleanQuestion => BooleanQuestion_format_text_for_user_input_in_cli self
  | DisplayTextQuestion =>
      DisplayTextQuestion_format_text_for_user_input_in_cli self
  | _ => Question_format_text_for_user_input_in_cli self
  end.

Definition Question_prompt (self : Question) (text : pyvalue) : M Question :=
  prefill <-
    match attr self "current_value", attr self "default" with
    | VNone, VNone => ret (VStr "")
    | VNone, default =>
        humanize env (q_class self) default (OptQuestion self)
    | current_value, _ =>
        humanize env (q_class self) current_value (OptQuestion self)
    end ;;
  _ <- lift (value_for_locale env (attr self "help")) ;;
  answer <- Moulinette_prompt text
              (hide_user_input_in_prompt (q_class self)) prefill ;;
  ret (setattr self "value" (VStr answer)).

(* --------------------------------------------------------------- *)
(** *** [_post_parse_value] *)

Definition Question_post_parse_value (self : Question) : M pyvalue :=
  if negb (Py.truthy (attr self "redact")) then ret (attr self "value")
  else
    (* Tell the operation_logger to redact all password-type / secret
       args.  Also redact the % escaped version of the password that
       might appear in the 'args' section of metadata *)
    let str_if_set v :=
      match v with
      | VStr s => if Py.truthy v then [s] else []
      | _ => []
      end in
    let data_to_redact :=
      str_if_set (attr self "value")
      ++ str_if_set (attr self "current_value") in
    let data_to_redact :=
      data_to_redact
      ++ map (url_quote env)
             (filter (fun data => negb (String.eqb (url_quote env data) data))
                     data_to_redact) in
    modify (fun w =>
              set_oplog_instances w
                (map (fun l => l ++ data_to_redact) (oplog_instances w))) ;;
    ret (attr self "value").

Definition TagsQuestion_post_parse_value (self : Question) : M pyvalue :=
  match attr self "value" with
  | VList _ =>
      joined <- lift (py_join "," (attr self "value")) ;;
      Question_post_parse_value (setattr self "value" (VStr joined))
  | _ => Question_post_parse_value self
  end.

Definition FileQuestion_post_parse_value (self : Question) : M pyvalue :=
  if negb (Py.truthy (attr self "value")) then ret (attr self "value")
  else
    upload_dir <- mkdtemp "ynh_filequestion_" ;;
    file_path <- mkstemp upload_dir ;;
    modify (fun w => set_upload_dirs w (upload_dirs w ++ [upload_dir])) ;;
    logger "debug"
      ("Saving file " ++ py_str env (attr self "name")
       ++ " for file question into " ++ file_path)%string ;;
    w <- get_world ;;
    content <-
      (if negb (String.eqb (interface_type w) "api")
       then read_file (py_str env (attr self "value"))
       else lift (b64decode env (attr self "value"))) ;;
    write_to_file file_path content ;;
    ret (VStr file_path).

(** [self._post_parse_value()] *)
Definition post_parse_value (self : Question) : M pyvalue :=
  match q_class self with
  | TagsQuestion => TagsQuestion_post_parse_value self
  | FileQuestion => FileQuestion_post_parse_value self
  | _ => Question_post_parse_value self
  end.

End Resolution.

(* ================================================================= *)
(** ** Constructors of the subclasses, [ask_if_needed] and the collector *)

Section Collector.

Variable env : Env.

Definition PasswordQuestion_init (question : dict) : M Question :=
  self <- Question_init PasswordQuestion question ;;
  let self := setattr self "redact" (VBool true) in
  if negb (is_None (attr self "default")) then
    raise (YunohostValidationError "app_argument_password_no_default"
             [("name", attr self "name")])
  else ret self.

Definition BooleanQuestion_init (question : dict) : M Question :=
  self <- Question_init BooleanQuestion question ;;
  let self := setattr self "yes" (Dict.get question "yes" (VInt 1)) in
  let self := setattr self "no" (Dict.get question "no" (VInt 0)) in
  ret (if is_None (attr self "default")
       then setattr self "default" (attr self "no")
       else self).

Definition DomainQuestion_init (question : dict) : M Question :=
  self <- Question_init DomainQuestion question ;;
  self <-
    (if is_None (attr self "default") then
       external "_get_maindomain" ;;
       w <- get_world ;;
       ret (setattr self "default" (VStr (maindomain w)))
     else ret self) ;;
  external "domain_list" ;;
  w <- get_world ;;
  ret (setattr self "choices" (VList (map VStr (domains w)))).

(** the search of [UserQuestion.__init__] for the user who receives the
    mail of root *)
Fixpoint UserQuestion_find_root (root_mail : string)
         (choices : list (string * dict)) : result (option string) :=
  match choices with
  | [] => Ok None
  | (user, info) :: rest =>
      match Py.contains (Dict.get info "mail-aliases" (VList []))
                        (VStr root_mail) with
      | Ok true => Ok (Some user)
      | Ok false => UserQuestion_find_root root_mail rest
      | Err e => Err e
      end
  end.

Definition UserQuestion_init (question : dict) : M Question :=
  self <- Question_init UserQuestion question ;;
  external "user_list" ;;
  w <- get_world ;;
  let all_users := users w in
  let self := setattr self "choices" (VList (map VStr (map fst all_users))) in
  if negb (Py.truthy (attr self "choices")) then
    raise (YunohostValidationError "app_argument_invalid"
             [("name", attr self "name");
              ("error", VStr "You should create a YunoHost user first.")])
  else if is_None (attr self "default") then
    external "_get_maindomain" ;;
    let root_mail := ("root@" ++ maindomain w)%string in
    found <- lift (UserQuestion_find_root root_mail all_users) ;;
    match found with
    | Some user => ret (setattr self "default" (VStr user))
    | None => ret self
    end
  else ret self.

Definition NumberQuestion_init (question : dict) : M Question :=
  self <- Question_init NumberQuestion question ;;
  let self := setattr self "min" (Dict.get question "min" VNone) in
  let self := setattr self "max" (Dict.get question "max" VNone) in
  ret (setattr self "step" (Dict.get question "step" VNone)).

Definition DisplayTextQuestion_init (question : dict) : M Question :=
  self <- Question_init DisplayTextQuestion question ;;
  let self := setattr self "optional" (VBool true) in
  type_ <- lift (Py.getitem (VDict question) (VStr "type")) ;;
  ret (setattr self "style"
         (Dict.get question "style"
            (if Py.eqb type_ (VStr "alert") then VStr "info" else VStr ""))).

Definition FileQuestion_init (question : dict) : M Question :=
  self <- Question_init FileQuestion question ;;
  ret (setattr self "accept" (Dict.get question "accept" (VStr ""))).

(** [question_class(question)] *)
Definition instantiate (c : qclass) (question : dict) : M Question :=
  match c with
  | PasswordQuestion => PasswordQuestion_init question
  | BooleanQuestion => BooleanQuestion_init question
  | DomainQuestion => DomainQuestion_init question
  | UserQuestion => UserQuestion_init question
  | NumberQuestion => NumberQuestion_init question
  | DisplayTextQuestion => DisplayTextQuestion_init question
  | FileQuestion => FileQuestion_init question
  | _ => Question_init c question
  end.

(* --------------------------------------------------------------- *)
(** *** [Question.ask_if_needed] *)

(** Display question if no value filled or if it's a readonly message *)
Definition ask_display (self : Question) : M Question :=
  cli_tty <- interactive ;;
  if cli_tty then
    text_for_user_input_in_cli <-
      format_text_for_user_input_in_cli env self ;;
    if class_readonly (q_class self) then
      Moulinette_display text_for_user_input_in_cli ;;
      ret self
    else if is_None (attr self "value") then
      Question_prompt env self text_for_user_input_in_cli
    else ret self
  else ret self.

(** Apply default value *)
Definition ask_default (self : Question) : Question :=
  let class_default := class_default_value (q_class self) in
  if Py.is_none_or_empty (attr self "value")
     && (negb (is_None (attr self "default"))
         || negb (is_None class_default))
  then setattr self "value"
         (if is_None (attr self "default") then class_default
          else attr self "default")
  else self.

(** Normalize and validate: the body of the [try] *)
Definition ask_validate (self : Question) : M Question :=
  value <- normalize env (q_class self) (attr self "value")
                     (OptQuestion self) ;;
  prevalidate env (setattr self "value" value).

(** One pass through the body of the loop, up to the end of the [try]:
    the instance as it enters the [try], and what the [try] gives, the
    validated instance or the exception raised. *)
Definition attempt (self : Question) : M (Question * result Question) :=
  self <- ask_display self ;;
  let self := ask_default self in
  outcome <- catch (ask_validate self) ;;
  ret (self, outcome).

(** [for i in range(5)]: the passes still to be made are [range].  Inside
    the [try] only [self.value] is assigned, so the handler, which sets
    it to [None], resumes from the instance as it entered the [try]. *)
Fixpoint ask_loop (range : list nat) (self : Question) : M Question :=
  match range with
  | [] => ret self
  | i :: rest =>
      pass <- attempt self ;;
      match snd pass with
      | Ok validated => ret validated                           (* break *)
      | Err e =>
          if is_YunohostValidationError e then
            (* If in interactive cli, re-ask the current question *)
            cli_tty <- interactive ;;
            if (i <? 4)%nat && cli_tty then
              logger "error" (str_of_exn env e) ;;
              ask_loop rest (setattr (fst pass) "value" VNone)
            (* Otherwise raise the ValidationError *)
            else raise e
          else raise e
      end
  end.

Definition ask_if_needed (self : Question) : M Question :=
  self <- ask_loop (seq 0 5) self ;;
  value <- post_parse_value env self ;;
  ret (setattr self "value" value).

(* --------------------------------------------------------------- *)
(** *** [ask_questions_and_parse_answers] *)

(** a name used as a mapping key *)
Definition as_key (v : pyvalue) : result string :=
  match v with
  | VStr s => Ok s
  | VList _ | VDict _ => Err (TypeError "unhashable type")
  | _ => Err (TypeError "mapping keys other than strings are not modelled")
  end.

(** [prefilled_answers.get(name)] *)
Definition prefilled_get (prefilled_answers : dict) (name : pyvalue)
  : result pyvalue :=
  match name with
  | VStr s => Ok (Dict.get prefilled_answers s VNone)
  | VList _ | VDict _ => Err (TypeError "unhashable type")
  | _ => Ok VNone
  end.

(** The loop over [questions].  Each element is a mapping of the schema
    tree itself, so the assignment to [question["value"]] is seen by the
    tree: the elements are returned as the loop leaves them. *)
Fixpoint ask_each (questions : list pyvalue) (prefilled_answers : dict)
  : M (list Question * list pyvalue) :=
  match questions with
  | [] => ret ([], [])
  | VDict question :: rest =>
      question_class <-
        lift (parser_for (Dict.get question "type" (VStr "string"))) ;;
      name <- lift (Py.getitem (VDict question) (VStr "name")) ;;
      value <- lift (prefilled_get prefilled_answers name) ;;
      let question := Dict.set question "value" value in
      q <- instantiate question_class question ;;
      q <- ask_if_needed q ;;
      r <- ask_each rest prefilled_answers ;;
      ret (q :: fst r, VDict question :: snd r)
  | other :: _ => raise (AttributeError (Py.type_name other) "get")
  end.

Definition ask_questions_and_parse_answers
           (questions : pyvalue) (prefilled_answers : pyvalue)
  : M (list Question * list pyvalue) :=
  prefilled_answers <-
    match prefilled_answers with
    | VStr s =>
        (* parse_qsl parse single values *)
        ret (VDict (fold_left
                      (fun acc kv => Dict.set acc (fst kv) (VStr (snd kv)))
                      (parse_qsl env s) []))
    | _ => ret prefilled_answers
    end ;;
  let prefilled_answers :=
    if negb (Py.truthy prefilled_answers) then VDict []
    else prefilled_answers in
  items <- lift (Py.iter questions) ;;
  match prefilled_answers with
  | VDict d => ask_each items d
  | other =>
      match items with
      | [] => ret ([], [])
      | VDict question :: _ =>
          _ <- lift (parser_for (Dict.get question "type" (VStr "string"))) ;;
          raise (AttributeError (Py.type_name other) "get")
      | q :: _ => raise (AttributeError (Py.type_name q) "get")
      end
  end.

End Collector.

(* ================================================================= *)
(** ** [ConfigPanel]: the instance and the schema loader *)

Definition CONFIG_PANEL_VERSION_SUPPORTED : pyfloat := FFinite 1.

(** The attributes of an instance.  [save_mode] and [app] are not set by
    [__init__]: a subclass may provide them, and reading [save_mode] when
    none does is an [AttributeError]. *)
Record ConfigPanel := {
  config_path : string;
  save_path : option string;
  config : dict;
  values : dict;
  new_values : dict;
  filter_key : string;
  args : dict;
  save_mode : option string;
  app : option string;
}.

(** [ConfigPanel(config_path, save_path)] *)
Definition ConfigPanel_init (config_path : string) (save_path : option string)
  : ConfigPanel :=
  {| config_path := config_path; save_path := save_path;
     config := []; values := []; new_values := [];
     filter_key := ""; args := []; save_mode := None; app := None |}.

Definition set_config (self : ConfigPanel) (x : dict) : ConfigPanel :=
  {| config_path := config_path self; save_path := save_path self;
     config := x; values := values self; new_values := new_values self;
     filter_key := filter_key self; args := args self;
     save_mode := save_mode self; app := app self |}.

Definition set_values (self : ConfigPanel) (x : dict) : ConfigPanel :=
  {| config_path := config_path self; save_path := save_path self;
     config := config self; values := x; new_values := new_values self;
     filter_key := filter_key self; args := args self;
     save_mode := save_mode self; app := app self |}.

Definition set_new_values (self : ConfigPanel) (x : dict) : ConfigPanel :=
  {| config_path := config_path self; save_path := save_path self;
     config := config self; values := values self; new_values := x;
     filter_key := filter_key self; args := args self;
     save_mode := save_mode self; app := app self |}.

Definition set_filter_key (self : ConfigPanel) (x : string) : ConfigPanel :=
  {| config_path := config_path self; save_path := save_path self;
     config := config self; values := values self;
     new_values := new_values self;
     filter_key := x; args := args self;
     save_mode := save_mode self; app := app self |}.

Definition set_args (self : ConfigPanel) (x : dict) : ConfigPanel :=
  {| config_path := config_path self; save_path := save_path self;
     config := config self; values := values self;
     new_values := new_values self;
     filter_key := filter_key self; args := x;
     save_mode := save_mode self; app := app self |}.

(** a subclass that defines [save_mode] *)
Definition with_save_mode (self : ConfigPanel) (mode : string) : ConfigPanel :=
  {| config_path := config_path self; save_path := save_path self;
     config := config self; values := values self;
     new_values := new_values self;
     filter_key := filter_key self; args := args self;
     save_mode := Some mode; app := app self |}.

(* ----------------------------------------------------------------- *)
(** *** [format_description] *)

Definition strs (l : list string) : pyvalue := VList (map VStr l).

Definition format_description : list (string * dict) :=
  [ ("root",
     [ ("properties", strs ["version"; "i18n"]);
       ("defaults", VDict [("version", VFloat (FFinite 1))]) ]);
    ("panels",
     [ ("properties", strs ["name"; "services"; "actions"; "help"]);
       ("defaults",
        VDict [ ("services", VList []);
                ("actions", VDict [("apply", VDict [("en", VStr "Apply")])]) ]) ]);
    ("sections",
     [ ("properties", strs ["name"; "services"; "optional"; "help"; "visible"]);
       ("defaults",
        VDict [ ("name", VStr "");
                ("services", VList []);
                ("optional", VBool true) ]) ]);
    ("options",
     [ ("properties",
        strs [ "ask"; "type"; "bind"; "help"; "example"; "default"; "style";
               "icon"; "placeholder"; "visible"; "optional"; "choices";
               "yes"; "no"; "pattern"; "limit"; "min"; "max"; "step";
               "accept"; "redact" ]);
       ("defaults", VDict []) ]) ].

Fixpoint assoc_dict (k : string) (l : list (string * dict)) : option dict :=
  match l with
  | [] => None
  | (k', d) :: r => if String.eqb k k' then Some d else assoc_dict k r
  end.

(** [format_description[level]["defaults"]] *)
Definition level_defaults (level : string) : dict :=
  match assoc_dict level format_description with
  | Some d => match Dict.get d "defaults" VNone with VDict x => x | _ => [] end
  | None => []
  end.

(** [format_description[level]["properties"]] *)
Definition level_properties (level : string) : list pyvalue :=
  match assoc_dict level format_description with
  | Some d => match Dict.get d "properties" VNone with VList x => x | _ => [] end
  | None => []
  end.

(** [list(format_description).index(level)] *)
Fixpoint index_of (x : string) (l : list string) : nat :=
  match l with
  | [] => 0
  | y :: r => if String.eqb x y then 0 else S (index_of x r)
  end.

Definition level_index (level : string) : nat :=
  index_of level (map fst format_description).

(** [list(format_description)[i + 1] if level != "options" else None] *)
Definition level_sublevel (level : string) : option string :=
  if negb (String.eqb level "options")
  then nth_error (map fst format_description) (level_index level + 1)
  else None.

(* ----------------------------------------------------------------- *)
(** *** [_build_internal_config_panel] *)

(** [self.filter_key.split(".") if self.filter_key != "" else []] *)
Definition split_filter_key (filter_key : string) : list string :=
  if negb (String.eqb filter_key "") then Str.split "." filter_key else [].

(** One pass through the loop over [raw_infos.items()]; [recur] is the
    function itself, called for the level below. *)
Definition build_item (recur : dict -> string -> M dict)
           (raw_infos : dict) (level : string) (properties : list pyvalue)
           (sublevel : option string) (search_key : pyvalue)
           (out : dict) (key : string) (value : pyvalue) : M dict :=
  let as_property :=
    when (negb (Py.mem_list (VStr key) properties))
      (logger "warning"
         ("Unknown key '" ++ key ++ "' found in config panel")) ;;
    (* Todo search all i18n keys *)
    ret (Dict.set out key
           (if negb (Str.mem key ["ask"; "help"; "name"]) then value
            else VDict [("en", value)])) in
  match value, sublevel with
  | VDict child, Some sublevel =>
      if negb (Py.mem_list (VStr key) properties) then
        (* Key/value are a child node *)
        (* We exclude all nodes not referenced by the filter_key *)
        if Py.truthy search_key && negb (Py.eqb (VStr key) search_key)
        then ret out
        else
          subnode <- recur child sublevel ;;
          let subnode := Dict.set subnode "id" (VStr key) in
          let subnode :=
            if String.eqb level "root" then
              Dict.setdefault subnode "name"
                (VDict [("en", VStr (Str.capitalize key))])
            else if String.eqb level "sections" then
              Dict.setdefault (Dict.set subnode "name" (VStr key))   (* legacy *)
                "optional" (Dict.get raw_infos "optional" (VBool true))
            else subnode in
          (* out.setdefault(sublevel, []).append(subnode) *)
          match Dict.lookup sublevel out with
          | None => ret (Dict.set out sublevel (VList [VDict subnode]))
          | Some (VList l) =>
              ret (Dict.set out sublevel (VList (l ++ [VDict subnode])))
          | Some other => raise (AttributeError (Py.type_name other) "append")
          end
      (* Key/value are a property *)
      else as_property
  | _, _ => as_property
  end.

Fixpoint build_items (recur : dict -> string -> M dict)
         (raw_infos : dict) (level : string) (properties : list pyvalue)
         (sublevel : option string) (search_key : pyvalue)
         (items : dict) (out : dict) : M dict :=
  match items with
  | [] => ret out
  | (key, value) :: rest =>
      out <- build_item recur raw_infos level properties sublevel search_key
                        out key value ;;
      build_items recur raw_infos level properties sublevel search_key
                  rest out
  end.

Definition build_node (recur : dict -> string -> M dict)
           (filter_key : list string) (raw_infos : dict) (level : string)
  : M dict :=
  let defaults := level_defaults level in
  let properties := level_properties level in
  (* Start building the ouput (merging the raw infos + defaults) *)
  let out : dict :=
    map (fun kv => (fst kv, Dict.get raw_infos (fst kv) (snd kv))) defaults in
  (* Now fill the sublevels (+ apply filter_key) *)
  let i := level_index level in
  let sublevel := level_sublevel level in
  let search_key :=
    match nth_error filter_key i with
    | Some seg => VStr seg
    | None => VBool false
    end in
  build_items recur raw_infos level properties sublevel search_key
              raw_infos out.

(** The recursion goes one level down at each call and "options" has no
    level below: four nested calls are all there can be. *)
Fixpoint build_levels (n : nat) (filter_key : list string)
  : dict -> string -> M dict :=
  match n with
  | O => fun _ _ => raise (TypeError "no level below options")
  | S k => build_node (build_levels k filter_key) filter_key
  end.

Definition _build_internal_config_panel (filter_key : list string)
           (raw_infos : dict) (level : string) : M dict :=
  build_levels (List.length format_description) filter_key raw_infos level.

(* ----------------------------------------------------------------- *)
(** *** [_iterate] *)

Inductive item_kind := OfPanel | OfSection | OfOption.

(** What the generator yields: [(panel, section, obj)], with the place
    of [obj] in the tree ([section] is [None] for a panel). *)
Record item := {
  it_kind : item_kind;
  it_panel : pyvalue;
  it_section : pyvalue;
  it_obj : pyvalue;
  it_i : nat;
  it_j : nat;
  it_k : nat;
}.

(** A generator run to its end: the items it yields and the exception
    that then ends it, if any. *)
Definition gen : Type := list item * option exn.

Definition gen_app (items : list item) (g : gen) : gen :=
  (items ++ fst g, snd g).

(** [o.get(k, [])] on an object of the tree *)
Definition node_get_list (o : pyvalue) (k : string) : result pyvalue :=
  match o with
  | VDict d => Ok (Dict.get d k (VList []))
  | other => Err (AttributeError (Py.type_name other) "get")
  end.

Fixpoint iterate_options (panel section : pyvalue) (i j k : nat)
         (options : list pyvalue) : list item :=
  match options with
  | [] => []
  | o :: rest =>
      {| it_kind := OfOption; it_panel := panel; it_section := section;
         it_obj := o; it_i := i; it_j := j; it_k := k |}
      :: iterate_options panel section i j (S k) rest
  end.

Definition iterate_section (trigger : list string) (panel : pyvalue)
           (i j : nat) (section : pyvalue) : gen :=
  let here :=
    if Str.mem "section" trigger then
      [ {| it_kind := OfSection; it_panel := panel; it_section := section;
           it_obj := section; it_i := i; it_j := j; it_k := 0 |} ]
    else [] in
  if Str.mem "option" trigger then
    match node_get_list section "options" with
    | Ok options =>
        match Py.iter options with
        | Ok l => (here ++ iterate_options panel section i j 0 l, None)
        | Err e => (here, Some e)
        end
    | Err e => (here, Some e)
    end
  else (here, None).

Fixpoint iterate_sections (trigger : list string) (panel : pyvalue)
         (i j : nat) (sections : list pyvalue) : gen :=
  match sections with
  | [] => ([], None)
  | s :: rest =>
      match iterate_section trigger panel i j s with
      | (items, Some e) => (items, Some e)
      | (items, None) =>
          gen_app items (iterate_sections trigger panel i (S j) rest)
      end
  end.

Definition iterate_panel (trigger : list string) (i : nat) (panel : pyvalue)
  : gen :=
  let here :=
    if Str.mem "panel" trigger then
      [ {| it_kind := OfPanel; it_panel := panel; it_section := VNone;
           it_obj := panel; it_i := i; it_j := 0; it_k := 0 |} ]
    else [] in
  match node_get_list panel "sections" with
  | Ok sections =>
      match Py.iter sections with
      | Ok l => gen_app here (iterate_sections trigger panel i 0 l)
      | Err e => (here, Some e)
      end
  | Err e => (here, Some e)
  end.

Fixpoint iterate_panels (trigger : list string) (i : nat)
         (panels : list pyvalue) : gen :=
  match panels with
  | [] => ([], None)
  | p :: rest =>
      match iterate_panel trigger i p with
      | (items, Some e) => (items, Some e)
      | (items, None) => gen_app items (iterate_panels trigger (S i) rest)
      end
  end.

Definition _iterate (config : dict) (trigger : list string) : gen :=
  match Py.iter (Dict.get config "panels" (VList [])) with
  | Ok panels => iterate_panels trigger 0 panels
  | Err e => ([], Some e)
  end.

(** A [for] loop over a generator, with the state the body updates. *)
Fixpoint fold_items {S : Type} (items : list item) (body : item -> S -> M S)
         (s : S) : M S :=
  match items with
  | [] => ret s
  | it :: rest => s <- body it s ;; fold_items rest body s
  end.

Definition for_gen {S : Type} (g : gen) (body : item -> S -> M S) (s : S)
  : M S :=
  s <- fold_items (fst g) body s ;;
  match snd g with
  | Some e => raise e
  | None => ret s
  end.

(** Assignments to an option are made on the object in the tree: the
    option at place [(i, j, k)] becomes [o]. *)
Fixpoint replace_nth {A : Type} (l : list A) (n : nat) (x : A) : list A :=
  match l, n with
  | [], _ => []
  | _ :: r, O => x :: r
  | y :: r, S m => y :: replace_nth r m x
  end.

Definition update_in_list (node : pyvalue) (k : string) (n : nat)
           (f : pyvalue -> pyvalue) : pyvalue :=
  match node with
  | VDict d =>
      match Dict.lookup k d with
      | Some (VList l) =>
          match nth_error l n with
          | Some x => VDict (Dict.set d k (VList (replace_nth l n (f x))))
          | None => node
          end
      | _ => node
      end
  | _ => node
  end.

Definition set_option_at (config : dict) (i j k : nat) (o : pyvalue) : dict :=
  match update_in_list (VDict config) "panels" i
          (fun panel =>
             update_in_list panel "sections" j
               (fun section =>
                  update_in_list section "options" k (fun _ => o))) with
  | VDict d => d
  | _ => config
  end.

(** [self.config["panels"][i]["sections"][j]["options"] = l] *)
Definition set_options_at (config : dict) (i j : nat) (l : list pyvalue)
  : dict :=
  match update_in_list (VDict config) "panels" i
          (fun panel =>
             update_in_list panel "sections" j
               (fun section =>
                  match section with
                  | VDict d => VDict (Dict.set d "options" (VList l))
                  | _ => section
                  end)) with
  | VDict d => d
  | _ => config
  end.

(* ----------------------------------------------------------------- *)
(** *** [_get_config_panel] *)

Definition forbidden_keywords : list pyvalue :=
  map VStr
    ([ "old"; "app"; "changed"; "file_hash"; "binds"; "types"; "formats";
       "getter"; "setter"; "short_setting"; "type"; "bind";
       "nothing_changed"; "changes_validated"; "result"; "max_progression" ]
     (* forbidden_keywords += format_description["sections"]: the list is
        extended with what iterating that mapping gives, its keys *)
     ++ match assoc_dict "sections" format_description with
        | Some d => Dict.keys d
        | None => []
        end).

Section Loader.

Variable env : Env.

(** [float(v)] *)
Definition py_float (v : pyvalue) : result pyfloat :=
  match v with
  | VFloat f => Ok f
  | VInt z => Ok (Py.float_of_Z z)
  | VBool b => Ok (Py.float_of_Z (Py.Z_of_bool b))
  | VStr s => float_of_str env s
  | _ => Err (TypeError "float() argument must be a string or a number")
  end.

Definition _get_toml (self : ConfigPanel) : M dict :=
  read_toml (config_path self).

(** [self.config["panels"][0]["sections"][0]["options"][0]] *)
Definition first_option (config : dict) : result pyvalue :=
  match Py.getitem (VDict config) (VStr "panels") with
  | Err e => Err e
  | Ok v1 =>
  match Py.getitem v1 (VInt 0) with
  | Err e => Err e
  | Ok v2 =>
  match Py.getitem v2 (VStr "sections") with
  | Err e => Err e
  | Ok v3 =>
  match Py.getitem v3 (VInt 0) with
  | Err e => Err e
  | Ok v4 =>
  match Py.getitem v4 (VStr "options") with
  | Err e => Err e
  | Ok v5 => Py.getitem v5 (VInt 0)
  end end end end end.

Definition check_forbidden (it : item) (_ : unit) : M unit :=
  id <- lift (Py.getitem (it_obj it) (VStr "id")) ;;
  when (Py.mem_list id forbidden_keywords)
    (raise (YunohostError "config_forbidden_keyword" [("keyword", id)])).

(** Returns the instance with its tree loaded; the instance as it was
    when the description does not exist ([return None]). *)
Definition _get_config_panel (self : ConfigPanel) : M ConfigPanel :=
  (* Split filter_key *)
  let segments := split_filter_key (filter_key self) in
  when (3 <? List.length segments)%nat
    (raise (YunohostError
              ("The filter key " ++ py_repr env (strs segments)
               ++ " has too many sub-levels, the max is 3.")%string
              [("raw_msg", VBool true)])) ;;
  found <- os_path_exists (config_path self) ;;
  if negb found then
    logger "debug"
      ("Config panel " ++ config_path self ++ " doesn't exists")%string ;;
    ret self
  else
    toml_config_panel <- _get_toml self ;;
    (* Check TOML config panel is in a supported version *)
    version <- lift (Py.getitem (VDict toml_config_panel) (VStr "version")) ;;
    version_number <- lift (py_float version) ;;
    when (Py.float_ltb version_number CONFIG_PANEL_VERSION_SUPPORTED)
      (raise (YunohostError "config_version_not_supported"
                [("version", version)])) ;;
    (* Transform toml format into internal format *)
    tree <- _build_internal_config_panel segments
                                         toml_config_panel "root" ;;
    let self := set_config self tree in
    match first_option (config self) with
    | Err (KeyError _) | Err IndexError =>
        raise (YunohostValidationError "config_unknown_filter_key"
                 [("filter_key", VStr (filter_key self))])
    | Err e => raise e
    | Ok _ =>
        (* List forbidden keywords from helpers and sections toml (to
           avoid conflict) *)
        for_gen (_iterate (config self) ["option"]) check_forbidden tt ;;
        ret self
    end.

End Loader.

(* ================================================================= *)
(** ** [ConfigPanel]: values, answers, saving, and the two operations *)

(** The operation logger passed to [set]: an object of
    [yunohost.log.OperationLogger], or [None]. *)
Inductive operation_logger_arg :=
| NoLogger
| Logger.

Definition nl : string := String (ascii_of_nat 10) EmptyString.

Fixpoint repeat_string (s : string) (n : nat) : string :=
  match n with
  | O => EmptyString
  | S k => (s ++ repeat_string s k)%string
  end.

Module Replace.

(** [s.replace(old, new)] for a non-empty [old]; [skip] characters of a
    match just replaced are still to be passed over. *)
Fixpoint go (old new : string) (skip : nat) (s : string) : string :=
  match s with
  | EmptyString => EmptyString
  | String c r =>
      match skip with
      | S k => go old new k r
      | O =>
          if String.prefix old s
          then (new ++ go old new (String.length old - 1) r)%string
          else String c (go old new 0 r)
      end
  end.

Definition replace (old new s : string) : string := go old new 0 s.

End Replace.

Section Controller.

Variable env : Env.

(** [k in d] for a mapping [d] *)
Definition key_in (d : dict) (k : pyvalue) : result bool :=
  Py.contains (VDict d) k.

(** [o.get(k, default)] on an object of the tree *)
Definition node_get (o : pyvalue) (k : string) (default : pyvalue)
  : result pyvalue :=
  match o with
  | VDict d => Ok (Dict.get d k default)
  | other => Err (AttributeError (Py.type_name other) "get")
  end.

(** [a + b] where [a] is known to be a string *)
Definition str_concat (a : string) (b : pyvalue) : result string :=
  match b with
  | VStr s => Ok (a ++ s)%string
  | _ => Err (TypeError "can only concatenate str to str")
  end.

(** [m18n.n(self.config["i18n"] + "_" + option["id"])] *)
Definition i18n_ask (config : dict) (option : pyvalue) : result pyvalue :=
  match Dict.get config "i18n" VNone with
  | VStr base =>
      match Py.getitem option (VStr "id") with
      | Ok id =>
          match str_concat (base ++ "_") id with
          | Ok key => Ok (VStr (m18n_n env key []))
          | Err e => Err e
          end
      | Err e => Err e
      end
  | _ => Err (TypeError "unsupported operand type(s) for +")
  end.

(* --------------------------------------------------------------- *)
(** *** [_get_default_values] and [_load_current_values] *)

Definition collect_default (it : item) (acc : dict) : M dict :=
  declared <- lift (Py.contains (it_obj it) (VStr "default")) ;;
  if declared then
    id <- lift (Py.getitem (it_obj it) (VStr "id")) ;;
    key <- lift (as_key id) ;;
    default <- lift (Py.getitem (it_obj it) (VStr "default")) ;;
    ret (Dict.set acc key default)
  else ret acc.

Definition _get_default_values (self : ConfigPanel) : M dict :=
  for_gen (_iterate (config self) ["option"]) collect_default [].

(** Retrieve entries in YAML file
    And set default values if needed *)
Definition _load_current_values (self : ConfigPanel) : M ConfigPanel :=
  (* Retrieve entries in the YAML *)
  on_disk_settings <-
    match save_path self with
    | None => raise (TypeError "stat: path should be string, not NoneType")
    | Some path =>
        found <- os_path_exists path ;;
        if found then
          is_file <- os_path_isfile path ;;
          if is_file then read_yaml path else ret []
        else ret []
    end ;;
  (* Inject defaults if needed (using the magic .update() ;)) *)
  defaults <- _get_default_values self ;;
  ret (set_values self (Dict.update defaults on_disk_settings)).

(* --------------------------------------------------------------- *)
(** *** [_hydrate] *)

Definition allowed_empty_types : list pyvalue :=
  [VStr "alert"; VStr "display_text"; VStr "markdown"; VStr "file"].

Definition hydrate_option (values : dict) (it : item) (tree : dict)
  : M dict :=
  let option := it_obj it in
  id <- lift (Py.getitem option (VStr "id")) ;;
  known <- lift (key_in values id) ;;
  proceed <-
    (if negb known then
       type_ <- lift (Py.getitem option (VStr "type")) ;;
       bind_ <- lift (node_get option "bind" VNone) ;;
       if Py.mem_list type_ allowed_empty_types
          || Py.eqb bind_ (VStr "null")
       then ret false                                       (* continue *)
       else
         raise (YunohostError
                  ("Config panel question '" ++ py_str env id
                   ++ "' should be initialized with a value during install or upgrade.")%string
                  [("raw_msg", VBool true)])
     else ret true) ;;
  if proceed then
    name <- lift (Py.getitem option (VStr "name")) ;;
    value <- lift (Py.getitem (VDict values) name) ;;
    (* In general, the value is just a simple value.
       Sometimes it could be a dict used to overwrite the option itself *)
    let value :=
      match value with
      | VDict d => d
      | _ => [("current_value", value)]
      end in
    match option with
    | VDict o =>
        ret (set_option_at tree (it_i it) (it_j it) (it_k it)
                           (VDict (Dict.update o value)))
    | other => raise (AttributeError (Py.type_name other) "update")
    end
  else ret tree.

Definition _hydrate (self : ConfigPanel) : M ConfigPanel :=
  (* Hydrating config panel with current value *)
  logger "debug" "Hydrating config with current values" ;;
  tree <- for_gen (_iterate (config self) ["option"])
                  (hydrate_option (values self)) (config self) ;;
  ret (set_config self tree).

(* --------------------------------------------------------------- *)
(** *** [_ask] *)

Definition fill_ask (it : item) (tree : dict) : M dict :=
  asked <- lift (Py.contains (it_obj it) (VStr "ask")) ;;
  if negb asked then
    ask <- lift (i18n_ask tree (it_obj it)) ;;
    match it_obj it with
    | VDict o =>
        ret (set_option_at tree (it_i it) (it_j it) (it_k it)
                           (VDict (Dict.set o "ask" ask)))
    | _ =>
        raise (TypeError "object does not support item assignment")
    end
  else ret tree.

(** CLI panel/section header display *)
Definition display_header (self : ConfigPanel) (message : string) : M unit :=
  w <- get_world ;;
  when (String.eqb (interface_type w) "cli"
        && (Str.count "." (filter_key self) <? 2)%nat)
    (Moulinette_display (VStr (colorize env message "purple"))).

(** [{question.name: question.value for question in questions
      if question.value is not None}] *)
Fixpoint answered (questions : list Question) : result dict :=
  match questions with
  | [] => Ok []
  | q :: rest =>
      if negb (is_None (attr q "value")) then
        match as_key (attr q "name") with
        | Ok name =>
            match answered rest with
            | Ok d => Ok (Dict.update [(name, attr q "value")] d)
            | Err e => Err e
            end
        | Err e => Err e
        end
      else answered rest
  end.

(** The body of the loop over panels and sections.  The generator yields
    a panel as [(panel, None, panel)], for which [panel == obj] holds; for
    a section it cannot hold, the panel having the section inside it. *)
Definition ask_item (it : item) (self : ConfigPanel) : M ConfigPanel :=
  match it_kind it with
  | OfPanel =>
      name <- lift (Py.getitem (it_panel it) (VStr "name")) ;;
      name <- lift (value_for_locale env name) ;;
      display_header self
        (nl ++ repeat_string "=" 40 ++ nl ++ ">>>> " ++ py_str env name
            ++ nl ++ repeat_string "=" 40)%string ;;
      ret self
  | _ =>
      (* the section as the tree has it now *)
      name <- lift (Py.getitem (it_section it) (VStr "name")) ;;
      name <- lift (value_for_locale env name) ;;
      when (Py.truthy name)
        (display_header self (nl ++ "# " ++ py_str env name)%string) ;;
      (* Check and ask unanswered questions *)
      options <- lift (Py.getitem (it_section it) (VStr "options")) ;;
      r <- ask_questions_and_parse_answers env options (VDict (args self)) ;;
      let self :=
        set_config self
          (set_options_at (config self) (it_i it) (it_j it) (snd r)) in
      new <- lift (answered (fst r)) ;;
      ret (set_new_values self (Dict.update (new_values self) new))
  end.

Definition _ask (self : ConfigPanel) : M ConfigPanel :=
  logger "debug" "Ask unanswered question and prevalidate data" ;;
  self <-
    (if Dict.mem "i18n" (config self) then
       tree <- for_gen (_iterate (config self) ["option"]) fill_ask
                       (config self) ;;
       ret (set_config self tree)
     else ret self) ;;
  for_gen (_iterate (config self) ["panel"; "section"]) ask_item self.

(* --------------------------------------------------------------- *)
(** *** [_apply] *)

Definition _apply (self : ConfigPanel) : M unit :=
  logger "info" "Saving the new configuration..." ;;
  path <-
    match save_path self with
    | Some p => ret p
    | None =>
        raise (TypeError "expected str, bytes or os.PathLike object, not NoneType")
    end ;;
  let dir_path := dirname_realpath env path in
  found <- os_path_exists dir_path ;;
  when (negb found) (mkdir dir_path) ;;
  let values_to_save := Dict.update (values self) (new_values self) in
  values_to_save <-
    match save_mode self with
    | None => raise (AttributeError "ConfigPanel" "save_mode")
    | Some mode =>
        if String.eqb mode "diff" then
          defaults <- _get_default_values self ;;
          ret (filter (fun kv =>
                         negb (Py.eqb (Dict.get defaults (fst kv) VNone)
                                      (snd kv)))
                      values_to_save)
        else ret values_to_save
    end ;;
  (* Save the settings to the .yaml file *)
  write_to_yaml path values_to_save.

(* --------------------------------------------------------------- *)
(** *** [_reload_services] *)

(** [set(obj.get("services", []))]: service names are strings. *)
Fixpoint service_names (l : list pyvalue) : result (list string) :=
  match l with
  | [] => Ok []
  | VStr s :: rest =>
      match service_names rest with
      | Ok r => Ok (s :: r)
      | Err e => Err e
      end
  | (VList _ | VDict _) :: _ => Err (TypeError "unhashable type")
  | other :: _ => Err (AttributeError (Py.type_name other) "replace")
  end.

(** [services_to_reload |= ...]: the members are kept in the order of
    their first insertion, each once. *)
Definition add_services (it : item) (acc : list string)
  : M (list string) :=
  services <- lift (node_get (it_obj it) "services" (VList [])) ;;
  items <- lift (Py.iter services) ;;
  names <- lift (service_names items) ;;
  ret (fold_left (fun acc s => if Str.mem s acc then acc else acc ++ [s])
                 names acc).

Definition _reload_services (self : ConfigPanel) : M unit :=
  services_to_reload <-
    for_gen (_iterate (config self) ["panel"; "section"; "option"])
            add_services [] ;;
  (* services_to_reload = list(services_to_reload): the order in which
     the set is walked is the interpreter's *)
  let services_to_reload := set_order env services_to_reload in
  (* services_to_reload.sort(key="nginx".__eq__): a stable sort on a
     boolean key *)
  let services_to_reload :=
    filter (fun s => negb (String.eqb "nginx" s)) services_to_reload
    ++ filter (fun s => String.eqb "nginx" s) services_to_reload in
  when (match services_to_reload with [] => false | _ => true end)
    (logger "info" "Reloading services...") ;;
  for_each services_to_reload
    (fun service =>
       let service :=
         match app self with
         | Some a => Replace.replace "__APP__" a service
         | None => service
         end in
       service_reload_or_restart service).

(* --------------------------------------------------------------- *)
(** *** [FileQuestion.clean_upload_dirs] *)

(** Delete files uploaded from API *)
Definition clean_upload_dirs : M unit :=
  w <- get_world ;;
  for_each (upload_dirs w)
    (fun upload_dir =>
       found <- os_path_exists upload_dir ;;
       when found (rmtree upload_dir)).

(* --------------------------------------------------------------- *)
(** *** [get] *)

(** [get] and [set] give the instance back with what they return.  A call
    that raises gives none: what it has assigned to the attributes of the
    instance before raising ([filter_key], [config], [values], ...) is not
    part of its result, and nothing below is said about it. *)

Definition format_item (self : ConfigPanel) (mode : string) (it : item)
           (st : dict * dict) : M (dict * dict) :=
  let (tree, result) := st in
  let option := it_obj it in
  panel_id <- lift (Py.getitem (it_panel it) (VStr "id")) ;;
  section_id <- lift (Py.getitem (it_section it) (VStr "id")) ;;
  option_id <- lift (Py.getitem option (VStr "id")) ;;
  let key := (py_str env panel_id ++ "." ++ py_str env section_id ++ "."
              ++ py_str env option_id)%string in
  if String.eqb mode "export" then
    id <- lift (as_key option_id) ;;
    current <- lift (node_get option "current_value" VNone) ;;
    ret (tree, Dict.set result id current)
  else
    asked <- lift (Py.contains option (VStr "ask")) ;;
    ask <-
      (if asked then
         a <- lift (Py.getitem option (VStr "ask")) ;;
         lift (value_for_locale env a)
       else if Dict.mem "i18n" (config self) then
         lift (i18n_ask (config self) option)
       else ret VNone) ;;
    if String.eqb mode "full" then
      (* edit self.config directly *)
      match option with
      | VDict o =>
          ret (set_option_at tree (it_i it) (it_j it) (it_k it)
                             (VDict (Dict.set o "ask" ask)), result)
      | _ => raise (TypeError "object does not support item assignment")
      end
    else
      has_value <- lift (Py.contains option (VStr "current_value")) ;;
      if has_value then
        type_ <- lift (node_get option "type" (VStr "string")) ;;
        question_class <- lift (parser_for type_) ;;
        current <- lift (Py.getitem option (VStr "current_value")) ;;
        shown <- humanize env question_class current
                   (match option with
                    | VDict o => OptDict o
                    | _ => OptDict []
                    end) ;;
        (* FIXME: semantics, technically here this is not about a
           prompt... *)
        let shown :=
          if hide_user_input_in_prompt question_class
          then VStr "**************"   (* Prevent displaying password in `config get` *)
          else shown in
        ret (tree, Dict.set result key
                     (VDict [("ask", ask); ("value", shown)]))
      else
        ret (tree, Dict.set result key (VDict [("ask", ask)])).

Definition get (self : ConfigPanel) (key : option string) (mode : string)
  : M (pyvalue * ConfigPanel) :=
  let self :=
    set_filter_key self (match key with Some k => k | None => "" end) in
  (* Read config panel toml *)
  self <- _get_config_panel env self ;;
  when (negb (Py.truthy (VDict (config self))))
    (raise (YunohostValidationError "config_no_panel" [])) ;;
  (* Read or get values and hydrate the config *)
  self <- _load_current_values self ;;
  self <- _hydrate self ;;
  (* In 'classic' mode, we display the current value if key refer to an
     option *)
  if (Str.count "." (filter_key self) =? 2)%nat && String.eqb mode "classic"
  then
    let option := Str.last_segment (filter_key self) in
    ret (Dict.get (values self) option VNone, self)
  else
    (* Format result in 'classic' or 'export' mode *)
    logger "debug" ("Formating result in '" ++ mode ++ "' mode") ;;
    st <- for_gen (_iterate (config self) ["option"])
                  (format_item self mode) (config self, []) ;;
    let self := set_config self (fst st) in
    if String.eqb mode "full" then ret (VDict (config self), self)
    else ret (VDict (snd st), self).

(* --------------------------------------------------------------- *)
(** *** [set] *)

Definition joined_args (parsed : list (string * list string)) : dict :=
  fold_left (fun acc kv => Dict.set acc (fst kv)
                             (VStr (Str.join "," (snd kv))))
            parsed [].

(** [operation_logger.m()] *)
Definition operation_logger_call (operation_logger : operation_logger_arg)
           (method : string) : M unit :=
  match operation_logger with
  | NoLogger => raise (AttributeError "NoneType" method)
  | Logger =>
      emit (EvOperationLogger method) ;;
      external ("operation_logger." ++ method)
  end.

(** The [try] statement of [set], with its three handlers and its
    [finally]. *)
Definition apply_handlers (e : exn) : M unit :=
  if is_YunohostError e then raise e
  else
    match e with
    (* Script got manually interrupted ...
       N.B. : KeyboardInterrupt does not inherit from Exception *)
    | KeyboardInterrupt | EOFError =>
        let error := m18n_n env "operation_interrupted" [] in
        logger "error"
          (m18n_n env "config_apply_failed" [("error", VStr error)]) ;;
        raise e
    (* Something wrong happened in Yunohost's code (most probably
       hook_exec) *)
    | _ =>
        let error :=
          m18n_n env "unexpected_error"
                 [("error", VStr (nl ++ str_of_exn env e))] in
        logger "error"
          (m18n_n env "config_apply_failed" [("error", VStr error)]) ;;
        raise e
    end.

Definition apply_guarded (self : ConfigPanel) : M unit :=
  try_finally
    (outcome <- catch (_apply self) ;;
     match outcome with
     | Ok _ => ret tt
     | Err e => apply_handlers e
     end)
    (* Delete files uploaded from API *)
    clean_upload_dirs.

(** [set] up to the call of [self._ask()]: checks of the arguments,
    pre-answered options, values, hydration, questions. *)
Definition set_collect (self : ConfigPanel) (key : option string)
           (value : pyvalue) (args_ : option string)
           (args_file : option string) : M ConfigPanel :=
  let self :=
    set_filter_key self (match key with Some k => k | None => "" end) in
  (* Read config panel toml *)
  self <- _get_config_panel env self ;;
  when (negb (Py.truthy (VDict (config self))))
    (raise (YunohostValidationError "config_no_panel" [])) ;;
  when ((match args_ with Some _ => true | None => false end
         || match args_file with Some _ => true | None => false end)
        && negb (is_None value))
    (raise (YunohostValidationError
              "You should either provide a value, or a serie of args/args_file, but not both at the same time"
              [("raw_msg", VBool true)])) ;;
  when (negb (Str.count "." (filter_key self) =? 2)%nat
        && negb (is_None value))
    (raise (YunohostValidationError "config_cant_set_value_on_section" [])) ;;
  (* Import and parse pre-answered options *)
  logger "debug" "Import and parse pre-answered options" ;;
  let parsed :=
    parse_qs env (match args_ with Some a => a | None => "" end) in
  let self := set_args self (joined_args parsed) in
  self <-
    match args_file with
    | Some f =>
        if negb (String.eqb f "") then
          (* Import YAML / JSON file but keep --args values *)
          from_file <- read_yaml f ;;
          ret (set_args self (Dict.update from_file (args self)))
        else ret self
    | None => ret self
    end ;;
  let self :=
    if negb (is_None value)
    then set_args self [(Str.last_segment (filter_key self), value)]
    else self in
  (* Read or get values and hydrate the config *)
  self <- _load_current_values self ;;
  self <- _hydrate self ;;
  _ask self.

(** [if operation_logger: operation_logger.start()] *)
Definition start_operation (operation_logger : operation_logger_arg)
  : M unit :=
  match operation_logger with
  | Logger => operation_logger_call operation_logger "start"
  | NoLogger => ret tt
  end.

Definition set (self : ConfigPanel) (key : option string) (value : pyvalue)
           (args_ : option string) (args_file : option string)
           (operation_logger : operation_logger_arg) : M ConfigPanel :=
  self <- set_collect self key value args_ args_file ;;
  start_operation operation_logger ;;
  apply_guarded self ;;
  _reload_services self ;;
  logger "success" "Config updated as expected" ;;
  operation_logger_call operation_logger "success" ;;
  ret self.

End Controller.

(* ================================================================= *)
(** ** Reasoning about computations *)

(** *** What a computation leaves unchanged *)

(** A relation between the state before and the state after, kept by
    sequencing. *)
Class Frame (R : world -> world -> Prop) : Prop := {
  frame_refl : forall w, R w w;
  frame_trans : forall a b c, R a b -> R b c -> R a c;
}.

Definition keeps (R : world -> world -> Prop) {A : Type} (m : M A) : Prop :=
  forall w, R w (snd (m w)).

Section FrameRules.

Context {R : world -> world -> Prop} `{!Frame R}.

Lemma keeps_ret (A : Type) (a : A) : keeps R (ret a).
Proof. intro w. apply frame_refl. Qed.

Lemma keeps_raise (A : Type) (e : exn) : keeps R (@raise A e).
Proof. intro w. apply frame_refl. Qed.

Lemma keeps_lift (A : Type) (r : result A) : keeps R (lift r).
Proof. intro w. apply frame_refl. Qed.

Lemma keeps_get_world : keeps R get_world.
Proof. intro w. apply frame_refl. Qed.

Lemma keeps_modify (f : world -> world) :
  (forall w, R w (f w)) -> keeps R (modify f).
Proof. intros Hf w. apply Hf. Qed.

Lemma keeps_bind (A B : Type) (m : M A) (f : A -> M B) :
  keeps R m -> (forall a, keeps R (f a)) -> keeps R (bind m f).
Proof.
  intros Hm Hf w. unfold bind.
  specialize (Hm w). destruct (m w) as [[a | e] w']; simpl in *.
  - eapply frame_trans; [exact Hm | apply Hf].
  - exact Hm.
Qed.

Lemma keeps_catch (A : Type) (m : M A) : keeps R m -> keeps R (catch m).
Proof. intros Hm w. apply Hm. Qed.

Lemma keeps_when (b : bool) (m : M unit) : keeps R m -> keeps R (when b m).
Proof. intros Hm. destruct b; simpl; [exact Hm | apply keeps_ret]. Qed.

Lemma keeps_try_finally (A : Type) (body : M A) (cleanup : M unit) :
  keeps R body -> keeps R cleanup -> keeps R (try_finally body cleanup).
Proof.
  intros Hb Hc. unfold try_finally.
  apply keeps_bind; [apply keeps_catch; exact Hb |].
  intros r. apply keeps_bind; [exact Hc | intros; apply keeps_lift].
Qed.

Lemma keeps_for_each (A : Type) (l : list A) (body : A -> M unit) :
  (forall x, keeps R (body x)) -> keeps R (for_each l body).
Proof.
  intros Hb. induction l as [| x l IH]; simpl.
  - apply keeps_ret.
  - apply keeps_bind; [apply Hb | intros; exact IH].
Qed.

Lemma keeps_fold_items (S : Type) (items : list item)
      (body : item -> S -> M S) :
  (forall it s, keeps R (body it s)) ->
  forall s, keeps R (fold_items items body s).
Proof.
  intros Hb. induction items as [| it items IH]; intros s; simpl.
  - apply keeps_ret.
  - apply keeps_bind; [apply Hb | intros; apply IH].
Qed.

Lemma keeps_for_gen (S : Type) (g : gen) (body : item -> S -> M S) (s : S) :
  (forall it s, keeps R (body it s)) -> keeps R (for_gen g body s).
Proof.
  intros Hb. unfold for_gen.
  apply keeps_bind; [apply keeps_fold_items; exact Hb |].
  intros s'. destruct (snd g); [apply keeps_raise | apply keeps_ret].
Qed.

End FrameRules.

(** *** The events a computation adds *)

(** From [w] to [w'] the terminal, the faults to come and the past are the
    same, and every event added satisfies [P]. *)
Definition ext_by (P : event -> bool) (w w' : world) : Prop :=
  interface_type w' = interface_type w
  /\ isatty w' = isatty w
  /\ fault w' = fault w
  /\ exists evs, trace w' = trace w ++ evs /\ forallb P evs = true.

Definition any_event (_ : event) : bool := true.

(** Whatever the module does, the past stays. *)
Definition ext : world -> world -> Prop := ext_by any_event.

#[export] Instance ext_by_frame (P : event -> bool) : Frame (ext_by P).
Proof.
  split.
  - intro w. repeat split. exists []. rewrite app_nil_r. split; reflexivity.
  - intros a b c (H1 & H2 & H3 & evs & H4 & H5) (K1 & K2 & K3 & evs' & K4 & K5).
    repeat split; try congruence.
    exists (evs ++ evs'). split.
    + rewrite K4, H4, app_assoc. reflexivity.
    + rewrite forallb_app, H5, K5. reflexivity.
Qed.

Lemma ext_by_same_trace (P : event -> bool) (w w' : world) :
  interface_type w' = interface_type w -> isatty w' = isatty w ->
  fault w' = fault w -> trace w' = trace w -> ext_by P w w'.
Proof.
  intros H1 H2 H3 H4. repeat split; trivial.
  exists []. rewrite app_nil_r. split; [exact H4 | reflexivity].
Qed.

Lemma ext_by_weaken (P Q : event -> bool) (w w' : world) :
  (forall e, P e = true -> Q e = true) -> ext_by P w w' -> ext_by Q w w'.
Proof.
  intros HPQ (H1 & H2 & H3 & evs & H4 & H5). repeat split; trivial.
  exists evs. split; [exact H4 |].
  rewrite forallb_forall in *. auto.
Qed.

Lemma keeps_weaken (P Q : event -> bool) (A : Type) (m : M A) :
  (forall e, P e = true -> Q e = true) ->
  keeps (ext_by P) m -> keeps (ext_by Q) m.
Proof. intros HPQ Hm w. eapply ext_by_weaken; [exact HPQ | apply Hm]. Qed.

Section Primitives.

Variable P : event -> bool.

Lemma keeps_emit (e : event) : P e = true -> keeps (ext_by P) (emit e).
Proof.
  intros He w. unfold emit, modify; simpl. repeat split.
  exists [e]. split; [reflexivity | simpl; rewrite He; reflexivity].
Qed.

Lemma keeps_external (name : string) : keeps (ext_by P) (external name).
Proof.
  unfold external. apply keeps_bind; [apply keeps_get_world |].
  intros w. destruct (fault w name); [apply keeps_raise | apply keeps_ret].
Qed.

Lemma keeps_set_fs (f : world -> list (string * node)) :
  keeps (ext_by P) (modify (fun w => set_fs w (f w))).
Proof. apply keeps_modify. intro w. apply ext_by_same_trace; reflexivity. Qed.

Lemma keeps_set_stdin (f : world -> list (result string)) :
  keeps (ext_by P) (modify (fun w => set_stdin w (f w))).
Proof. apply keeps_modify. intro w. apply ext_by_same_trace; reflexivity. Qed.

Lemma keeps_set_tmp_seed (f : world -> nat) :
  keeps (ext_by P) (modify (fun w => set_tmp_seed w (f w))).
Proof. apply keeps_modify. intro w. apply ext_by_same_trace; reflexivity. Qed.

Lemma keeps_set_yes_answers (f : world -> list string) :
  keeps (ext_by P) (modify (fun w => set_yes_answers w (f w))).
Proof. apply keeps_modify. intro w. apply ext_by_same_trace; reflexivity. Qed.

Lemma keeps_set_no_answers (f : world -> list string) :
  keeps (ext_by P) (modify (fun w => set_no_answers w (f w))).
Proof. apply keeps_modify. intro w. apply ext_by_same_trace; reflexivity. Qed.

Lemma keeps_set_upload_dirs (f : world -> list string) :
  keeps (ext_by P) (modify (fun w => set_upload_dirs w (f w))).
Proof. apply keeps_modify. intro w. apply ext_by_same_trace; reflexivity. Qed.

Lemma keeps_set_oplog_instances (f : world -> list (list string)) :
  keeps (ext_by P) (modify (fun w => set_oplog_instances w (f w))).
Proof. apply keeps_modify. intro w. apply ext_by_same_trace; reflexivity. Qed.

End Primitives.

Create HintDb frame.

#[export] Hint Resolve keeps_emit keeps_external keeps_set_fs keeps_set_stdin
  keeps_set_tmp_seed keeps_set_yes_answers keeps_set_no_answers
  keeps_set_upload_dirs keeps_set_oplog_instances : frame.

(** One step of a proof that a computation keeps a relation: by the shape
    of the computation. *)
Ltac frame_step :=
  match goal with
  | |- keeps _ (ret _) => apply keeps_ret
  | |- keeps _ (raise _) => apply keeps_raise
  | |- keeps _ (lift _) => apply keeps_lift
  | |- keeps _ get_world => apply keeps_get_world
  | |- keeps _ (bind _ _) => apply keeps_bind; [| intros ?]
  | |- keeps _ (catch _) => apply keeps_catch
  | |- keeps _ (try_finally _ _) => apply keeps_try_finally
  | |- keeps _ (when _ _) => apply keeps_when
  | |- keeps _ (for_each _ _) => apply keeps_for_each; intros ?
  | |- keeps _ (for_gen _ _ _) => apply keeps_for_gen; intros ? ?
  | |- keeps _ (fold_items _ _ _) => apply keeps_fold_items; intros ? ?
  | |- keeps _ (let _ := _ in _) => cbv zeta
  | |- keeps _ (let (_, _) := ?x in _) => destruct x
  | |- keeps _ (if ?b then _ else _) => destruct b
  | |- keeps _ (match ?x with _ => _ end) => destruct x
  | |- keeps _ _ => solve [auto with frame]
  | |- _ = true => solve [reflexivity | auto with frame]
  end.

Ltac frame := repeat frame_step.

Section FramePrimitives.

Variable P : event -> bool.
Hypothesis P_io : forall op p, P (EvIO op p) = true.

Lemma keeps_logger (level msg : string) :
  P (EvLog level msg) = true -> keeps (ext_by P) (logger level msg).
Proof. intros Hl. unfold logger. apply keeps_emit. exact Hl. Qed.

Lemma keeps_os_path_exists (p : string) : keeps (ext_by P) (os_path_exists p).
Proof. unfold os_path_exists. frame. Qed.

Lemma keeps_os_path_isfile (p : string) : keeps (ext_by P) (os_path_isfile p).
Proof. unfold os_path_isfile. frame. Qed.

Lemma keeps_read_toml (p : string) : keeps (ext_by P) (read_toml p).
Proof. unfold read_toml. frame. Qed.

Lemma keeps_read_yaml (p : string) : keeps (ext_by P) (read_yaml p).
Proof. unfold read_yaml. frame. Qed.

Lemma keeps_write_to_yaml (p : string) (d : dict) :
  keeps (ext_by P) (write_to_yaml p d).
Proof. unfold write_to_yaml. frame. Qed.

Lemma keeps_mkdir (p : string) : keeps (ext_by P) (mkdir p).
Proof. unfold mkdir. frame. Qed.

Lemma keeps_rmtree (p : string) : keeps (ext_by P) (rmtree p).
Proof. unfold rmtree. frame. Qed.

Lemma keeps_read_file (p : string) : keeps (ext_by P) (read_file p).
Proof. unfold read_file. frame. Qed.

Lemma keeps_write_to_file (p c : string) :
  keeps (ext_by P) (write_to_file p c).
Proof. unfold write_to_file. frame. Qed.

Lemma keeps_mkdtemp (prefix : string) : keeps (ext_by P) (mkdtemp prefix).
Proof. unfold mkdtemp. frame. Qed.

Lemma keeps_mkstemp (dir : string) : keeps (ext_by P) (mkstemp dir).
Proof. unfold mkstemp. frame. Qed.

Lemma keeps_interactive : keeps (ext_by P) interactive.
Proof. unfold interactive. frame. Qed.

End FramePrimitives.

#[export] Hint Resolve keeps_logger keeps_os_path_exists keeps_os_path_isfile
  keeps_read_toml keeps_read_yaml keeps_write_to_yaml keeps_mkdir keeps_rmtree
  keeps_read_file keeps_write_to_file keeps_mkdtemp keeps_mkstemp
  keeps_interactive : frame.

(** *** The questions only add events *)

Section QuestionFrame.

Variable env : Env.
Variable P : event -> bool.
Hypothesis P_io : forall op p, P (EvIO op p) = true.
Hypothesis P_debug : forall m, P (EvLog "debug" m) = true.
Hypothesis P_display : forall m, P (EvDisplay m) = true.
Hypothesis P_prompt : forall m b p, P (EvPrompt m b p) = true.

Ltac fr f := progress (unfold f); frame.

Lemma keeps_Question_init c question :
  keeps (ext_by P) (Question_init c question).
Proof. fr Question_init. Qed.

Lemma keeps_BooleanQuestion_normalize value option :
  keeps (ext_by P) (BooleanQuestion_normalize env value option).
Proof. fr BooleanQuestion_normalize. Qed.
Local Hint Resolve keeps_Question_init keeps_BooleanQuestion_normalize : frame.

Lemma keeps_normalize c value option :
  keeps (ext_by P) (normalize env c value option).
Proof.
  destruct c; simpl; auto with frame;
    first [ fr Question_normalize | fr TagsQuestion_normalize
          | fr PathQuestion_normalize | fr DomainQuestion_normalize
          | fr NumberQuestion_normalize ].
Qed.

Lemma keeps_humanize c value option :
  keeps (ext_by P) (humanize env c value option).
Proof.
  destruct c; simpl;
    first [ fr Question_humanize | fr TagsQuestion_humanize
          | fr BooleanQuestion_humanize ].
Qed.
Local Hint Resolve keeps_normalize keeps_humanize : frame.

Lemma keeps_Question_prevalidate self :
  keeps (ext_by P) (Question_prevalidate env self).
Proof. fr Question_prevalidate. Qed.
Local Hint Resolve keeps_Question_prevalidate : frame.

Lemma keeps_TagsQuestion_check_each values self :
  keeps (ext_by P) (TagsQuestion_check_each env values self).
Proof.
  revert self. induction values as [| v values IH]; intros self; simpl.
  - frame.
  - apply keeps_bind; [auto with frame | intros; apply IH].
Qed.
Local Hint Resolve keeps_TagsQuestion_check_each : frame.

Lemma keeps_prevalidate self : keeps (ext_by P) (prevalidate env self).
Proof.
  unfold prevalidate. destruct (q_class self); auto with frame;
    first [ fr DateQuestion_prevalidate | fr TagsQuestion_prevalidate
          | fr PasswordQuestion_prevalidate | fr NumberQuestion_prevalidate
          | fr FileQuestion_prevalidate ].
Qed.

Lemma keeps_Question_format_text self :
  keeps (ext_by P) (Question_format_text_for_user_input_in_cli env self).
Proof. fr Question_format_text_for_user_input_in_cli. Qed.
Local Hint Resolve keeps_prevalidate keeps_Question_format_text : frame.

Lemma keeps_format_text self :
  keeps (ext_by P) (format_text_for_user_input_in_cli env self).
Proof.
  unfold format_text_for_user_input_in_cli.
  destruct (q_class self); auto with frame;
    first [ fr BooleanQuestion_format_text_for_user_input_in_cli
          | fr DisplayTextQuestion_format_text_for_user_input_in_cli ].
Qed.

Lemma keeps_Moulinette_display msg :
  keeps (ext_by P) (Moulinette_display msg).
Proof. fr Moulinette_display. Qed.

Lemma keeps_Moulinette_prompt message is_password prefill :
  keeps (ext_by P) (Moulinette_prompt message is_password prefill).
Proof. fr Moulinette_prompt. Qed.
Local Hint Resolve keeps_format_text keeps_Moulinette_display
  keeps_Moulinette_prompt : frame.

Lemma keeps_Question_prompt self text :
  keeps (ext_by P) (Question_prompt env self text).
Proof. fr Question_prompt. Qed.

Lemma keeps_Question_post_parse_value self :
  keeps (ext_by P) (Question_post_parse_value env self).
Proof. fr Question_post_parse_value. Qed.
Local Hint Resolve keeps_Question_prompt keeps_Question_post_parse_value
  : frame.

Lemma keeps_post_parse_value self :
  keeps (ext_by P) (post_parse_value env self).
Proof.
  unfold post_parse_value. destruct (q_class self); auto with frame;
    first [ fr TagsQuestion_post_parse_value
          | fr FileQuestion_post_parse_value ].
Qed.

Lemma keeps_instantiate c question :
  keeps (ext_by P) (instantiate c question).
Proof.
  destruct c; simpl; auto with frame;
    first [ fr PasswordQuestion_init | fr BooleanQuestion_init
          | fr DomainQuestion_init | fr UserQuestion_init
          | fr NumberQuestion_init | fr DisplayTextQuestion_init
          | fr FileQuestion_init ].
Qed.
Local Hint Resolve keeps_post_parse_value keeps_instantiate : frame.

Lemma keeps_ask_display self : keeps (ext_by P) (ask_display env self).
Proof. fr ask_display. Qed.

Lemma keeps_ask_validate self : keeps (ext_by P) (ask_validate env self).
Proof. fr ask_validate. Qed.
Local Hint Resolve keeps_ask_display keeps_ask_validate : frame.

Lemma keeps_attempt self : keeps (ext_by P) (attempt env self).
Proof. fr attempt. Qed.
Local Hint Resolve keeps_attempt : frame.

(** the handler of the loop logs the error before it asks again *)
Hypothesis P_error : forall m, P (EvLog "error" m) = true.

Lemma keeps_ask_loop range self : keeps (ext_by P) (ask_loop env range self).
Proof.
  revert self. induction range as [| i range IH]; intros self; simpl.
  - frame.
  - apply keeps_bind; [auto with frame |]. intros pass.
    destruct (snd pass) as [validated | e]; [frame |].
    destruct (is_YunohostValidationError e); [| frame].
    apply keeps_bind; [auto with frame |]. intros cli_tty.
    destruct ((i <? 4)%nat && cli_tty); [| frame].
    apply keeps_bind; [auto with frame | intros; apply IH].
Qed.
Local Hint Resolve keeps_ask_loop : frame.

Lemma keeps_ask_if_needed self : keeps (ext_by P) (ask_if_needed env self).
Proof. fr ask_if_needed. Qed.
Local Hint Resolve keeps_ask_if_needed : frame.

Lemma keeps_ask_each questions prefilled_answers :
  keeps (ext_by P) (ask_each env questions prefilled_answers).
Proof.
  induction questions as [| q questions IH]; simpl.
  - frame.
  - destruct q; frame.
Qed.
Local Hint Resolve keeps_ask_each : frame.

Lemma keeps_ask_questions_and_parse_answers questions prefilled_answers :
  keeps (ext_by P)
        (ask_questions_and_parse_answers env questions prefilled_answers).
Proof. fr ask_questions_and_parse_answers. Qed.

End QuestionFrame.

#[export] Hint Resolve keeps_normalize keeps_humanize keeps_prevalidate
  keeps_format_text keeps_Moulinette_display keeps_Moulinette_prompt
  keeps_post_parse_value keeps_instantiate keeps_ask_display
  keeps_ask_validate keeps_attempt keeps_ask_loop keeps_ask_if_needed
  keeps_ask_each keeps_ask_questions_and_parse_answers : frame.

(** *** The controller only adds events *)

Section LoaderFrame.

Variable env : Env.
Variable P : event -> bool.
Hypothesis P_io : forall op p, P (EvIO op p) = true.
Hypothesis P_log : forall l m, P (EvLog l m) = true.

Ltac fr f := progress (unfold f); frame.

Lemma keeps_build_item recur raw_infos level properties sublevel search_key
      out key value :
  (forall d l, keeps (ext_by P) (recur d l)) ->
  keeps (ext_by P)
        (build_item recur raw_infos level properties sublevel search_key
                    out key value).
Proof. intros Hrec. fr build_item. Qed.

Lemma keeps_build_items recur raw_infos level properties sublevel search_key
      items out :
  (forall d l, keeps (ext_by P) (recur d l)) ->
  keeps (ext_by P)
        (build_items recur raw_infos level properties sublevel search_key
                     items out).
Proof.
  intros Hrec. revert out.
  induction items as [| [key value] items IH]; intros out; simpl.
  - frame.
  - apply keeps_bind; [apply keeps_build_item; exact Hrec | intros; apply IH].
Qed.

Lemma keeps_build_levels n filter_key raw_infos level :
  keeps (ext_by P) (build_levels n filter_key raw_infos level).
Proof.
  revert raw_infos level. induction n as [| n IH]; intros; simpl.
  - frame.
  - unfold build_node. apply keeps_build_items. exact IH.
Qed.

Lemma keeps_build filter_key raw_infos level :
  keeps (ext_by P) (_build_internal_config_panel filter_key raw_infos level).
Proof. apply keeps_build_levels. Qed.
Local Hint Resolve keeps_build : frame.

Lemma keeps_get_toml self : keeps (ext_by P) (_get_toml self).
Proof. fr _get_toml. Qed.
Local Hint Resolve keeps_get_toml : frame.

Lemma keeps_get_config_panel self :
  keeps (ext_by P) (_get_config_panel env self).
Proof. unfold _get_config_panel, check_forbidden. frame. Qed.
Local Hint Resolve keeps_get_config_panel : frame.

Lemma keeps_get_default_values self :
  keeps (ext_by P) (_get_default_values self).
Proof. unfold _get_default_values, collect_default. frame. Qed.
Local Hint Resolve keeps_get_default_values : frame.

Lemma keeps_load_current_values self :
  keeps (ext_by P) (_load_current_values self).
Proof. fr _load_current_values. Qed.

Lemma keeps_hydrate self : keeps (ext_by P) (_hydrate env self).
Proof. unfold _hydrate, hydrate_option. frame. Qed.

Lemma keeps_apply self : keeps (ext_by P) (_apply env self).
Proof. fr _apply. Qed.

Lemma keeps_clean_upload_dirs : keeps (ext_by P) clean_upload_dirs.
Proof. fr clean_upload_dirs. Qed.
Local Hint Resolve keeps_apply keeps_clean_upload_dirs : frame.

Lemma keeps_apply_guarded self : keeps (ext_by P) (apply_guarded env self).
Proof. unfold apply_guarded, apply_handlers. frame. Qed.

End LoaderFrame.

#[export] Hint Resolve keeps_build keeps_get_config_panel
  keeps_get_default_values keeps_load_current_values keeps_hydrate
  keeps_apply keeps_clean_upload_dirs keeps_apply_guarded : frame.

Section ControllerFrame.

Variable env : Env.

Ltac fr f := progress (unfold f); frame.

Lemma keeps_ask self : keeps ext (_ask env self).
Proof. unfold ext, _ask, fill_ask, ask_item, display_header. frame. Qed.

Lemma keeps_reload_services self : keeps ext (_reload_services env self).
Proof.
  unfold ext, _reload_services, add_services, service_reload_or_restart.
  frame.
Qed.

Lemma keeps_operation_logger_call l method :
  keeps ext (operation_logger_call l method).
Proof. unfold ext. fr operation_logger_call. Qed.
Local Hint Resolve keeps_ask keeps_reload_services
  keeps_operation_logger_call : frame.

Lemma keeps_set_collect self key value args_ args_file :
  keeps ext (set_collect env self key value args_ args_file).
Proof. unfold ext in *. fr set_collect. Qed.
Local Hint Resolve keeps_set_collect : frame.

Lemma keeps_set self key value args_ args_file l :
  keeps ext (set env self key value args_ args_file l).
Proof. unfold ext in *. unfold set, start_operation. frame. Qed.

Lemma keeps_get self key mode : keeps ext (get env self key mode).
Proof. unfold ext in *. unfold get, format_item. frame. Qed.

End ControllerFrame.

(* ================================================================= *)
(** ** A run to evaluate examples in *)

(** The collaborators at their plainest: translations are their keys,
    every regular expression matches, every password is strong enough,
    the settings live in [/etc/yunohost]. *)
Definition plain_env : Env := {|
  py_repr := fun _ => "<object>";
  float_of_str := fun _ => Err (ValueError "could not convert string to float");
  re_match := fun _ _ => Ok true;
  parse_qs := fun _ => [];
  parse_qsl := fun _ => [];
  url_quote := fun s => s;
  b64decode := fun _ => Ok EmptyString;
  value_for_locale :=
    fun v => match v with
             | VDict ((_, text) :: _) => Ok text
             | VDict [] => Err IndexError
             | _ => Ok v
             end;
  m18n_n := fun key _ => key;
  m18n_g := fun key => key;
  colorize := fun text _ => text;
  str_of_exn := fun _ => "error";
  assert_password_is_strong_enough := fun _ _ => Ok tt;
  strptime := fun _ _ => Ok tt;
  dirname_realpath := fun _ => "/etc/yunohost";
  set_order := fun members => members;
  int_max_str_digits := Some 4300%nat;
|}.

(** The state of an interpreter that has just loaded the module, with the
    given files, terminal and lines to be typed. *)
Definition fresh_world (interface : string) (tty : bool)
           (typed : list (result string)) (files : list (string * node))
  : world := {|
  interface_type := interface;
  isatty := tty;
  stdin := typed;
  fs := files;
  fault := fun _ => None;
  yes_answers := declared_yes_answers;
  no_answers := declared_no_answers;
  upload_dirs := [];
  oplog_instances := [];
  domains := ["domain.tld"];
  maindomain := "domain.tld";
  users := [];
  tmp_seed := 0;
  trace := [];
|}.

Definition api_world : list (string * node) -> world :=
  fresh_world "api" false [].

Definition is_ok {A : Type} (r : result A) : bool :=
  match r with
  | Ok _ => true
  | Err _ => false
  end.

(* ================================================================= *)
(** ** [BooleanQuestion.normalize] *)

Lemma Str_mem_snoc (x : string) (l : list string) (t : string) :
  Str.mem x (l ++ [t]) = Str.mem x l || String.eqb x t.
Proof.
  unfold Str.mem. rewrite existsb_app. simpl. rewrite orb_false_r. reflexivity.
Qed.

(** C3, as the code has it, for every call: whatever the answer lists of
    the class hold when the call is made (the six yes words and the six no
    words in an interpreter that has just loaded the module), with tokens
    that pass the two assertions, and for an input and tokens in the ASCII
    range.  The input is compared after stripping and lowercasing: a yes
    answer of the class or the lowercased yes token gives the yes value;
    else a no answer of the class or the lowercased no token gives the no
    value; else "none" or the empty string gives [None]; anything else is
    the choice error. *)
Theorem BooleanQuestion_normalize_cases
        (env : Env) (w : world) (s : string) (option : optarg) :
  let yes := Dict.get (option_dict option) "yes" (VInt 1) in
  let no := Dict.get (option_dict option) "no" (VInt 0) in
  let yes_token := Str.lower (py_str env yes) in
  let no_token := Str.lower (py_str env no) in
  Str.is_ascii s = true ->
  Str.is_ascii (py_str env yes) = true ->
  Str.is_ascii (py_str env no) = true ->
  Str.mem yes_token (no_answers w) = false ->
  Str.mem no_token (yes_answers w) = false ->
  let answer := Str.lower (Str.strip s) in
  fst (BooleanQuestion_normalize env (VStr s) option w) =
    if Str.mem answer (yes_answers w) || String.eqb answer yes_token
    then Ok yes
    else if Str.mem answer (no_answers w) || String.eqb answer no_token
    then Ok no
    else if Str.mem answer ["none"; ""] then Ok VNone
    else Err (YunohostValidationError "app_argument_choice_invalid"
                [("name", Dict.get (option_dict option) "name" VNone);
                 ("value", VStr answer);
                 ("choices", VStr "yes/no")]).
Proof.
  intros yes no yes_token no_token _ _ _ Hy Hn answer.
  unfold BooleanQuestion_normalize, bind, get_world, when, modify, raise, ret.
  cbn [fst snd strip_if_str].
  fold yes no. fold yes_token. rewrite Hy.
  fold no_token. rewrite Hn.
  cbn [yes_answers no_answers set_yes_answers set_no_answers].
  rewrite !Str_mem_snoc.
  change (py_str env (VStr (Str.strip s))) with (Str.strip s).
  fold answer.
  destruct (Str.mem answer (yes_answers w) || String.eqb answer yes_token);
    [reflexivity |].
  destruct (Str.mem answer (no_answers w) || String.eqb answer no_token);
    [reflexivity |].
  destruct (Str.mem answer ["none"; ""]); reflexivity.
Qed.

(** The answer lists after a call that came with the tokens [enabled] and
    [disabled]. *)
Definition later_world : world :=
  snd (BooleanQuestion_normalize plain_env (VStr "1")
         (OptDict [("yes", VStr "enabled"); ("no", VStr "disabled")])
         (api_world [])).

(** The theorem at work, on the first call and on a later one: [" Yes "]
    with the default tokens, and [" Disabled "], which a former call has
    made a no answer. *)
Lemma BooleanQuestion_normalize_cases_witness :
  fst (BooleanQuestion_normalize plain_env (VStr " Yes ") (OptDict [])
                                 (api_world []))
  = Ok (VInt 1)
  /\ fst (BooleanQuestion_normalize plain_env (VStr " Disabled ") (OptDict [])
                                    later_world)
     = Ok (VInt 0).
Proof.
  split.
  - exact (BooleanQuestion_normalize_cases plain_env (api_world []) " Yes "
             (OptDict []) eq_refl eq_refl eq_refl eq_refl eq_refl).
  - exact (BooleanQuestion_normalize_cases plain_env later_world " Disabled "
             (OptDict []) eq_refl eq_refl eq_refl eq_refl eq_refl).
Defined.

(** C3 as stated fails: ["none"] is not empty, is in neither set and is
    neither token, and it is not refused. *)
Lemma BooleanQuestion_normalize_none_accepted :
  fst (BooleanQuestion_normalize plain_env (VStr "none") (OptDict [])
                                 (api_world []))
  = Ok VNone.
Proof. reflexivity. Qed.

(** The lists are those of the class: a token stays in them for the calls
    that follow. *)
Lemma BooleanQuestion_normalize_extends_lists :
  let w := snd (BooleanQuestion_normalize plain_env (VStr "1")
                  (OptDict [("yes", VStr "enabled"); ("no", VStr "disabled")])
                  (api_world [])) in
  yes_answers w = declared_yes_answers ++ ["enabled"]
  /\ fst (BooleanQuestion_normalize plain_env (VStr "enabled") (OptDict []) w)
     = Ok (VInt 1).
Proof. split; reflexivity. Qed.

(* ================================================================= *)
(** ** Running a computation step by step *)

Local Open Scope nat_scope.

Lemma bind_ok (A B : Type) (m : M A) (f : A -> M B) w a w1 :
  m w = (Ok a, w1) -> bind m f w = f a w1.
Proof. intros H. unfold bind. rewrite H. reflexivity. Qed.
Arguments bind_ok {A B m} f {w a w1} _.

Lemma bind_err(A B : Type) (m : M A) (f : A -> M B) w e w1 :
  m w = (Err e, w1) -> bind m f w = (Err e, w1).
Proof. intros H. unfold bind. rewrite H. reflexivity. Qed.
Arguments bind_err {A B m} f {w e w1} _.

Lemma bind_inv(A B : Type) (m : M A) (f : A -> M B) w r :
  bind m f w = r ->
  (exists e w1, m w = (Err e, w1) /\ r = (Err e, w1))
  \/ (exists a w1, m w = (Ok a, w1) /\ f a w1 = r).
Proof.
  unfold bind. destruct (m w) as [[a | e] w1]; intros H.
  - right. exists a, w1. split; [reflexivity | exact H].
  - left. exists e, w1. split; [reflexivity | symmetry; exact H].
Qed.

Lemma bind_inv_ok (A B : Type) (m : M A) (f : A -> M B) w b w' :
  bind m f w = (Ok b, w') ->
  exists a w1, m w = (Ok a, w1) /\ f a w1 = (Ok b, w').
Proof.
  intros H. apply bind_inv in H.
  destruct H as [(e & w1 & _ & H) | H]; [discriminate | exact H].
Qed.

Lemma when_inv_ok (b : bool) (m : M unit) w w' :
  when b m w = (Ok tt, w') -> b = false /\ w' = w \/ b = true /\ m w = (Ok tt, w').
Proof.
  destruct b; simpl; intros H.
  - right. split; [reflexivity | exact H].
  - left. inversion H. split; reflexivity.
Qed.

Lemma keeps_run (R : world -> world -> Prop) (A : Type) (m : M A) w r w' :
  keeps R m -> m w = (r, w') -> R w w'.
Proof. intros Hk H. specialize (Hk w). rewrite H in Hk. exact Hk. Qed.

Lemma any_event_true : forall e, any_event e = true.
Proof. reflexivity. Qed.

(* ================================================================= *)
(** ** The resolution loop of a question *)

(** [Moulinette.interface.type == "cli" and os.isatty(1)] in a state *)
Definition interactive_in (w : world) : bool :=
  String.eqb (interface_type w) "cli" && isatty w.

Lemma interactive_run (w : world) : interactive w = (Ok (interactive_in w), w).
Proof. reflexivity. Qed.

Lemma ext_by_interactive (P : event -> bool) (w w' : world) :
  ext_by P w w' -> interactive_in w' = interactive_in w.
Proof. intros (H1 & H2 & _). unfold interactive_in. rewrite H1, H2. reflexivity. Qed.

(** [n] passes through the loop, each but the last ending in a validation
    error that the handler logs before it clears the value; the last pass
    ends in [outcome]. *)
Inductive passes (env : Env)
  : nat -> Question -> world -> result Question -> world -> Prop :=
| pass_last self w entered outcome w1 :
    attempt env self w = (Ok (entered, outcome), w1) ->
    (forall e, outcome = Err e -> is_YunohostValidationError e = true) ->
    passes env 1 self w outcome w1
| pass_again n self w entered e w1 outcome w' :
    attempt env self w = (Ok (entered, Err e), w1) ->
    is_YunohostValidationError e = true ->
    passes env n (setattr entered "value" VNone)
           (snd (logger "error" (str_of_exn env e) w1)) outcome w' ->
    passes env (S n) self w outcome w'.

Lemma passes_positive env n self w outcome w' :
  passes env n self w outcome w' -> 1 <= n.
Proof. induction 1; lia. Qed.
Arguments passes_positive {env n self w outcome w'} _.

Lemma attempt_interactive env self w r w1 :
  attempt env self w = (r, w1) -> interactive_in w1 = interactive_in w.
Proof.
  intros H. eapply ext_by_interactive with (P := any_event).
  eapply keeps_run; [| exact H].
  apply keeps_attempt; intros; reflexivity.
Qed.
Arguments attempt_interactive {env self w r w1} _.

Lemma ask_loop_passes env n self w outcome w' :
  passes env n self w outcome w' ->
  interactive_in w = true ->
  forall start, start + n <= 5 ->
  match outcome with
  | Ok validated =>
      ask_loop env (seq start (5 - start)) self w = (Ok validated, w')
  | Err e =>
      start + n = 5 ->
      ask_loop env (seq start (5 - start)) self w = (Err e, w')
  end.
Proof.
  induction 1 as [self w entered outcome w1 Hatt Hval
                 | n self w entered e w1 outcome w' Hatt Hval Hrest IH];
    intros Hint start Hle.
  - replace (5 - start) with (S (5 - S start)) by lia.
    cbn [seq ask_loop]. rewrite (bind_ok _ Hatt). cbn [snd fst].
    destruct outcome as [validated | e]; [reflexivity |].
    intros Hlast. rewrite (Hval e eq_refl).
    rewrite (bind_ok _ (interactive_run w1)).
    rewrite (attempt_interactive Hatt), Hint.
    assert (start = 4) by lia. subst start. reflexivity.
  - pose proof (passes_positive Hrest) as Hpos.
    replace (5 - start) with (S (5 - S start)) by lia.
    cbn [seq ask_loop]. rewrite (bind_ok _ Hatt). cbn [snd fst].
    rewrite Hval. rewrite (bind_ok _ (interactive_run w1)).
    rewrite (attempt_interactive Hatt), Hint.
    assert (Hlt : (start <? 4)%nat = true) by (apply Nat.ltb_lt; lia).
    rewrite Hlt. cbn [andb].
    assert (Hlog : logger "error" (str_of_exn env e) w1
                   = (Ok tt, snd (logger "error" (str_of_exn env e) w1)))
      by reflexivity.
    rewrite (bind_ok _ Hlog).
    assert (Hint' : interactive_in
                      (snd (logger "error" (str_of_exn env e) w1)) = true).
    { rewrite <- Hint, <- (attempt_interactive Hatt). reflexivity. }
    specialize (IH Hint' (S start)).
    destruct outcome as [validated | e'].
    + apply IH. lia.
    + intros Hlast. apply IH; lia.
Qed.
Arguments ask_loop_passes {env n self w outcome w'} _ _ start _.

(** *** How many errors the loop logs *)

Definition is_error_log (e : event) : bool :=
  match e with
  | EvLog level _ => String.eqb level "error"
  | _ => false
  end.

Definition no_error_log (e : event) : bool := negb (is_error_log e).

Definition error_logs (evs : list event) : nat :=
  List.length (filter is_error_log evs).

(** From [w] to [w'] at most [n] errors were logged. *)
Definition logs_at_most (n : nat) (w w' : world) : Prop :=
  exists evs, trace w' = trace w ++ evs /\ error_logs evs <= n.

Lemma logs_none (w w' : world) : ext_by no_error_log w w' -> logs_at_most 0 w w'.
Proof.
  intros (_ & _ & _ & evs & Ht & Hall). exists evs. split; [exact Ht |].
  clear Ht. unfold error_logs.
  induction evs as [| e evs IH]; simpl in *; [lia |].
  apply andb_prop in Hall. destruct Hall as [He Hall].
  unfold no_error_log in He. apply negb_true_iff in He. rewrite He.
  apply IH. exact Hall.
Qed.

Lemma logs_trans (n m : nat) (a b c : world) :
  logs_at_most n a b -> logs_at_most m b c -> logs_at_most (n + m) a c.
Proof.
  intros (e1 & H1 & L1) (e2 & H2 & L2). exists (e1 ++ e2). split.
  - rewrite H2, H1, app_assoc. reflexivity.
  - unfold error_logs in *. rewrite filter_app, length_app. lia.
Qed.

Lemma logs_weaken (n m : nat) (a b : world) :
  n <= m -> logs_at_most n a b -> logs_at_most m a b.
Proof. intros Hle (evs & H1 & H2). exists evs. split; [exact H1 | lia]. Qed.

Lemma logs_refl (w : world) : logs_at_most 0 w w.
Proof. exists []. rewrite app_nil_r. split; [reflexivity | apply le_n]. Qed.

Lemma attempt_logs_none env self w :
  logs_at_most 0 w (snd (attempt env self w)).
Proof.
  apply logs_none. apply keeps_attempt; intros; reflexivity.
Qed.

Lemma post_parse_logs_none env self w :
  logs_at_most 0 w (snd (post_parse_value env self w)).
Proof.
  apply logs_none. apply keeps_post_parse_value; intros; reflexivity.
Qed.

(** the passes of [range] after which the handler may ask again *)
Definition retries (range : list nat) : nat :=
  List.length (filter (fun i => (i <? 4)%nat) range).

Lemma ask_loop_logs env range self w :
  logs_at_most (retries range) w (snd (ask_loop env range self w)).
Proof.
  revert self w. induction range as [| i range IH]; intros self w.
  - apply logs_refl.
  - cbn [ask_loop]. pose proof (attempt_logs_none env self w) as Hatt.
    unfold bind at 1.
    destruct (attempt env self w) as [[pass | e] w1]; cbn [snd] in *;
      [| eapply logs_weaken; [| exact Hatt]; lia].
    destruct (snd pass) as [validated | e];
      [eapply logs_weaken; [| exact Hatt]; lia |].
    destruct (is_YunohostValidationError e);
      [| eapply logs_weaken; [| exact Hatt]; lia].
    rewrite (bind_ok _ (interactive_run w1)).
    unfold retries. cbn [filter].
    destruct (i <? 4)%nat; cbn [andb];
      [| eapply logs_weaken; [| exact Hatt]; lia].
    destruct (interactive_in w1);
      [| eapply logs_weaken; [| exact Hatt]; lia].
    assert (Hlog : logger "error" (str_of_exn env e) w1
                   = (Ok tt, snd (logger "error" (str_of_exn env e) w1)))
      by reflexivity.
    rewrite (bind_ok _ Hlog).
    replace (List.length (i :: filter (fun i0 => (i0 <? 4)%nat) range))
      with (0 + (1 + retries range)) by reflexivity.
    eapply logs_trans; [exact Hatt |].
    eapply logs_trans; [| apply IH].
    exists [EvLog "error" (str_of_exn env e)]. split; [reflexivity |].
    apply le_n.
Qed.

Lemma ask_if_needed_logs env self w :
  logs_at_most 4 w (snd (ask_if_needed env self w)).
Proof.
  unfold ask_if_needed.
  pose proof (ask_loop_logs env (seq 0 5) self w) as Hloop.
  change (retries (seq 0 5)) with 4 in Hloop.
  unfold bind at 1.
  destruct (ask_loop env (seq 0 5) self w) as [[validated | e] w1];
    cbn [snd] in *; [| exact Hloop].
  pose proof (post_parse_logs_none env validated w1) as Hpost.
  unfold bind at 1.
  destruct (post_parse_value env validated w1) as [[value | e] w2];
    cbn [snd] in *.
  - replace 4 with (4 + 0) by lia. eapply logs_trans; eassumption.
  - replace 4 with (4 + 0) by lia. eapply logs_trans; eassumption.
Qed.

(** C7.  [ask_if_needed] makes at most five passes: it logs at most four
    errors, one for each time it asks again.  Out of an interactive
    terminal the first validation error goes to the caller at once.  In an
    interactive terminal, a pass that fails validation is followed by a
    pass on the instance with its value cleared; after five such passes the
    error of the last goes to the caller; and when a pass among the five
    validates, the validated instance is what is post-parsed. *)
Theorem ask_if_needed_bounded_retry (env : Env) (self : Question) (w : world) :
  logs_at_most 4 w (snd (ask_if_needed env self w))
  /\ (forall entered e w1,
        interactive_in w = false ->
        attempt env self w = (Ok (entered, Err e), w1) ->
        is_YunohostValidationError e = true ->
        ask_if_needed env self w = (Err e, w1))
  /\ (forall e w',
        interactive_in w = true ->
        passes env 5 self w (Err e) w' ->
        ask_if_needed env self w = (Err e, w'))
  /\ (forall n validated w',
        interactive_in w = true ->
        n <= 5 ->
        passes env n self w (Ok validated) w' ->
        ask_if_needed env self w
        = (value <- post_parse_value env validated ;;
           ret (setattr validated "value" value)) w').
Proof.
  split; [apply ask_if_needed_logs |].
  split; [| split].
  - intros entered e w1 Hint Hatt Hval.
    unfold ask_if_needed. apply bind_err.
    change (seq 0 5) with (0 :: seq 1 4). cbn [ask_loop].
    rewrite (bind_ok _ Hatt). cbn [snd fst]. rewrite Hval.
    rewrite (bind_ok _ (interactive_run w1)).
    rewrite (attempt_interactive Hatt), Hint. reflexivity.
  - intros e w' Hint Hpasses.
    unfold ask_if_needed. apply bind_err.
    exact (ask_loop_passes Hpasses Hint 0 (le_n 5) eq_refl).
  - intros n validated w' Hint Hn Hpasses.
    assert (Hloop : ask_loop env (seq 0 5) self w = (Ok validated, w'))
      by (apply (ask_loop_passes Hpasses Hint 0); lia).
    unfold ask_if_needed. rewrite (bind_ok _ Hloop). reflexivity.
Qed.

(* ================================================================= *)
(** ** What a computation may raise *)

(** Every exception that [m] raises satisfies [Q]. *)
Definition raises_only (Q : exn -> bool) {A : Type} (m : M A) : Prop :=
  forall w e, fst (m w) = Err e -> Q e = true.

Section RaiseRules.

Variable Q : exn -> bool.

Lemma only_ret (A : Type) (a : A) : raises_only Q (ret a).
Proof. intros w e H. discriminate H. Qed.

Lemma only_raise (A : Type) (e : exn) :
  Q e = true -> raises_only Q (@raise A e).
Proof. intros He w e' H. inversion H. subst. exact He. Qed.

Lemma only_lift (A : Type) (r : result A) :
  (forall e, r = Err e -> Q e = true) -> raises_only Q (lift r).
Proof. intros Hr w e H. apply Hr. exact H. Qed.

Lemma only_get_world : raises_only Q get_world.
Proof. intros w e H. discriminate H. Qed.

Lemma only_modify (f : world -> world) : raises_only Q (modify f).
Proof. intros w e H. discriminate H. Qed.

Lemma only_logger (level msg : string) : raises_only Q (logger level msg).
Proof. intros w e H. discriminate H. Qed.

Lemma only_bind (A B : Type) (m : M A) (f : A -> M B) :
  raises_only Q m -> (forall a, raises_only Q (f a)) ->
  raises_only Q (bind m f).
Proof.
  intros Hm Hf w e. unfold bind. specialize (Hm w).
  destruct (m w) as [[a | e'] w1]; simpl in *.
  - apply Hf.
  - intros H. inversion H. subst. apply Hm. reflexivity.
Qed.

Lemma only_when (b : bool) (m : M unit) :
  raises_only Q m -> raises_only Q (when b m).
Proof. intros Hm. destruct b; simpl; [exact Hm | apply only_ret]. Qed.

Lemma only_fold_items (S : Type) (items : list item)
      (body : item -> S -> M S) :
  (forall it s, raises_only Q (body it s)) ->
  forall s, raises_only Q (fold_items items body s).
Proof.
  intros Hb. induction items as [| it items IH]; intros s; simpl.
  - apply only_ret.
  - apply only_bind; [apply Hb | intros; apply IH].
Qed.

Lemma only_for_gen (S : Type) (g : gen) (body : item -> S -> M S) (s : S) :
  (forall it s, raises_only Q (body it s)) ->
  (forall e, snd g = Some e -> Q e = true) ->
  raises_only Q (for_gen g body s).
Proof.
  intros Hb Hg. unfold for_gen.
  apply only_bind; [apply only_fold_items; exact Hb |].
  intros s'. destruct (snd g) as [e |];
    [apply only_raise; apply Hg; reflexivity | apply only_ret].
Qed.

End RaiseRules.

(** *** The exceptions of the interpreter *)

(** The operations of the language raise exceptions of the language, never
    one of the application. *)
Ltac builtin_error H :=
  repeat match type of H with
         | match ?x with _ => _ end = _ => destruct x
         | (if ?b then _ else _) = _ => destruct b
         end;
  inversion H; reflexivity.

Lemma getitem_builtin (c k : pyvalue) (e : exn) :
  Py.getitem c k = Err e -> is_YunohostError e = false.
Proof. unfold Py.getitem. intros H. builtin_error H. Qed.

Lemma iter_builtin (v : pyvalue) (e : exn) :
  Py.iter v = Err e -> is_YunohostError e = false.
Proof. unfold Py.iter. intros H. builtin_error H. Qed.

Lemma contains_builtin (c x : pyvalue) (e : exn) :
  Py.contains c x = Err e -> is_YunohostError e = false.
Proof. unfold Py.contains. intros H. builtin_error H. Qed.

Lemma node_get_list_builtin (o : pyvalue) (k : string) (e : exn) :
  node_get_list o k = Err e -> is_YunohostError e = false.
Proof. unfold node_get_list. intros H. builtin_error H. Qed.

Lemma iterate_section_builtin trigger panel i j section e :
  snd (iterate_section trigger panel i j section) = Some e ->
  is_YunohostError e = false.
Proof.
  unfold iterate_section.
  destruct (Str.mem "option" trigger); [| discriminate].
  destruct (node_get_list section "options") as [options | e1] eqn:E1.
  - destruct (Py.iter options) as [l | e2] eqn:E2; [discriminate |].
    intros H. inversion H. subst. eapply iter_builtin. exact E2.
  - intros H. inversion H. subst. eapply node_get_list_builtin. exact E1.
Qed.

Lemma iterate_sections_builtin trigger panel i sections :
  forall j e,
    snd (iterate_sections trigger panel i j sections) = Some e ->
    is_YunohostError e = false.
Proof.
  induction sections as [| s rest IH]; intros j e; simpl; [discriminate |].
  pose proof (@iterate_section_builtin trigger panel i j s) as Hs.
  destruct (iterate_section trigger panel i j s) as [items [e1 |]];
    simpl in *.
  - intros H. inversion H. subst. apply Hs. reflexivity.
  - apply IH.
Qed.

Lemma iterate_panel_builtin trigger i panel e :
  snd (iterate_panel trigger i panel) = Some e -> is_YunohostError e = false.
Proof.
  unfold iterate_panel.
  destruct (node_get_list panel "sections") as [sections | e1] eqn:E1.
  - destruct (Py.iter sections) as [l | e2] eqn:E2.
    + simpl. apply iterate_sections_builtin.
    + intros H. inversion H. subst. eapply iter_builtin. exact E2.
  - intros H. inversion H. subst. eapply node_get_list_builtin. exact E1.
Qed.

Lemma iterate_panels_builtin trigger panels :
  forall i e,
    snd (iterate_panels trigger i panels) = Some e ->
    is_YunohostError e = false.
Proof.
  induction panels as [| p rest IH]; intros i e; simpl; [discriminate |].
  pose proof (@iterate_panel_builtin trigger i p) as Hp.
  destruct (iterate_panel trigger i p) as [items [e1 |]]; simpl in *.
  - intros H. inversion H. subst. apply Hp. reflexivity.
  - apply IH.
Qed.

Lemma _iterate_builtin config trigger e :
  snd (_iterate config trigger) = Some e -> is_YunohostError e = false.
Proof.
  unfold _iterate.
  destruct (Py.iter (Dict.get config "panels" (VList []))) as [l | e1] eqn:E1.
  - apply iterate_panels_builtin.
  - intros H. inversion H. subst. eapply iter_builtin. exact E1.
Qed.

Lemma first_option_builtin (config : dict) (e : exn) :
  first_option config = Err e -> is_YunohostError e = false.
Proof.
  unfold first_option. intros H.
  repeat match type of H with
         | match Py.getitem ?c ?k with _ => _ end = _ =>
             let E := fresh "E" in
             destruct (Py.getitem c k) eqn:E;
             [| inversion H; subst; eapply getitem_builtin; exact E]
         end.
  eapply getitem_builtin. exact H.
Qed.

(** *** The exceptions of the loader after the version check *)

Section LoaderErrors.

Variable Q : exn -> bool.
Hypothesis Q_builtin : forall e, is_YunohostError e = false -> Q e = true.

Lemma only_build_item recur raw_infos level properties sublevel search_key
      out key value :
  (forall d l, raises_only Q (recur d l)) ->
  raises_only Q
    (build_item recur raw_infos level properties sublevel search_key
                out key value).
Proof.
  intros Hrec. unfold build_item.
  assert (Hprop : raises_only Q
            (when (negb (Py.mem_list (VStr key) properties))
               (logger "warning"
                  ("Unknown key '" ++ key ++ "' found in config panel")) ;;
             ret (Dict.set out key
                    (if negb (Str.mem key ["ask"; "help"; "name"])
                     then value else VDict [("en", value)])))).
  { apply only_bind; [apply only_when, only_logger | intros; apply only_ret]. }
  destruct value; try exact Hprop.
  destruct sublevel as [sub |]; [| exact Hprop].
  destruct (negb (Py.mem_list (VStr key) properties)); [| exact Hprop].
  destruct (Py.truthy search_key && negb (Py.eqb (VStr key) search_key));
    [apply only_ret |].
  apply only_bind; [apply Hrec |]. intros subnode. cbv zeta.
  destruct (Dict.lookup sub out) as [[] |];
    first [apply only_ret | apply only_raise, Q_builtin; reflexivity].
Qed.

Lemma only_build_items recur raw_infos level properties sublevel search_key
      items :
  (forall d l, raises_only Q (recur d l)) ->
  forall out,
    raises_only Q
      (build_items recur raw_infos level properties sublevel search_key
                   items out).
Proof.
  intros Hrec.
  induction items as [| [key value] items IH]; intros out; simpl.
  - apply only_ret.
  - apply only_bind; [apply only_build_item; exact Hrec | intros; apply IH].
Qed.

Lemma only_build_levels n filter_key :
  forall raw_infos level,
    raises_only Q (build_levels n filter_key raw_infos level).
Proof.
  induction n as [| n IH]; intros; simpl.
  - apply only_raise, Q_builtin. reflexivity.
  - unfold build_node. apply only_build_items. exact IH.
Qed.

Lemma only_build filter_key raw_infos level :
  raises_only Q (_build_internal_config_panel filter_key raw_infos level).
Proof. apply only_build_levels. Qed.

Hypothesis Q_forbidden :
  forall kw, Q (YunohostError "config_forbidden_keyword" kw) = true.

Lemma only_check_forbidden it u : raises_only Q (check_forbidden it u).
Proof.
  unfold check_forbidden. apply only_bind.
  - apply only_lift. intros e He. eapply Q_builtin, getitem_builtin, He.
  - intros id. apply only_when, only_raise, Q_forbidden.
Qed.

End LoaderErrors.

(* ================================================================= *)
(** ** Loading a description: the version check *)

Lemma os_path_exists_run (p : string) (w : world) :
  os_path_exists p w
  = (Ok (FS.exists_ p (fs w)), set_trace w (trace w ++ [EvIO Stat p])).
Proof. reflexivity. Qed.

Lemma read_toml_run (p : string) (w : world) (d : dict) :
  fault w "read_toml" = None ->
  FS.find p (fs w) = Some (NToml d) ->
  read_toml p w = (Ok d, set_trace w (trace w ++ [EvIO ReadToml p])).
Proof.
  intros Hfault Hfind.
  unfold read_toml, external, emit, modify, get_world, bind, ret.
  cbn [fault fs set_trace trace]. rewrite Hfault.
  cbn [fault fs set_trace trace]. rewrite Hfind. reflexivity.
Qed.

(** the exception has the key [k] of the translations *)
Definition is_error_key (k : string) (e : exn) : bool :=
  match e with
  | YunohostError k' _ | YunohostValidationError k' _ => String.eqb k' k
  | _ => false
  end.

Definition version_not_supported (version : pyvalue) : exn :=
  YunohostError "config_version_not_supported" [("version", version)].

(** With a description that can be read and a version that is a number,
    loading comes to the comparison of the version; what follows it raises
    exceptions of the interpreter, an unknown filter key or a forbidden
    keyword and nothing else. *)
Lemma load_reaches_version_check
      (env : Env) (self : ConfigPanel) (w : world)
      (raw : dict) (version : pyvalue) (number : pyfloat) :
  List.length (split_filter_key (filter_key self)) <= 3 ->
  FS.find (config_path self) (fs w) = Some (NToml raw) ->
  fault w "read_toml" = None ->
  Dict.lookup "version" raw = Some version ->
  py_float env version = Ok number ->
  exists (w2 : world) (tail : M ConfigPanel),
    _get_config_panel env self w
    = (when (Py.float_ltb number CONFIG_PANEL_VERSION_SUPPORTED)
         (raise (version_not_supported version)) ;;
       tail) w2
    /\ forall Q : exn -> bool,
        (forall e, is_YunohostError e = false -> Q e = true) ->
        (forall kw,
            Q (YunohostValidationError "config_unknown_filter_key" kw) = true) ->
        (forall kw, Q (YunohostError "config_forbidden_keyword" kw) = true) ->
        raises_only Q tail.
Proof.
  intros Hlen Hfind Hfault Hversion Hnumber.
  eexists. eexists. split.
  - unfold _get_config_panel.
    replace (3 <? List.length (split_filter_key (filter_key self)))
      with false by (symmetry; apply Nat.ltb_ge; exact Hlen).
    cbn [when].
    rewrite (bind_ok _ (eq_refl : ret tt w = (Ok tt, w))).
    rewrite (bind_ok _ (os_path_exists_run _ _)). cbv beta.
    unfold FS.exists_. rewrite Hfind. cbn [negb].
    unfold _get_toml.
    rewrite (bind_ok _ (@read_toml_run (config_path self)
                          (set_trace w _) raw Hfault Hfind)).
    cbv beta. unfold Py.getitem. rewrite Hversion.
    rewrite (bind_ok _ (eq_refl : lift (Ok version) _ = (Ok version, _))).
    cbv beta. rewrite Hnumber.
    rewrite (bind_ok _ (eq_refl : lift (Ok number) _ = (Ok number, _))).
    cbv beta. reflexivity.
  - intros Q Q_builtin Q_unknown Q_forbidden.
    apply only_bind; [apply only_build; exact Q_builtin |].
    intros tree. cbv zeta.
    destruct (first_option (config (set_config self tree))) as [o | e] eqn:E.
    + apply only_bind; [| intros; apply only_ret].
      apply only_for_gen.
      * intros it u. apply only_check_forbidden; assumption.
      * intros e He. eapply Q_builtin, _iterate_builtin, He.
    + pose proof (first_option_builtin _ E) as Hb.
      destruct e; try discriminate Hb; apply only_raise;
        first [apply Q_unknown | apply Q_builtin; reflexivity].
Qed.

(** C4, as the code has it.  A description is refused for its version when
    the version is a number below the supported one, and only then: a
    version that is not below it, newer ones included, never makes the load
    fail with the version error. *)
Theorem version_check_rejects_only_older
        (env : Env) (self : ConfigPanel) (w : world)
        (raw : dict) (version : pyvalue) (number : pyfloat) :
  List.length (split_filter_key (filter_key self)) <= 3 ->
  FS.find (config_path self) (fs w) = Some (NToml raw) ->
  fault w "read_toml" = None ->
  Dict.lookup "version" raw = Some version ->
  py_float env version = Ok number ->
  (Py.float_ltb number CONFIG_PANEL_VERSION_SUPPORTED = true ->
   fst (_get_config_panel env self w) = Err (version_not_supported version))
  /\ (Py.float_ltb number CONFIG_PANEL_VERSION_SUPPORTED = false ->
      forall e, fst (_get_config_panel env self w) = Err e ->
                is_error_key "config_version_not_supported" e = false).
Proof.
  intros Hlen Hfind Hfault Hversion Hnumber.
  destruct (@load_reaches_version_check env self w raw version number
              Hlen Hfind Hfault Hversion Hnumber)
    as (w2 & tail & Hrun & Htail).
  rewrite Hrun. split; intros Hlt; rewrite Hlt; cbn [when].
  - reflexivity.
  - rewrite (bind_ok _ (eq_refl : ret tt w2 = (Ok tt, w2))).
    intros e He. apply negb_true_iff.
    revert He.
    apply (Htail (fun e => negb (is_error_key "config_version_not_supported" e))).
    + intros []; simpl; congruence.
    + reflexivity.
    + reflexivity.
Qed.

(** *** A description to run the loader on *)

Definition toml_path : string := "/etc/yunohost/config_panel.toml".
Definition settings_path : string := "/etc/yunohost/settings.yml".

(** [version = ...], a panel [p1] and its section [s1] with the given
    options *)
Definition description (version : pyvalue) (options : dict) : dict :=
  [("version", version); ("p1", VDict [("s1", VDict options)])].

Definition boolean_option : dict := [("o1", VDict [("type", VStr "boolean")])].

Definition example_panel : ConfigPanel :=
  ConfigPanel_init toml_path (Some settings_path).

(** the load gave a tree *)
Definition loads (r : result ConfigPanel) : bool :=
  match r with
  | Ok self => Py.truthy (VDict (config self))
  | Err _ => false
  end.

Definition version_half : pyvalue := VFloat (FFinite (1 # 2)).
Definition version_one : pyvalue := VFloat (FFinite 1).
Definition version_two : pyvalue := VFloat (FFinite 2).

(** The theorem at work: version 0.5 is refused. *)
Lemma version_check_rejects_only_older_witness :
  fst (_get_config_panel plain_env example_panel
         (api_world [(toml_path,
                      NToml (description version_half boolean_option))]))
  = Err (version_not_supported version_half).
Proof.
  apply (proj1 (@version_check_rejects_only_older plain_env example_panel
                  (api_world [(toml_path,
                               NToml (description version_half boolean_option))])
                  (description version_half boolean_option)
                  version_half (FFinite (1 # 2))
                  (le_S _ _ (le_S _ _ (le_S _ _ (le_n 0))))
                  eq_refl eq_refl eq_refl eq_refl)).
  reflexivity.
Defined.

(** C4 as stated fails: version 2.0 is newer than the supported version and
    the description is loaded. *)
Lemma newer_version_is_loaded :
  loads (fst (_get_config_panel plain_env example_panel
                (api_world [(toml_path,
                             NToml (description version_two boolean_option))])))
  = true.
Proof. vm_compute. reflexivity. Qed.

(* ================================================================= *)
(** ** Loading a description: the check of the option ids *)

Lemma check_forbidden_ok (it : item) (u : unit) (w : world) (r : unit)
      (w' : world) :
  check_forbidden it u w = (Ok r, w') ->
  w' = w
  /\ exists id, Py.getitem (it_obj it) (VStr "id") = Ok id
                /\ Py.mem_list id forbidden_keywords = false.
Proof.
  unfold check_forbidden, bind, lift. intros H.
  destruct (Py.getitem (it_obj it) (VStr "id")) as [id | e]; [| discriminate].
  destruct (Py.mem_list id forbidden_keywords) eqn:E; simpl in H;
    [discriminate |].
  inversion H. split; [reflexivity |]. exists id. split; reflexivity || exact E.
Qed.

Lemma fold_check_forbidden_ok (items : list item) :
  forall u w r w',
    fold_items items check_forbidden u w = (Ok r, w') ->
    w' = w
    /\ forall it, In it items ->
         exists id, Py.getitem (it_obj it) (VStr "id") = Ok id
                    /\ Py.mem_list id forbidden_keywords = false.
Proof.
  induction items as [| it items IH]; intros u w r w' H; simpl in H.
  - inversion H. split; [reflexivity | intros it []].
  - apply bind_inv_ok in H. destruct H as (u1 & w1 & H1 & H).
    apply check_forbidden_ok in H1. destruct H1 as [-> Hid].
    apply IH in H. destruct H as [-> Hrest].
    split; [reflexivity |].
    intros it' [<- | Hin]; [exact Hid | apply Hrest; exact Hin].
Qed.

Lemma for_gen_inv_ok (S : Type) (g : gen) (body : item -> S -> M S) (s : S)
      (w : world) (r : S) (w' : world) :
  for_gen g body s w = (Ok r, w') ->
  snd g = None /\ fold_items (fst g) body s w = (Ok r, w').
Proof.
  unfold for_gen. intros H. apply bind_inv_ok in H.
  destruct H as (s1 & w1 & H1 & H).
  destruct (snd g); [discriminate |]. inversion H. subst.
  split; [reflexivity | exact H1].
Qed.

(** the exception for an option that has the id [id] *)
Definition forbidden_keyword (id : pyvalue) : exn :=
  YunohostError "config_forbidden_keyword" [("keyword", id)].

(** The options are looked at in the order of the tree, up to the first
    one that has an id of the list. *)
Lemma fold_check_forbidden_stops (pre : list item) (it : item)
      (post : list item) (id : pyvalue) (w : world) :
  (forall it', In it' pre ->
     exists id', Py.getitem (it_obj it') (VStr "id") = Ok id'
                 /\ Py.mem_list id' forbidden_keywords = false) ->
  Py.getitem (it_obj it) (VStr "id") = Ok id ->
  Py.mem_list id forbidden_keywords = true ->
  fold_items (pre ++ it :: post) check_forbidden tt w
  = (Err (forbidden_keyword id), w).
Proof.
  intros Hpre Hid Hreserved.
  induction pre as [| it' pre IH]; simpl.
  - apply bind_err. unfold check_forbidden, bind, lift.
    rewrite Hid. cbv beta iota. rewrite Hreserved. reflexivity.
  - destruct (Hpre it' (or_introl eq_refl)) as (id' & Hid' & Hfree).
    assert (Hstep : check_forbidden it' tt w = (Ok tt, w)).
    { unfold check_forbidden, bind, lift. rewrite Hid'. cbv beta iota.
      rewrite Hfree. reflexivity. }
    rewrite (bind_ok _ Hstep). apply IH.
    intros it'' Hin. apply Hpre. right. exact Hin.
Qed.

(** the state in which the description has been looked for and read *)
Definition after_reading (self : ConfigPanel) (w : world) : world :=
  snd (_get_toml self (snd (os_path_exists (config_path self) w))).

(** C5, as the code has it.  The ids are checked last: when the filter key
    has at most three segments, the description is read, its version is a
    number that is not below the supported one, the tree is built from it
    and has a first option, then loading fails with the error of the
    forbidden keyword, for the first option of the tree that has an id of
    the list.  And when a description that exists has been loaded, the
    generator of its options ran to its end and no option has an id of the
    list.  Ids are compared with the list only, not with one another. *)
Theorem load_refuses_forbidden_ids
        (env : Env) (self : ConfigPanel) (w : world) :
  (forall (raw : dict) (version : pyvalue) (number : pyfloat)
          (tree : dict) (w3 : world) (first : pyvalue)
          (pre : list item) (it : item) (post : list item) (id : pyvalue),
      List.length (split_filter_key (filter_key self)) <= 3 ->
      FS.find (config_path self) (fs w) = Some (NToml raw) ->
      fault w "read_toml" = None ->
      Dict.lookup "version" raw = Some version ->
      py_float env version = Ok number ->
      Py.float_ltb number CONFIG_PANEL_VERSION_SUPPORTED = false ->
      _build_internal_config_panel (split_filter_key (filter_key self))
                                   raw "root" (after_reading self w)
      = (Ok tree, w3) ->
      first_option tree = Ok first ->
      fst (_iterate tree ["option"]) = pre ++ it :: post ->
      (forall it', In it' pre ->
         exists id', Py.getitem (it_obj it') (VStr "id") = Ok id'
                     /\ Py.mem_list id' forbidden_keywords = false) ->
      Py.getitem (it_obj it) (VStr "id") = Ok id ->
      Py.mem_list id forbidden_keywords = true ->
      _get_config_panel env self w = (Err (forbidden_keyword id), w3))
  /\ (forall (loaded : ConfigPanel) (w' : world),
         FS.exists_ (config_path self) (fs w) = true ->
         _get_config_panel env self w = (Ok loaded, w') ->
         snd (_iterate (config loaded) ["option"]) = None
         /\ forall it, In it (fst (_iterate (config loaded) ["option"])) ->
              exists id, Py.getitem (it_obj it) (VStr "id") = Ok id
                         /\ Py.mem_list id forbidden_keywords = false).
Proof.
  split.
  - intros raw version number tree w3 first pre it post id
           Hlen Hfind Hfault Hversion Hnumber Hlt Hbuild Hfirst Hitems
           Hpre Hid Hreserved.
    unfold after_reading, _get_toml in Hbuild.
    rewrite os_path_exists_run in Hbuild. cbn [snd] in Hbuild.
    rewrite (@read_toml_run (config_path self) (set_trace w _) raw
               Hfault Hfind) in Hbuild.
    cbn [snd] in Hbuild.
    unfold _get_config_panel.
    replace (3 <? List.length (split_filter_key (filter_key self)))
      with false by (symmetry; apply Nat.ltb_ge; exact Hlen).
    cbn [when].
    rewrite (bind_ok _ (eq_refl : ret tt w = (Ok tt, w))).
    rewrite (bind_ok _ (os_path_exists_run _ _)). cbv beta.
    unfold FS.exists_. rewrite Hfind. cbn [negb].
    unfold _get_toml.
    rewrite (bind_ok _ (@read_toml_run (config_path self)
                          (set_trace w _) raw Hfault Hfind)).
    cbv beta. unfold Py.getitem. rewrite Hversion.
    rewrite (bind_ok _ (eq_refl : lift (Ok version) _ = (Ok version, _))).
    cbv beta. rewrite Hnumber.
    rewrite (bind_ok _ (eq_refl : lift (Ok number) _ = (Ok number, _))).
    cbv beta. rewrite Hlt. cbn [when].
    rewrite (bind_ok _ (eq_refl : ret tt _ = (Ok tt, _))).
    rewrite (bind_ok _ Hbuild). cbv zeta. cbn [config set_config].
    rewrite Hfirst. apply bind_err. unfold for_gen. apply bind_err.
    rewrite Hitems. apply fold_check_forbidden_stops; assumption.
  - intros loaded w' Hexists H. unfold _get_config_panel in H.
    apply bind_inv_ok in H. destruct H as (u & w1 & H1 & H).
    assert (w1 = w) as ->.
    { destruct (3 <? List.length (split_filter_key (filter_key self)));
        simpl in H1; inversion H1; reflexivity. }
    rewrite (bind_ok _ (os_path_exists_run _ _)) in H. cbv beta in H.
    rewrite Hexists in H. cbn [negb] in H.
    apply bind_inv_ok in H. destruct H as (toml & w2 & _ & H).
    apply bind_inv_ok in H. destruct H as (version & w3 & _ & H).
    apply bind_inv_ok in H. destruct H as (number & w4 & _ & H).
    apply bind_inv_ok in H. destruct H as (u' & w5 & _ & H).
    apply bind_inv_ok in H. destruct H as (tree & w6 & _ & H).
    cbv zeta in H.
    destruct (first_option (config (set_config self tree))) as [o | e].
    + apply bind_inv_ok in H. destruct H as (u'' & w7 & Hloop & H).
      inversion H. subst.
      apply for_gen_inv_ok in Hloop. destruct Hloop as [Hend Hloop].
      split; [exact Hend |].
      apply fold_check_forbidden_ok in Hloop. apply Hloop.
    + destruct e; discriminate H.
Qed.

(** *** Two sections with an option of the same id *)

Definition two_sections : dict :=
  [("version", version_one);
   ("p1", VDict [("s1", VDict boolean_option);
                 ("s2", VDict boolean_option)])].

(** the ids of the options of a loaded description, in the order of the
    tree *)
Definition option_ids (r : result ConfigPanel) : list (result pyvalue) :=
  match r with
  | Ok self =>
      map (fun it => Py.getitem (it_obj it) (VStr "id"))
          (fst (_iterate (config self) ["option"]))
  | Err _ => []
  end.

(** a description whose second option has an id of the list *)
Definition reserved_description : dict :=
  description version_one
    [("o1", VDict [("type", VStr "boolean")]);
     ("old", VDict [("type", VStr "string")]);
     ("app", VDict [("type", VStr "string")])].

(** The theorem at work: the option [o1] is let through, the option [old]
    is the first that is refused. *)
Lemma load_refuses_forbidden_ids_witness :
  fst (_get_config_panel plain_env example_panel
         (api_world [(toml_path, NToml reserved_description)]))
  = Err (forbidden_keyword (VStr "old")).
Proof.
  pose (w := api_world [(toml_path, NToml reserved_description)]).
  pose (built :=
          _build_internal_config_panel
            (split_filter_key (filter_key example_panel))
            reserved_description "root" (after_reading example_panel w)).
  pose (tree := match fst built with Ok tree => tree | Err _ => [] end).
  pose (items := fst (_iterate tree ["option"])).
  refine (f_equal fst
            (proj1 (@load_refuses_forbidden_ids plain_env example_panel w)
               reserved_description version_one (FFinite 1)
               tree (snd built) _ (firstn 1 items) _ _ (VStr "old")
               _ eq_refl eq_refl eq_refl eq_refl eq_refl _ _ _ _ _ _)).
  - vm_compute. repeat constructor.
  - vm_compute. reflexivity.
  - vm_compute. reflexivity.
  - vm_compute. reflexivity.
  - intros it' Hin. vm_compute in Hin. destruct Hin as [<- | []].
    exists (VStr "o1"). split; reflexivity.
  - vm_compute. reflexivity.
  - vm_compute. reflexivity.
Defined.

(** C5 as stated fails: the two options of this description have the id
    [o1], and the description is loaded. *)
Lemma duplicate_ids_are_loaded :
  option_ids (fst (_get_config_panel plain_env example_panel
                     (api_world [(toml_path, NToml two_sections)])))
  = [Ok (VStr "o1"); Ok (VStr "o1")].
Proof. vm_compute. reflexivity. Qed.

(** The checks that come before win: with a version below the supported
    one the error is that of the version, whatever the ids. *)
Lemma forbidden_id_with_old_version :
  fst (_get_config_panel plain_env example_panel
         (api_world [(toml_path,
                      NToml (description version_half
                               [("old", VDict [("type", VStr "string")])]))]))
  = Err (version_not_supported version_half).
Proof. vm_compute. reflexivity. Qed.

(* ================================================================= *)
(** ** A password option that declares a default *)

Definition password_no_default (name : pyvalue) : exn :=
  YunohostValidationError "app_argument_password_no_default" [("name", name)].

Lemma lookup_set_other (k k' : string) (d : dict) (v : pyvalue) :
  String.eqb k k' = false ->
  Dict.lookup k (Dict.set d k' v) = Dict.lookup k d.
Proof.
  intros Hk. induction d as [| [k0 v0] d IH]; simpl.
  - rewrite Hk. reflexivity.
  - destruct (String.eqb k' k0) eqn:E; simpl.
    + destruct (String.eqb k k0) eqn:E0; [| reflexivity].
      apply String.eqb_eq in E. apply String.eqb_eq in E0. subst.
      rewrite String.eqb_refl in Hk. discriminate Hk.
    + destruct (String.eqb k k0); [reflexivity | exact IH].
Qed.

Lemma PasswordQuestion_init_default (question : dict) (name default : pyvalue)
      (w : world) :
  Dict.lookup "name" question = Some name ->
  Dict.lookup "default" question = Some default ->
  is_None default = false ->
  Py.eqb default (VStr "") = false ->
  PasswordQuestion_init question w = (Err (password_no_default name), w).
Proof.
  intros Hname Hdefault Hnone Hempty.
  unfold PasswordQuestion_init, Question_init, bind, lift, ret, raise.
  unfold Py.getitem. rewrite Hname. cbv beta iota zeta.
  replace (Dict.get question "default" VNone) with default
    by (unfold Dict.get; rewrite Hdefault; reflexivity).
  change (Py.eqb (attr _ "default") (VStr ""))
    with (Py.eqb default (VStr "")).
  rewrite Hempty.
  change (attr _ "default") with default.
  rewrite Hnone. reflexivity.
Qed.

Lemma ask_each_password_default
      (env : Env) (question : dict) (rest : list pyvalue) (prefilled : dict)
      (name : string) (default : pyvalue) (w : world) :
  Dict.lookup "type" question = Some (VStr "password") ->
  Dict.lookup "name" question = Some (VStr name) ->
  Dict.lookup "default" question = Some default ->
  is_None default = false ->
  Py.eqb default (VStr "") = false ->
  ask_each env (VDict question :: rest) prefilled w
  = (Err (password_no_default (VStr name)), w).
Proof.
  intros Htype Hname Hdefault Hnone Hempty.
  cbn [ask_each]. unfold Dict.get at 1. rewrite Htype.
  change (parser_for (VStr "password")) with (Ok PasswordQuestion).
  rewrite (bind_ok _ (eq_refl : lift (Ok PasswordQuestion) w = (Ok _, w))).
  cbv beta. unfold Py.getitem. rewrite Hname.
  rewrite (bind_ok _ (eq_refl : lift (Ok (VStr name)) w = (Ok _, w))).
  cbv beta. cbn [prefilled_get].
  rewrite (bind_ok _ (eq_refl : lift (Ok _) w = (Ok _, w))).
  cbv beta zeta. apply bind_err. cbn [instantiate].
  apply PasswordQuestion_init_default with (default := default);
    try assumption; rewrite lookup_set_other; trivial.
Qed.

(** C8, as the code has it.  Loading a description never fails with the
    error of a password default, whatever its options declare; the error is
    raised where the options are asked: by the constructor of the password
    question, and so by the collector of answers, for a password option
    that declares a default other than the empty string. *)
Theorem password_default_refused_when_asked (env : Env) :
  (forall self w raw version number,
      List.length (split_filter_key (filter_key self)) <= 3 ->
      FS.find (config_path self) (fs w) = Some (NToml raw) ->
      fault w "read_toml" = None ->
      Dict.lookup "version" raw = Some version ->
      py_float env version = Ok number ->
      forall e, fst (_get_config_panel env self w) = Err e ->
                is_error_key "app_argument_password_no_default" e = false)
  /\ (forall question name default w,
         Dict.lookup "name" question = Some name ->
         Dict.lookup "default" question = Some default ->
         is_None default = false ->
         Py.eqb default (VStr "") = false ->
         instantiate PasswordQuestion question w
         = (Err (password_no_default name), w))
  /\ (forall question rest prefilled name default w,
         Dict.lookup "type" question = Some (VStr "password") ->
         Dict.lookup "name" question = Some (VStr name) ->
         Dict.lookup "default" question = Some default ->
         is_None default = false ->
         Py.eqb default (VStr "") = false ->
         ask_each env (VDict question :: rest) prefilled w
         = (Err (password_no_default (VStr name)), w)).
Proof.
  split; [| split].
  - intros self w raw version number Hlen Hfind Hfault Hversion Hnumber.
    destruct (@load_reaches_version_check env self w raw version number
                Hlen Hfind Hfault Hversion Hnumber)
      as (w2 & tail & Hrun & Htail).
    rewrite Hrun.
    assert (Hall : raises_only
              (fun e => negb (is_error_key "app_argument_password_no_default" e))
              (when (Py.float_ltb number CONFIG_PANEL_VERSION_SUPPORTED)
                 (raise (version_not_supported version)) ;; tail)).
    { apply only_bind.
      - apply only_when, only_raise. reflexivity.
      - intros _. apply Htail.
        + intros []; simpl; congruence.
        + reflexivity.
        + reflexivity. }
    intros e He. apply negb_true_iff. exact (Hall w2 e He).
  - intros question name default w. apply PasswordQuestion_init_default.
  - intros question rest prefilled name default w.
    apply ask_each_password_default.
Qed.

(** *** A description with such an option *)

Definition password_option : dict :=
  [("pw", VDict [("type", VStr "password"); ("default", VStr "hunter2")])].

Definition password_world : world :=
  api_world [(toml_path, NToml (description version_one password_option))].

(** The theorem at work: the option as the loader leaves it, when it is
    asked. *)
Lemma password_default_refused_when_asked_witness :
  ask_each plain_env
    [VDict [("type", VStr "password"); ("default", VStr "hunter2");
            ("id", VStr "pw"); ("name", VStr "pw")]]
    [] password_world
  = (Err (password_no_default (VStr "pw")), password_world).
Proof.
  apply (proj2 (proj2 (password_default_refused_when_asked plain_env)))
    with (default := VStr "hunter2"); reflexivity.
Defined.

(** C8 as stated fails: the description is loaded. *)
Lemma password_default_is_loaded :
  loads (fst (_get_config_panel plain_env example_panel password_world))
  = true.
Proof. vm_compute. reflexivity. Qed.

(** It is [set] that fails, once the values are read and the tree is
    hydrated; [get] answers. *)
Lemma password_default_fails_in_set :
  fst (set plain_env (with_save_mode example_panel "full") (Some "p1.s1.pw")
           (VStr "secret") None None Logger password_world)
  = Err (password_no_default (VStr "pw")).
Proof. vm_compute. reflexivity. Qed.

Lemma password_default_passes_get :
  is_ok (fst (get plain_env example_panel (Some "p1.s1") "classic"
                  password_world))
  = true.
Proof. vm_compute. reflexivity. Qed.

(* ================================================================= *)
(** ** [get] of one option in classic mode *)

Lemma _get_config_panel_ok (env : Env) (self : ConfigPanel) (w : world)
      (loaded : ConfigPanel) (w' : world) :
  _get_config_panel env self w = (Ok loaded, w') ->
  loaded = self \/ exists tree, loaded = set_config self tree.
Proof.
  intros H. unfold _get_config_panel in H.
  apply bind_inv_ok in H. destruct H as (u & w1 & _ & H).
  apply bind_inv_ok in H. destruct H as (found & w2 & _ & H).
  destruct (negb found).
  - apply bind_inv_ok in H. destruct H as (u1 & w3 & _ & H).
    inversion H. left. reflexivity.
  - apply bind_inv_ok in H. destruct H as (toml & w3 & _ & H).
    apply bind_inv_ok in H. destruct H as (version & w4 & _ & H).
    apply bind_inv_ok in H. destruct H as (number & w5 & _ & H).
    apply bind_inv_ok in H. destruct H as (u' & w6 & _ & H).
    apply bind_inv_ok in H. destruct H as (tree & w7 & _ & H).
    cbv zeta in H.
    destruct (first_option (config (set_config self tree))) as [o | e].
    + apply bind_inv_ok in H. destruct H as (u'' & w8 & _ & H).
      inversion H. right. exists tree. reflexivity.
    + destruct e; discriminate H.
Qed.

Lemma _load_current_values_ok (self : ConfigPanel) (w : world)
      (valued : ConfigPanel) (w' : world) :
  _load_current_values self w = (Ok valued, w') ->
  exists d, valued = set_values self d.
Proof.
  intros H. unfold _load_current_values in H.
  apply bind_inv_ok in H. destruct H as (on_disk & w1 & _ & H).
  apply bind_inv_ok in H. destruct H as (defaults & w2 & _ & H).
  inversion H. eexists. reflexivity.
Qed.

Lemma _hydrate_ok (env : Env) (self : ConfigPanel) (w : world)
      (hydrated : ConfigPanel) (w' : world) :
  _hydrate env self w = (Ok hydrated, w') ->
  exists tree, hydrated = set_config self tree.
Proof.
  intros H. unfold _hydrate in H.
  apply bind_inv_ok in H. destruct H as (u & w1 & _ & H).
  apply bind_inv_ok in H. destruct H as (tree & w2 & _ & H).
  inversion H. eexists. reflexivity.
Qed.

(** C9.  In classic mode, with a key of three segments, what [get] returns
    is the entry of the last segment in the values that
    [_load_current_values] gave for the loaded description, as it is
    stored: no question class is looked up, nothing is humanized and
    nothing is masked. *)
Theorem get_classic_returns_stored_value
        (env : Env) (self : ConfigPanel) (key : string) (w : world)
        (v : pyvalue) (self' : ConfigPanel) (w' : world) :
  Str.count "." key = 2 ->
  get env self (Some key) "classic" w = (Ok (v, self'), w') ->
  v = Dict.get (values self') (Str.last_segment key) VNone
  /\ exists loaded w1 w2,
      _get_config_panel env (set_filter_key self key) w = (Ok loaded, w1)
      /\ _load_current_values loaded w1
         = (Ok (set_values loaded (values self')), w2).
Proof.
  intros Hcount H. unfold get in H. cbv zeta in H.
  apply bind_inv_ok in H. destruct H as (loaded & w1 & Hload & H).
  apply bind_inv_ok in H. destruct H as (u & w1' & Hwhen & H).
  assert (w1' = w1) as ->.
  { destruct (negb (Py.truthy (VDict (config loaded)))); simpl in Hwhen;
      inversion Hwhen; reflexivity. }
  apply bind_inv_ok in H. destruct H as (valued & w2 & Hvalues & H).
  apply bind_inv_ok in H. destruct H as (hydrated & w3 & Hhydrate & H).
  destruct (_load_current_values_ok _ _ Hvalues) as (d & ->).
  destruct (_hydrate_ok _ _ _ Hhydrate) as (tree & ->).
  assert (Hkey : filter_key (set_config (set_values loaded d) tree) = key).
  { destruct (_get_config_panel_ok _ _ _ Hload) as [-> | (t & ->)];
      reflexivity. }
  rewrite Hkey, Hcount in H. cbn [Nat.eqb String.eqb Ascii.eqb Bool.eqb andb] in H.
  inversion H. subst. split; [reflexivity |].
  exists loaded, w1, w2. split; [exact Hload | exact Hvalues].
Qed.

(** *** A stored password *)

Definition secret_option : dict := [("pw", VDict [("type", VStr "password")])].

Definition stored_world (options stored : dict) : world :=
  api_world [(toml_path, NToml (description version_one options));
             (settings_path, NYaml stored)].

Definition secret_world : world :=
  stored_world secret_option [("pw", VStr "s3cret")].

(** what [get] returns *)
Definition returned (r : result (pyvalue * ConfigPanel) * world)
  : result pyvalue :=
  match fst r with
  | Ok (v, _) => Ok v
  | Err e => Err e
  end.

(** The theorem at work: the stored password is what comes back. *)
Lemma get_classic_returns_stored_value_witness :
  VStr "s3cret"
  = Dict.get
      (values
         (match fst (get plain_env example_panel (Some "p1.s1.pw") "classic"
                         secret_world) with
          | Ok (_, self') => self'
          | Err _ => example_panel
          end))
      (Str.last_segment "p1.s1.pw") VNone.
Proof.
  refine (proj1 (@get_classic_returns_stored_value plain_env example_panel
                   "p1.s1.pw" secret_world (VStr "s3cret") _ _ eq_refl _)).
  vm_compute. reflexivity.
Defined.

Lemma get_classic_exposes_password :
  returned (get plain_env example_panel (Some "p1.s1.pw") "classic"
                secret_world)
  = Ok (VStr "s3cret").
Proof. vm_compute. reflexivity. Qed.

(** The same option read through its section is masked. *)
Lemma get_classic_masks_password_in_section :
  returned (get plain_env example_panel (Some "p1.s1") "classic"
                secret_world)
  = Ok (VDict [("p1.s1.pw",
                VDict [("ask", VNone);
                       ("value", VStr "**************")])]).
Proof. vm_compute. reflexivity. Qed.

(* ================================================================= *)
(** ** The [try] statement of [set] *)

(** *** Files that are removed *)

Lemma find_filter_none (f : string * node -> bool) (p : string)
      (l : list (string * node)) :
  FS.find p l = None -> FS.find p (filter f l) = None.
Proof.
  induction l as [| [p' n] l IH]; simpl; [reflexivity |].
  destruct (String.eqb p p') eqn:E; [discriminate |].
  intros H. destruct (f (p', n)); simpl; [rewrite E |]; apply IH; exact H.
Qed.

Lemma find_remove_tree_same (p : string) (l : list (string * node)) :
  FS.find p (FS.remove_tree l p) = None.
Proof.
  unfold FS.remove_tree. induction l as [| [p' n] l IH]; simpl; [reflexivity |].
  destruct (String.eqb p' p) eqn:E; simpl; [exact IH |].
  destruct (String.prefix (p ++ "/") p'); simpl; [exact IH |].
  rewrite String.eqb_sym, E. exact IH.
Qed.

Lemma rmtree_run (p : string) (w : world) :
  fault w "rmtree" = None ->
  rmtree p w
  = (Ok tt,
     set_fs (set_trace w (trace w ++ [EvIO Rmtree p]))
            (FS.remove_tree (fs w) p)).
Proof.
  intros Hfault.
  unfold rmtree, external, emit, modify, get_world, bind, ret.
  cbn [fault fs set_trace trace]. rewrite Hfault. reflexivity.
Qed.

(** One pass of the loop of [clean_upload_dirs]. *)
Definition clean_one (upload_dir : string) : M unit :=
  found <- os_path_exists upload_dir ;;
  when found (rmtree upload_dir).

Lemma clean_one_run (d : string) (w : world) :
  fault w "rmtree" = None ->
  exists w', clean_one d w = (Ok tt, w')
             /\ fault w' = fault w
             /\ FS.find d (fs w') = None
             /\ forall p, FS.find p (fs w) = None -> FS.find p (fs w') = None.
Proof.
  intros Hfault. unfold clean_one.
  rewrite (bind_ok _ (os_path_exists_run _ _)). cbv beta.
  unfold FS.exists_. destruct (FS.find d (fs w)) as [n |] eqn:E; cbn [when].
  - rewrite rmtree_run by exact Hfault. eexists. split; [reflexivity |].
    cbn [fault fs set_fs set_trace]. split; [reflexivity |]. split.
    + apply find_remove_tree_same.
    + intros p Hp. apply find_filter_none. exact Hp.
  - eexists. split; [reflexivity |].
    cbn [fault fs set_trace]. split; [reflexivity |]. split; [exact E |].
    intros p Hp. exact Hp.
Qed.

Lemma clean_each_run (l : list string) :
  forall w,
    fault w "rmtree" = None ->
    exists w', for_each l clean_one w = (Ok tt, w')
               /\ (forall d, In d l -> FS.find d (fs w') = None)
               /\ forall p, FS.find p (fs w) = None -> FS.find p (fs w') = None.
Proof.
  induction l as [| d l IH]; intros w Hfault; cbn [for_each].
  - exists w. split; [reflexivity |]. split; [intros d [] | trivial].
  - destruct (@clean_one_run d w Hfault) as (w1 & H1 & Hf1 & Hd & Hkeep1).
    destruct (IH w1) as (w2 & H2 & Hl & Hkeep2);
      [rewrite Hf1; exact Hfault |].
    exists w2. rewrite (bind_ok _ H1). split; [exact H2 |]. split.
    + intros d' [<- | Hin]; [apply Hkeep2; exact Hd | apply Hl; exact Hin].
    + intros p Hp. apply Hkeep2, Hkeep1, Hp.
Qed.

Lemma clean_upload_dirs_run (w : world) :
  fault w "rmtree" = None ->
  fst (clean_upload_dirs w) = Ok tt
  /\ forall d, In d (upload_dirs w) ->
               FS.exists_ d (fs (snd (clean_upload_dirs w))) = false.
Proof.
  intros Hfault. unfold clean_upload_dirs.
  rewrite (bind_ok _ (eq_refl : get_world w = (Ok w, w))).
  destruct (@clean_each_run (upload_dirs w) w Hfault) as (w' & H & Hgone & _).
  change (for_each (upload_dirs w) clean_one w = (Ok tt, w')) in H.
  fold clean_one. rewrite H. split; [reflexivity |].
  intros d Hd. unfold FS.exists_. cbn [snd]. rewrite (Hgone d Hd). reflexivity.
Qed.

(** *** [FileQuestion.upload_dirs] is left as it is by the apply step *)

Definition same_upload_dirs (w w' : world) : Prop :=
  upload_dirs w' = upload_dirs w.

#[export] Instance same_upload_dirs_frame : Frame same_upload_dirs.
Proof.
  split.
  - intro w. reflexivity.
  - intros a b c Hab Hbc. unfold same_upload_dirs in *. congruence.
Qed.

Lemma up_emit (e : event) : keeps same_upload_dirs (emit e).
Proof. intro w. reflexivity. Qed.

Lemma up_logger (level msg : string) : keeps same_upload_dirs (logger level msg).
Proof. intro w. reflexivity. Qed.

Lemma up_external (name : string) : keeps same_upload_dirs (external name).
Proof.
  intro w. unfold external, bind, get_world. cbn.
  destruct (fault w name); reflexivity.
Qed.

Lemma up_set_fs (f : world -> list (string * node)) :
  keeps same_upload_dirs (modify (fun w => set_fs w (f w))).
Proof. intro w. reflexivity. Qed.

Lemma up_os_path_exists (p : string) : keeps same_upload_dirs (os_path_exists p).
Proof. intro w. reflexivity. Qed.

Lemma up_apply (env : Env) (self : ConfigPanel) :
  keeps same_upload_dirs (_apply env self).
Proof.
  pose proof up_emit. pose proof up_logger. pose proof up_external.
  pose proof up_set_fs. pose proof up_os_path_exists.
  unfold _apply, mkdir, write_to_yaml, _get_default_values, collect_default.
  frame; auto.
Qed.

Lemma up_apply_handlers (env : Env) (e : exn) :
  keeps same_upload_dirs (apply_handlers env e).
Proof.
  pose proof up_logger. unfold apply_handlers. frame; auto.
Qed.

(** *** The apply step under its handlers *)

Lemma apply_handlers_raises (env : Env) (e : exn) (w : world) :
  fst (apply_handlers env e w) = Err e.
Proof.
  unfold apply_handlers. destruct (is_YunohostError e); [reflexivity |].
  destruct e; reflexivity.
Qed.

(** the body of the [try] statement: the apply step and the handlers *)
Definition apply_attempt (env : Env) (self : ConfigPanel) : M unit :=
  outcome <- catch (_apply env self) ;;
  match outcome with
  | Ok _ => ret tt
  | Err e => apply_handlers env e
  end.

Lemma apply_guarded_unfold (env : Env) (self : ConfigPanel) :
  apply_guarded env self
  = try_finally (apply_attempt env self) clean_upload_dirs.
Proof. reflexivity. Qed.

Lemma apply_attempt_result (env : Env) (self : ConfigPanel) (w : world) :
  fst (apply_attempt env self w) = fst (_apply env self w).
Proof.
  unfold apply_attempt, bind, catch. cbv beta iota.
  destruct (fst (_apply env self w)) as [[] | e];
    [reflexivity | apply apply_handlers_raises].
Qed.

Lemma keeps_apply_attempt (env : Env) (P : event -> bool) (self : ConfigPanel) :
  (forall op p, P (EvIO op p) = true) ->
  (forall l m, P (EvLog l m) = true) ->
  keeps (ext_by P) (apply_attempt env self).
Proof.
  intros P_io P_log. unfold apply_attempt, apply_handlers. frame.
Qed.

Lemma up_apply_attempt (env : Env) (self : ConfigPanel) :
  keeps same_upload_dirs (apply_attempt env self).
Proof.
  pose proof (up_apply env). pose proof (up_apply_handlers env).
  unfold apply_attempt. frame; auto.
Qed.

(** no call of a method of the operation logger *)
Definition is_operation_logger_event (e : event) : bool :=
  match e with
  | EvOperationLogger _ => true
  | _ => false
  end.

Definition not_operation_logger (e : event) : bool :=
  negb (is_operation_logger_event e).

(** When removing a directory does not fail, [set]'s guarded apply step
    ends as the apply step did, with every upload directory gone and
    without a call to the operation logger. *)
Lemma apply_guarded_run (env : Env) (self : ConfigPanel) (w : world) :
  fault w "rmtree" = None ->
  fst (apply_guarded env self w) = fst (_apply env self w)
  /\ (forall d, In d (upload_dirs w) ->
                FS.exists_ d (fs (snd (apply_guarded env self w))) = false)
  /\ ext_by not_operation_logger w (snd (apply_guarded env self w)).
Proof.
  intros Hfault. split; [| split].
  - rewrite apply_guarded_unfold. unfold try_finally, bind, catch, lift.
    cbv beta iota.
    pose proof (keeps_apply_attempt env any_event self
                  (fun _ _ => eq_refl) (fun _ _ => eq_refl) w)
      as (_ & _ & Hf & _).
    destruct (@clean_upload_dirs_run (snd (apply_attempt env self w)))
      as [Hok _]; [rewrite Hf; exact Hfault |].
    destruct (clean_upload_dirs (snd (apply_attempt env self w)))
      as [[[] | e] wc]; simpl in Hok; [| discriminate Hok].
    cbn [fst]. apply apply_attempt_result.
  - rewrite apply_guarded_unfold. unfold try_finally, bind, catch, lift.
    cbv beta iota.
    pose proof (keeps_apply_attempt env any_event self
                  (fun _ _ => eq_refl) (fun _ _ => eq_refl) w)
      as (_ & _ & Hf & _).
    pose proof (up_apply_attempt env self w) as Hup.
    unfold same_upload_dirs in Hup.
    destruct (@clean_upload_dirs_run (snd (apply_attempt env self w)))
      as [Hok Hgone]; [rewrite Hf; exact Hfault |].
    rewrite Hup in Hgone.
    destruct (clean_upload_dirs (snd (apply_attempt env self w)))
      as [[[] | e] wc]; simpl in Hok; [| discriminate Hok].
    exact Hgone.
  - apply keeps_apply_guarded; intros; reflexivity.
Qed.

(* ================================================================= *)
(** ** [set] when the apply step fails *)

(** *** A write that fails *)

Definition upload_dir : string := "/tmp/ynh_filequestion_0".

(** the settings of the boolean option, an upload directory left by a file
    question, and a file system that refuses the write of the settings *)
Definition failing_write_world : world := {|
  interface_type := "api";
  isatty := false;
  stdin := [];
  fs := [(toml_path, NToml (description version_one boolean_option));
         (settings_path, NYaml [("o1", VInt 0)]);
         (upload_dir, NDir)];
  fault := fun name =>
             if String.eqb name "write_to_yaml"
             then Some (MoulinetteError "cannot_write_file")
             else None;
  yes_answers := declared_yes_answers;
  no_answers := declared_no_answers;
  upload_dirs := [upload_dir];
  oplog_instances := [];
  domains := ["domain.tld"];
  maindomain := "domain.tld";
  users := [];
  tmp_seed := 1;
  trace := [];
|}.

Definition full_panel : ConfigPanel := with_save_mode example_panel "full".

Definition failing_set : result ConfigPanel * world :=
  set plain_env full_panel (Some "p1.s1.o1") (VStr "yes") None None Logger
      failing_write_world.

Lemma failing_set_removes_upload_dir :
  FS.exists_ upload_dir (fs (snd failing_set)) = false.
Proof. vm_compute. reflexivity. Qed.

(** C2 as stated fails: the operation was started and [set] has raised,
    and the only call to the operation logger is the one that started it. *)
Lemma operation_logger_not_closed :
  (is_ok (fst failing_set),
   filter is_operation_logger_event (trace (snd failing_set)))
  = (false, [EvOperationLogger "start"]).
Proof. vm_compute. reflexivity. Qed.

(** An error before the apply step leaves the upload directories: here the
    option has no value yet and hydration raises. *)
Definition unset_world : world :=
  set_upload_dirs
    (api_world [(toml_path, NToml (description version_one boolean_option));
                (upload_dir, NDir)])
    [upload_dir].

Lemma upload_dir_left_when_hydration_fails :
  (is_ok (fst (set plain_env full_panel (Some "p1.s1.o1") (VStr "yes")
                   None None Logger unset_world)),
   FS.exists_ upload_dir
     (fs (snd (set plain_env full_panel (Some "p1.s1.o1") (VStr "yes")
                   None None Logger unset_world))))
  = (false, true).
Proof. vm_compute. reflexivity. Qed.

(* ================================================================= *)
(** ** [set] without an operation logger *)


Lemma find_put_same (l : list (string * node)) (p : string) (n : node) :
  FS.find p (FS.put l p n) = Some n.
Proof.
  induction l as [| [p' n'] l IH]; simpl.
  - rewrite String.eqb_refl. reflexivity.
  - destruct (String.eqb p p') eqn:E; simpl; rewrite E; [reflexivity | exact IH].
Qed.

Lemma write_to_yaml_ok (p : string) (d : dict) (w w' : world) :
  write_to_yaml p d w = (Ok tt, w') ->
  trace w' = trace w ++ [EvIO (WriteYaml d) p]
  /\ FS.find p (fs w') = Some (NYaml d).
Proof.
  unfold write_to_yaml, external, emit, modify, get_world, bind, ret.
  cbn [fault fs set_trace trace].
  destruct (fault w "write_to_yaml"); cbn; intros H; inversion H.
  split; [reflexivity | apply find_put_same].
Qed.

Lemma ext_in (w w' : world) (e : event) :
  ext w w' -> In e (trace w) -> In e (trace w').
Proof.
  intros (_ & _ & _ & evs & -> & _) Hin. apply in_or_app. left. exact Hin.
Qed.

(** When the apply step returns, the settings have been written. *)
Lemma _apply_ok (env : Env) (self : ConfigPanel) (w w' : world) :
  _apply env self w = (Ok tt, w') ->
  exists path d,
    save_path self = Some path
    /\ In (EvIO (WriteYaml d) path) (trace w')
    /\ FS.find path (fs w') = Some (NYaml d).
Proof.
  intros H. unfold _apply in H.
  apply bind_inv_ok in H. destruct H as (u & w1 & _ & H).
  apply bind_inv_ok in H. destruct H as (path & w2 & Hpath & H).
  destruct (save_path self) as [p |]; [| discriminate Hpath].
  inversion Hpath. subst. cbv zeta in H.
  apply bind_inv_ok in H. destruct H as (found & w3 & _ & H).
  apply bind_inv_ok in H. destruct H as (u1 & w4 & _ & H).
  apply bind_inv_ok in H. destruct H as (d & w5 & _ & H).
  apply write_to_yaml_ok in H. destruct H as [Htrace Hfind].
  exists path, d. split; [reflexivity |]. split; [| exact Hfind].
  rewrite Htrace. apply in_or_app. right. left. reflexivity.
Qed.

Lemma apply_attempt_ok (env : Env) (self : ConfigPanel) (w : world) :
  fst (apply_attempt env self w) = Ok tt ->
  apply_attempt env self w = _apply env self w.
Proof.
  pose proof (apply_handlers_raises env) as Hraises.
  unfold apply_attempt, bind, catch. cbv beta iota.
  destruct (_apply env self w) as [[[] | e] wa]; cbn [fst snd].
  - reflexivity.
  - rewrite Hraises. discriminate.
Qed.

Lemma apply_guarded_ok (env : Env) (self : ConfigPanel) (w w2 : world) :
  apply_guarded env self w = (Ok tt, w2) ->
  exists wa, _apply env self w = (Ok tt, wa) /\ ext wa w2.
Proof.
  rewrite apply_guarded_unfold. unfold try_finally. intros H.
  apply bind_inv_ok in H. destruct H as (r & wb & Hbody & H).
  apply bind_inv_ok in H. destruct H as (u & wc & Hclean & H).
  unfold catch in Hbody. inversion Hbody. subst. clear Hbody.
  inversion H. subst.
  match goal with
  | Hr : fst (apply_attempt env self w) = Ok tt |- _ =>
      pose proof (apply_attempt_ok env self w Hr) as Hsame
  end.
  rewrite Hsame in *.
  exists (snd (_apply env self w)). split.
  - destruct (_apply env self w) as [res wa]. simpl in *. congruence.
  - eapply keeps_run; [| exact Hclean].
    apply keeps_clean_upload_dirs; intros; reflexivity.
Qed.


(** *** The boolean option, with a value in the settings *)

Definition boolean_world : world :=
  stored_world boolean_option [("o1", VInt 0)].

Definition set_yes (operation_logger : operation_logger_arg)
  : result ConfigPanel * world :=
  set plain_env full_panel (Some "p1.s1.o1") (VStr "yes") None None
      operation_logger boolean_world.

(** The error comes after the write. *)
Lemma set_without_operation_logger_persists :
  (match fst (set_yes NoLogger) with Ok _ => None | Err e => Some e end,
   FS.find settings_path (fs (snd (set_yes NoLogger))))
  = (Some (AttributeError "NoneType" "success"),
     Some (NYaml [("o1", VInt 1)])).
Proof. vm_compute. reflexivity. Qed.

(* ================================================================= *)
(** ** [set]: when the arguments are checked *)

(** *** Computations that only add events *)

(** From [w] to [w'] nothing has changed but the trace, which has grown by
    events that satisfy [P]. *)
Definition only_events (P : event -> bool) (w w' : world) : Prop :=
  exists evs, w' = set_trace w (trace w ++ evs) /\ forallb P evs = true.

#[export] Instance only_events_frame (P : event -> bool)
  : Frame (only_events P).
Proof.
  split.
  - intro w. exists []. split; [| reflexivity].
    rewrite app_nil_r. destruct w. reflexivity.
  - intros a b c (e1 & -> & H1) (e2 & -> & H2). exists (e1 ++ e2). split.
    + cbn [trace set_trace]. rewrite app_assoc. reflexivity.
    + rewrite forallb_app, H1, H2. reflexivity.
Qed.

Lemma only_events_ext (P : event -> bool) (w w' : world) :
  only_events P w w' -> ext_by P w w' /\ fs w' = fs w.
Proof.
  intros (evs & -> & H). split; [| reflexivity].
  repeat split. exists evs. split; [reflexivity | exact H].
Qed.

Section OnlyEvents.

Variable P : event -> bool.

Lemma events_emit (e : event) : P e = true -> keeps (only_events P) (emit e).
Proof.
  intros He w. exists [e]. split; [reflexivity |].
  simpl. rewrite He. reflexivity.
Qed.

Lemma events_logger (level msg : string) :
  P (EvLog level msg) = true -> keeps (only_events P) (logger level msg).
Proof. apply events_emit. Qed.

Lemma events_external (name : string) :
  keeps (only_events P) (external name).
Proof.
  unfold external. apply keeps_bind; [apply keeps_get_world |].
  intros w. destruct (fault w name); [apply keeps_raise | apply keeps_ret].
Qed.

Hypothesis P_log : forall l m, P (EvLog l m) = true.

Lemma events_build_item recur raw_infos level properties sublevel search_key
      out key value :
  (forall d l, keeps (only_events P) (recur d l)) ->
  keeps (only_events P)
        (build_item recur raw_infos level properties sublevel search_key
                    out key value).
Proof.
  intros Hrec. pose proof events_logger as Hlog.
  unfold build_item. frame; auto.
Qed.

Lemma events_build_items recur raw_infos level properties sublevel
      search_key items :
  (forall d l, keeps (only_events P) (recur d l)) ->
  forall out,
    keeps (only_events P)
          (build_items recur raw_infos level properties sublevel search_key
                       items out).
Proof.
  intros Hrec.
  induction items as [| [key value] items IH]; intros out; simpl.
  - apply keeps_ret.
  - apply keeps_bind; [apply events_build_item; exact Hrec | intros; apply IH].
Qed.

Lemma events_build_levels n filter_key :
  forall raw_infos level,
    keeps (only_events P) (build_levels n filter_key raw_infos level).
Proof.
  induction n as [| n IH]; intros; simpl.
  - apply keeps_raise.
  - unfold build_node. apply events_build_items. exact IH.
Qed.

Variable env : Env.
Variable self : ConfigPanel.
Hypothesis P_stat : P (EvIO Stat (config_path self)) = true.
Hypothesis P_toml : P (EvIO ReadToml (config_path self)) = true.

(** The loader looks at the description and at nothing else. *)
Lemma events_get_config_panel :
  keeps (only_events P) (_get_config_panel env self).
Proof.
  pose proof events_emit as Hemit. pose proof events_logger as Hlog.
  pose proof events_external as Hext.
  pose proof events_build_levels as Hbuild.
  unfold _get_config_panel, _build_internal_config_panel, _get_toml,
    os_path_exists, read_toml, check_forbidden.
  frame; auto.
Qed.

End OnlyEvents.

(** the events of reading the description at [path], and the log *)
Definition schema_access (path : string) (e : event) : bool :=
  match e with
  | EvIO Stat p | EvIO ReadToml p => String.eqb p path
  | EvLog _ _ => true
  | _ => false
  end.

(** *** The two checks *)

Definition is_given (o : option string) : bool :=
  match o with
  | Some _ => true
  | None => false
  end.

Definition key_of (key : option string) : string :=
  match key with
  | Some k => k
  | None => ""
  end.

Definition arguments_error : exn :=
  YunohostValidationError
    "You should either provide a value, or a serie of args/args_file, but not both at the same time"
    [("raw_msg", VBool true)].

Definition section_value_error : exn :=
  YunohostValidationError "config_cant_set_value_on_section" [].

Lemma _get_config_panel_filter_key (env : Env) (self : ConfigPanel) (w : world)
      (loaded : ConfigPanel) (w' : world) :
  _get_config_panel env self w = (Ok loaded, w') ->
  filter_key loaded = filter_key self.
Proof.
  intros H.
  destruct (@_get_config_panel_ok env self w loaded w' H) as [-> | (t & ->)];
    reflexivity.
Qed.

Lemma set_collect_refused
      (env : Env) (self : ConfigPanel) (key : option string) (value : pyvalue)
      (args_ args_file : option string) (w : world) :
  is_None value = false ->
  (is_given args_ || is_given args_file)
  || negb (Str.count "." (key_of key) =? 2) = true ->
  exists e,
    set_collect env self key value args_ args_file w
    = (Err e, snd (_get_config_panel env (set_filter_key self (key_of key)) w))
    /\ forall loaded,
        fst (_get_config_panel env (set_filter_key self (key_of key)) w)
        = Ok loaded ->
        Py.truthy (VDict (config loaded)) = true ->
        e = if is_given args_ || is_given args_file
            then arguments_error else section_value_error.
Proof.
  intros Hvalue Hrefused. unfold set_collect. cbv zeta.
  change (match key with Some k => k | None => "" end) with (key_of key).
  destruct (_get_config_panel env (set_filter_key self (key_of key)) w)
    as [[loaded | e] w1] eqn:Hload; cbn [fst snd].
  - rewrite (bind_ok _ Hload).
    destruct (Py.truthy (VDict (config loaded))) eqn:Htree; cbn [negb when].
    + rewrite (bind_ok _ (eq_refl : ret tt w1 = (Ok tt, w1))).
      rewrite Hvalue. cbn [negb]. rewrite !andb_true_r.
      change (match args_ with Some _ => true | None => false end)
        with (is_given args_).
      change (match args_file with Some _ => true | None => false end)
        with (is_given args_file).
      destruct (is_given args_ || is_given args_file); cbn [when].
      * eexists. split; [reflexivity |]. intros; reflexivity.
      * rewrite (bind_ok _ (eq_refl : ret tt w1 = (Ok tt, w1))).
        rewrite (_get_config_panel_filter_key _ _ _ Hload).
        cbn [filter_key set_filter_key]. cbn [orb] in Hrefused.
        rewrite Hrefused. cbn [when].
        eexists. split; [reflexivity |]. intros; reflexivity.
    + eexists. split; [reflexivity |].
      intros loaded' Hl Ht. inversion Hl. subst. congruence.
  - eexists. split; [apply bind_err; exact Hload |].
    intros loaded Hl. discriminate Hl.
Qed.

(** C6, as the code has it.  When [set] is given a value together with
    [args] or [args_file], or a value with a key that is not of three
    segments, it raises; by then it has loaded the description and done
    nothing else: the state is the one the loader leaves, which differs
    from the state before by events of reading the description and of the
    log only, so that no settings were read or written.  When the loader
    gave a tree, the exception is the validation error of the arguments. *)
Theorem set_checks_arguments_after_loading
        (env : Env) (self : ConfigPanel) (key : option string)
        (value : pyvalue) (args_ args_file : option string)
        (operation_logger : operation_logger_arg) (w : world) :
  is_None value = false ->
  (is_given args_ || is_given args_file)
  || negb (Str.count "." (key_of key) =? 2) = true ->
  let loading := _get_config_panel env (set_filter_key self (key_of key)) w in
  let r := set env self key value args_ args_file operation_logger w in
  is_ok (fst r) = false
  /\ snd r = snd loading
  /\ only_events (schema_access (config_path self)) w (snd r)
  /\ forall loaded,
      fst loading = Ok loaded ->
      Py.truthy (VDict (config loaded)) = true ->
      fst r = Err (if is_given args_ || is_given args_file
                   then arguments_error else section_value_error).
Proof.
  intros Hvalue Hrefused loading r.
  destruct (@set_collect_refused env self key value args_ args_file w
              Hvalue Hrefused) as (e & Hrun & Herror).
  assert (Hr : r = (Err e, snd loading)).
  { subst r. unfold set. apply bind_err. exact Hrun. }
  rewrite Hr. cbn [fst snd]. split; [reflexivity |]. split; [reflexivity |].
  split.
  - apply (@events_get_config_panel (schema_access (config_path self))
             (fun _ _ => eq_refl) env (set_filter_key self (key_of key))
             (String.eqb_refl _) (String.eqb_refl _)).
  - intros loaded Hl Ht. rewrite (Herror loaded Hl Ht). reflexivity.
Qed.

(** *** A value and arguments at once *)

Definition set_both : result ConfigPanel * world :=
  set plain_env full_panel (Some "p1.s1.o1") (VStr "yes") (Some "o1=no") None
      Logger boolean_world.

(** The theorem at work. *)
Lemma set_checks_arguments_after_loading_witness :
  fst set_both = Err arguments_error.
Proof.
  refine (proj2 (proj2 (proj2
            (@set_checks_arguments_after_loading plain_env full_panel
               (Some "p1.s1.o1") (VStr "yes") (Some "o1=no") None Logger
               boolean_world eq_refl eq_refl))) _ _ _).
  - vm_compute. reflexivity.
  - vm_compute. reflexivity.
Defined.

(** C6 as stated fails: the error comes after the description has been
    looked for and read. *)
Lemma arguments_checked_after_reading_description :
  trace (snd set_both) = [EvIO Stat toml_path; EvIO ReadToml toml_path].
Proof. vm_compute. reflexivity. Qed.

(* ================================================================= *)
(** ** [set] and then [get], for the boolean option *)

Definition uninitialized (id : string) : exn :=
  YunohostError
    ("Config panel question '" ++ id
     ++ "' should be initialized with a value during install or upgrade.")%string
    [("raw_msg", VBool true)].

(** [set("p1.s1.o1", value=answer)] on a panel that saves in [mode], with
    [stored] as the settings on disk *)
Definition set_answer (mode answer : string) (stored : dict)
  : result ConfigPanel * world :=
  set plain_env (with_save_mode example_panel mode) (Some "p1.s1.o1")
      (VStr answer) None None Logger (stored_world boolean_option stored).

(** C1, as the code has it.  With a value of the option already in the
    settings, a panel that defines its save mode and an operation logger,
    setting the option to one of the yes answers returns, the settings
    then hold the yes value 1 for it, and a [get] of the option that
    follows returns 1. *)
Theorem set_yes_then_get (mode answer : string) (stored : pyvalue) :
  In mode ["full"; "diff"] ->
  In answer declared_yes_answers ->
  In stored [VInt 0; VInt 1] ->
  let r := set_answer mode answer [("o1", stored)] in
  is_ok (fst r) = true
  /\ FS.find settings_path (fs (snd r)) = Some (NYaml [("o1", VInt 1)])
  /\ returned (get plain_env (with_save_mode example_panel mode)
                   (Some "p1.s1.o1") "classic" (snd r))
     = Ok (VInt 1).
Proof.
  intros Hmode Hanswer Hstored.
  repeat (destruct Hmode as [<- | Hmode]; [| try contradiction]);
    repeat (destruct Hanswer as [<- | Hanswer]; [| try contradiction]);
    repeat (destruct Hstored as [<- | Hstored]; [| try contradiction]);
    vm_compute; repeat split; reflexivity.
Qed.

(** The theorem at work. *)
Lemma set_yes_then_get_witness :
  returned (get plain_env (with_save_mode example_panel "full")
                (Some "p1.s1.o1") "classic"
                (snd (set_answer "full" "yes" [("o1", VInt 0)])))
  = Ok (VInt 1).
Proof.
  exact (proj2 (proj2 (@set_yes_then_get "full" "yes" (VInt 0)
                         (or_introl eq_refl)
                         (or_intror (or_introl eq_refl))
                         (or_introl eq_refl)))).
Defined.

(** C1 as stated fails: with empty settings and no default, hydration
    raises and nothing is written. *)
Lemma set_without_stored_value_fails :
  (match fst (set_answer "full" "yes" []) with
   | Ok _ => None
   | Err e => Some e
   end,
   FS.find settings_path (fs (snd (set_answer "full" "yes" []))))
  = (Some (uninitialized "o1"), Some (NYaml [])).
Proof. vm_compute. reflexivity. Qed.

(** A panel of the base class has no save mode: the apply step raises. *)
Lemma set_without_save_mode_fails :
  match fst (set plain_env example_panel (Some "p1.s1.o1") (VStr "yes")
                 None None Logger boolean_world) with
  | Ok _ => None
  | Err e => Some e
  end
  = Some (AttributeError "ConfigPanel" "save_mode").
Proof. vm_compute. reflexivity. Qed.

(* ================================================================= *)
(** ** The resolution loop at work *)

(** a boolean question that comes with the answer [maybe] *)
Definition maybe_question : Question :=
  match fst (instantiate BooleanQuestion
               [("name", VStr "o1"); ("type", VStr "boolean");
                ("value", VStr "maybe")] (api_world [])) with
  | Ok q => q
  | Err _ => {| q_class := BooleanQuestion; q_attrs := [] |}
  end.

Definition choice_invalid (name value : pyvalue) : exn :=
  YunohostValidationError "app_argument_choice_invalid"
    [("name", name); ("value", value); ("choices", VStr "yes/no")].

(** a terminal at which [maybe] is typed four times, and then [yes] *)
Definition stubborn_terminal : world :=
  fresh_world "cli" true
    [Ok "maybe"; Ok "maybe"; Ok "maybe"; Ok "maybe"; Ok "yes"] [].

Lemma five_passes_fail :
  exists w',
    passes plain_env 5 maybe_question stubborn_terminal
           (Err (choice_invalid (VStr "o1") (VStr "maybe"))) w'.
Proof.
  eexists.
  do 4 (eapply pass_again; [vm_compute; reflexivity | reflexivity |]).
  eapply pass_last; [vm_compute; reflexivity |].
  intros e He. inversion He. reflexivity.
Defined.

(** The theorem at work: the answer given and four answers typed make five
    passes, the fifth error goes to the caller and the [yes] that comes
    next is never read. *)
Lemma ask_if_needed_bounded_retry_witness :
  fst (ask_if_needed plain_env maybe_question stubborn_terminal)
  = Err (choice_invalid (VStr "o1") (VStr "maybe")).
Proof.
  destruct five_passes_fail as [w' Hpasses].
  exact (f_equal fst
           (proj1 (proj2 (proj2
              (ask_if_needed_bounded_retry plain_env maybe_question
                 stubborn_terminal)))
              _ w' eq_refl Hpasses)).
Defined.

Lemma stubborn_terminal_logs_four_errors :
  (error_logs (trace (snd (ask_if_needed plain_env maybe_question
                             stubborn_terminal))),
   stdin (snd (ask_if_needed plain_env maybe_question stubborn_terminal)))
  = (4, [Ok "yes"]).
Proof. vm_compute. reflexivity. Qed.

(** Out of a terminal there is one pass. *)
Lemma no_retry_out_of_terminal :
  (match fst (ask_if_needed plain_env maybe_question (api_world [])) with
   | Ok _ => None
   | Err e => Some e
   end,
   trace (snd (ask_if_needed plain_env maybe_question (api_world []))))
  = (Some (choice_invalid (VStr "o1") (VStr "maybe")), []).
Proof. vm_compute. reflexivity. Qed.

(* ================================================================= *)
(** ** The filter key *)

Lemma split_length (sep : ascii) (s : string) :
  List.length (Str.split sep s) = S (Str.count sep s).
Proof.
  induction s as [| c r IH]; simpl; [reflexivity |].
  destruct (Ascii.eqb c sep); simpl.
  - rewrite IH. reflexivity.
  - destruct (Str.split sep r) as [| h t]; [discriminate IH |].
    simpl in *. exact IH.
Qed.

Lemma split_filter_key_length (key : string) :
  List.length (split_filter_key key)
  = if String.eqb key "" then 0 else S (Str.count "." key).
Proof.
  unfold split_filter_key. destruct (String.eqb key ""); simpl;
    [reflexivity | apply split_length].
Qed.

(** [get] and [set] tell a key of one option by its two dots; the loader
    counts the segments of the key.  The two agree: a key of two dots has
    three segments and passes the check of the depth. *)
Theorem option_key_passes_depth_check (key : string) :
  Str.count "." key = 2 ->
  List.length (split_filter_key key) = 3
  /\ (3 <? List.length (split_filter_key key)) = false.
Proof.
  intros Hcount. rewrite split_filter_key_length, Hcount.
  destruct (String.eqb key "") eqn:E.
  - apply String.eqb_eq in E. subst key. discriminate Hcount.
  - split; reflexivity.
Qed.

Lemma option_key_passes_depth_check_witness :
  List.length (split_filter_key "p1.s1.o1") = 3
  /\ (3 <? List.length (split_filter_key "p1.s1.o1")) = false.
Proof. exact (@option_key_passes_depth_check "p1.s1.o1" eq_refl). Defined.

Definition too_many_sublevels (env : Env) (key : string) : exn :=
  YunohostError
    ("The filter key " ++ py_repr env (strs (Str.split "." key))
     ++ " has too many sub-levels, the max is 3.")%string
    [("raw_msg", VBool true)].

Lemma load_too_deep (env : Env) (self : ConfigPanel) (w : world) :
  3 <= Str.count "." (filter_key self) ->
  _get_config_panel env self w
  = (Err (too_many_sublevels env (filter_key self)), w).
Proof.
  intros Hdeep. unfold _get_config_panel. cbv zeta.
  assert (Hlen : (3 <? List.length (split_filter_key (filter_key self)))
                 = true).
  { rewrite split_filter_key_length.
    destruct (String.eqb (filter_key self) "") eqn:E.
    - apply String.eqb_eq in E. rewrite E in Hdeep. simpl in Hdeep. lia.
    - apply Nat.ltb_lt. lia. }
  rewrite Hlen. cbn [when]. apply bind_err.
  unfold split_filter_key, too_many_sublevels.
  destruct (String.eqb (filter_key self) "") eqn:E.
  - apply String.eqb_eq in E. rewrite E in Hdeep. simpl in Hdeep. lia.
  - reflexivity.
Qed.

(** A key of more than three segments is refused by [get] and by [set]
    before anything is looked at: the files, the class attributes and what
    has been done so far are those before the call.  This is said of the
    state outside of the instance only: the call has assigned the key to
    [self.filter_key] before the loader raises, and a call that raises
    gives no instance back here. *)
Theorem too_deep_key_is_refused
        (env : Env) (self : ConfigPanel) (key mode : string) (value : pyvalue)
        (args_ args_file : option string)
        (operation_logger : operation_logger_arg) (w : world) :
  3 <= Str.count "." key ->
  get env self (Some key) mode w = (Err (too_many_sublevels env key), w)
  /\ set env self (Some key) value args_ args_file operation_logger w
     = (Err (too_many_sublevels env key), w).
Proof.
  intros Hdeep. split.
  - unfold get. cbv zeta. apply bind_err.
    apply (@load_too_deep env (set_filter_key self key) w Hdeep).
  - unfold set. apply bind_err. unfold set_collect. cbv zeta. apply bind_err.
    apply (@load_too_deep env (set_filter_key self key) w Hdeep).
Qed.

Lemma too_deep_key_is_refused_witness :
  get plain_env example_panel (Some "p1.s1.o1.x") "classic" boolean_world
  = (Err (too_many_sublevels plain_env "p1.s1.o1.x"), boolean_world).
Proof.
  exact (proj1 (@too_deep_key_is_refused plain_env example_panel "p1.s1.o1.x"
                  "classic" VNone None None NoLogger boolean_world
                  (le_n 3))).
Defined.

(* ================================================================= *)
(** ** A description that does not exist *)

Definition no_panel : exn := YunohostValidationError "config_no_panel" [].

Lemma load_missing (env : Env) (self : ConfigPanel) (w : world) :
  Str.count "." (filter_key self) <= 2 ->
  FS.find (config_path self) (fs w) = None ->
  _get_config_panel env self w
  = (Ok self,
     snd (logger "debug"
            ("Config panel " ++ config_path self ++ " doesn't exists")
            (snd (os_path_exists (config_path self) w)))).
Proof.
  intros Hshallow Hfind. unfold _get_config_panel. cbv zeta.
  assert (Hlen : (3 <? List.length (split_filter_key (filter_key self)))
                 = false).
  { rewrite split_filter_key_length.
    destruct (String.eqb (filter_key self) ""); apply Nat.ltb_ge; lia. }
  rewrite Hlen. cbn [when].
  rewrite (bind_ok _ (eq_refl : ret tt w = (Ok tt, w))).
  rewrite (bind_ok _ (os_path_exists_run _ _)). cbv beta.
  unfold FS.exists_. rewrite Hfind. cbn [negb]. reflexivity.
Qed.

(** Without a description [get] and [set] raise the error of the missing
    panel; they have looked for the description, logged that it does not
    exist, and done nothing else. *)
Theorem missing_description_is_no_panel
        (env : Env) (self : ConfigPanel) (key : option string) (mode : string)
        (value : pyvalue) (args_ args_file : option string)
        (operation_logger : operation_logger_arg) (w : world) :
  Str.count "." (key_of key) <= 2 ->
  config self = [] ->
  FS.find (config_path self) (fs w) = None ->
  let w' :=
    snd (logger "debug"
           ("Config panel " ++ config_path self ++ " doesn't exists")
           (snd (os_path_exists (config_path self) w))) in
  get env self key mode w = (Err no_panel, w')
  /\ set env self key value args_ args_file operation_logger w
     = (Err no_panel, w')
  /\ trace w'
     = trace w
       ++ [EvIO Stat (config_path self);
           EvLog "debug"
             ("Config panel " ++ config_path self ++ " doesn't exists")]
  /\ fs w' = fs w.
Proof.
  intros Hshallow Hconfig Hfind w'.
  pose proof (@load_missing env (set_filter_key self (key_of key)) w
                Hshallow Hfind) as Hload.
  cbn [config_path set_filter_key] in Hload. fold w' in Hload.
  split; [| split; [| split]].
  - unfold get. cbv zeta.
    change (match key with Some k => k | None => "" end) with (key_of key).
    rewrite (bind_ok _ Hload). cbn [config set_filter_key]. rewrite Hconfig.
    reflexivity.
  - unfold set. apply bind_err. unfold set_collect. cbv zeta.
    change (match key with Some k => k | None => "" end) with (key_of key).
    rewrite (bind_ok _ Hload). cbn [config set_filter_key]. rewrite Hconfig.
    reflexivity.
  - subst w'. cbn. rewrite <- app_assoc. reflexivity.
  - reflexivity.
Qed.

Lemma missing_description_is_no_panel_witness :
  get plain_env example_panel (Some "p1") "classic" (api_world [])
  = (Err no_panel,
     snd (logger "debug"
            ("Config panel " ++ toml_path ++ " doesn't exists")
            (snd (os_path_exists toml_path (api_world []))))).
Proof.
  exact (proj1 (@missing_description_is_no_panel plain_env example_panel
                  (Some "p1") "classic" VNone None None NoLogger
                  (api_world []) (le_S _ _ (le_S _ _ (le_n 0)))
                  eq_refl eq_refl)).
Defined.

(* ================================================================= *)
(** ** What [normalize] returns *)

(** *** The ends of a stripped string *)

Definition first_char (s : string) : option ascii :=
  match s with
  | EmptyString => None
  | String c _ => Some c
  end.

Fixpoint last_char (s : string) : option ascii :=
  match s with
  | EmptyString => None
  | String c EmptyString => Some c
  | String _ r => last_char r
  end.

Lemma lstrip_first (p : ascii -> bool) (s : string) (c : ascii) :
  first_char (Str.lstrip_by p s) = Some c -> p c = false.
Proof.
  induction s as [| a r IH]; simpl; [discriminate |].
  destruct (p a) eqn:E; [exact IH |].
  simpl. intros H. inversion H. subst. exact E.
Qed.

Lemma rstrip_first (p : ascii -> bool) (s : string) (c : ascii) :
  first_char (Str.rstrip_by p s) = Some c -> first_char s = Some c.
Proof.
  destruct s as [| a r]; simpl; [discriminate |].
  destruct (Str.rstrip_by p r); [destruct (p a) |]; simpl;
    [discriminate | trivial | trivial].
Qed.

Lemma rstrip_last (p : ascii -> bool) (s : string) (c : ascii) :
  last_char (Str.rstrip_by p s) = Some c -> p c = false.
Proof.
  induction s as [| a r IH]; simpl; [discriminate |].
  destruct (Str.rstrip_by p r) as [| b t] eqn:E.
  - destruct (p a) eqn:Ea; simpl; [discriminate |].
    intros H. inversion H. subst. exact Ea.
  - exact IH.
Qed.

Lemma strip_by_ends (p : ascii -> bool) (s : string) (c : ascii) :
  (first_char (Str.strip_by p s) = Some c -> p c = false)
  /\ (last_char (Str.strip_by p s) = Some c -> p c = false).
Proof.
  unfold Str.strip_by. split.
  - intros H. apply rstrip_first in H. eapply lstrip_first. exact H.
  - apply rstrip_last.
Qed.

Lemma lower_char_idempotent (c : ascii) :
  Str.lower_char (Str.lower_char c) = Str.lower_char c.
Proof. destruct c as [[] [] [] [] [] [] [] []]; reflexivity. Qed.

Lemma lower_idempotent (s : string) : Str.lower (Str.lower s) = Str.lower s.
Proof.
  induction s as [| c r IH]; simpl; [reflexivity |].
  rewrite lower_char_idempotent, IH. reflexivity.
Qed.

Lemma lower_char_slash (c : ascii) :
  Ascii.eqb (Str.lower_char c) "/" = Ascii.eqb c "/".
Proof. destruct c as [[] [] [] [] [] [] [] []]; reflexivity. Qed.

Lemma last_char_lower (s : string) :
  last_char (Str.lower s) = option_map Str.lower_char (last_char s).
Proof.
  induction s as [| c r IH]; simpl; [reflexivity |].
  destruct r as [| b t]; [reflexivity | exact IH].
Qed.

(** *** Paths *)

Definition space_or_slash : ascii -> bool := Str.mem_chars " /".

(** What [PathQuestion.normalize] returns for a string of the ASCII range,
    the state being left as it is.  When the string is empty once stripped of white space:
    the empty string if the option says that the question is optional, the
    error of the mandatory question if it says [False], the root ["/"] if
    it says nothing else.  For every other string: a slash and then the
    string stripped of white space and, after that, of spaces and slashes
    at both ends; so what follows the first slash neither starts nor ends
    with a space or a slash, and no path ends with a slash but the root. *)
Theorem PathQuestion_normalize_shape
        (s : string) (option : optarg) (w : world) :
  Str.is_ascii s = true ->
  let optional := Dict.get (option_dict option) "optional" VNone in
  let rest := Str.strip_by space_or_slash (Str.strip s) in
  (forall c, first_char rest = Some c -> space_or_slash c = false)
  /\ (forall c, last_char rest = Some c -> space_or_slash c = false)
  /\ PathQuestion_normalize (VStr s) option w
     = (if String.eqb (Str.strip s) "" then
          if Py.truthy optional then Ok (VStr "")
          else
            match optional with
            | VBool false =>
                Err (YunohostValidationError "app_argument_invalid"
                       [("name", Dict.get (option_dict option) "name" VNone);
                        ("error", VStr "Question is mandatory")])
            | _ => Ok (VStr "/")
            end
        else Ok (VStr ("/" ++ rest)),
        w).
Proof.
  intros _ optional rest.
  split; [intros c; apply strip_by_ends |].
  split; [intros c; apply strip_by_ends |].
  subst rest optional. unfold PathQuestion_normalize. cbv zeta.
  destruct (Str.strip s) as [| a r].
  - change (negb (Py.truthy (VStr ""))) with true.
    change (String.eqb "" "") with true. cbv iota.
    destruct (Py.truthy (Dict.get (option_dict option) "optional" VNone));
      [reflexivity |].
    destruct (Dict.get (option_dict option) "optional" VNone) as
        [| [] | | | | |]; reflexivity.
  - reflexivity.
Qed.

(** The theorem at work: a path with spaces and slashes around it. *)
Lemma PathQuestion_normalize_shape_witness :
  PathQuestion_normalize (VStr " /var/www/ ") (OptDict []) (api_world [])
  = (Ok (VStr "/var/www"), api_world []).
Proof.
  exact (proj2 (proj2 (@PathQuestion_normalize_shape " /var/www/ "
                         (OptDict []) (api_world []) eq_refl))).
Defined.

(** Without an answer: the optional question, the mandatory one, and the
    call that comes without option. *)
Lemma PathQuestion_normalize_empty :
  map (fun option => fst (PathQuestion_normalize (VStr " ") option
                                                 (api_world [])))
      [OptDict [("optional", VBool true)];
       OptDict [("name", VStr "p"); ("optional", VBool false)];
       OptDict []]
  = [Ok (VStr "");
     Err (YunohostValidationError "app_argument_invalid"
            [("name", VStr "p"); ("error", VStr "Question is mandatory")]);
     Ok (VStr "/")].
Proof. reflexivity. Qed.

(** *** Domains *)

(** [DomainQuestion.normalize] returns, for every string, a string in
    lower case that does not end with a slash. *)
Theorem DomainQuestion_normalize_shape
        (s : string) (option : optarg) (w : world) :
  exists d,
    DomainQuestion_normalize (VStr s) option w = (Ok (VStr d), w)
    /\ Str.lower d = d
    /\ forall c, last_char d = Some c -> Ascii.eqb c "/" = false.
Proof.
  unfold DomainQuestion_normalize. eexists. split; [reflexivity |]. split.
  - apply lower_idempotent.
  - intros c. rewrite last_char_lower.
    match goal with
    | |- option_map _ (last_char (Str.rstrip_by ?p ?t)) = _ -> _ =>
        pose proof (@rstrip_last p t) as Hlast;
        destruct (last_char (Str.rstrip_by p t)) as [b |]
    end; simpl; [| discriminate].
    intros H. inversion H. subst. rewrite lower_char_slash.
    specialize (Hlast b eq_refl). unfold Str.mem_chars in Hlast.
    simpl in Hlast. rewrite orb_false_r in Hlast. exact Hlast.
Qed.

(* ================================================================= *)
(** ** Numbers *)

Lemma digits_fold_nonneg (l : list ascii) :
  forall acc : Z,
    (0 <= acc)%Z ->
    (0 <= fold_left
            (fun acc c => (10 * acc + Z.of_nat (nat_of_ascii c - 48))%Z)
            l acc)%Z.
Proof.
  induction l as [| c l IH]; intros acc Hacc; cbn [fold_left];
    [exact Hacc |].
  apply IH. lia.
Qed.

Lemma digits_to_Z_nonneg (s : string) : (0 <= Str.digits_to_Z s)%Z.
Proof. unfold Str.digits_to_Z. apply digits_fold_nonneg. lia. Qed.

Lemma is_digit_not_space (c : ascii) :
  Str.is_digit c = true -> Str.is_space c = false.
Proof.
  destruct c as [[] [] [] [] [] [] [] []]; intros H; vm_compute in H;
    try discriminate H; reflexivity.
Qed.

Lemma unsigned_digit (c : ascii) (r : string) :
  Str.is_digit c = true -> Str.sign_split (String c r) = (false, String c r).
Proof.
  destruct c as [[] [] [] [] [] [] [] []]; intros H; vm_compute in H;
    try discriminate H; reflexivity.
Qed.

Lemma rstrip_digits (t : string) :
  forallb Str.is_digit (list_ascii_of_string t) = true ->
  Str.rstrip_by Str.is_space t = t.
Proof.
  induction t as [| c r IH]; [reflexivity |].
  cbn [list_ascii_of_string forallb Str.rstrip_by]. intros H.
  apply andb_prop in H. destruct H as [Hc Hr].
  rewrite (IH Hr), (is_digit_not_space c Hc). destruct r; reflexivity.
Qed.

Lemma strip_digits (t : string) :
  forallb Str.is_digit (list_ascii_of_string t) = true -> Str.strip t = t.
Proof.
  intros H. unfold Str.strip, Str.strip_by.
  assert (Hl : Str.lstrip_by Str.is_space t = t).
  { destruct t as [| c r]; [reflexivity |].
    cbn [list_ascii_of_string forallb] in H. apply andb_prop in H.
    cbn [Str.lstrip_by]. rewrite (is_digit_not_space c (proj1 H)).
    reflexivity. }
  rewrite Hl. apply rstrip_digits. exact H.
Qed.

Lemma literal_digits_of_digits (t : string) :
  forall (acc : Z) (n : nat),
    forallb Str.is_digit (list_ascii_of_string t) = true ->
    Str.literal_digits false t acc n
    = Some (fold_left
              (fun acc c => (10 * acc + Z.of_nat (nat_of_ascii c - 48))%Z)
              (list_ascii_of_string t) acc,
            n + String.length t).
Proof.
  induction t as [| c r IH]; intros acc n H.
  - cbn. rewrite Nat.add_0_r. reflexivity.
  - cbn [list_ascii_of_string forallb] in H. apply andb_prop in H.
    destruct H as [Hc Hr].
    cbn [Str.literal_digits list_ascii_of_string fold_left String.length].
    rewrite Hc, (IH _ _ Hr). unfold Str.digit_value.
    rewrite Nat.add_succ_r. reflexivity.
Qed.

(** [int] of a string of digits is the number they write, unless there are
    more digits than the interpreter takes. *)
Lemma to_int_of_digits (limit : option nat) (t : string) :
  Str.isdigit t = true ->
  Str.to_int limit t
  = if match limit with
       | Some l => (l <? String.length t)%nat
       | None => false
       end
    then None
    else Some (Str.digits_to_Z t).
Proof.
  intros H. unfold Str.isdigit in H. destruct t as [| c r]; [discriminate H |].
  unfold Str.to_int. rewrite (strip_digits _ H).
  cbn [list_ascii_of_string forallb] in H. apply andb_prop in H.
  destruct H as [Hc Hr].
  rewrite (@unsigned_digit c r Hc). cbn [fst snd Str.literal_digits].
  rewrite Hc, (literal_digits_of_digits _ _ _ Hr).
  reflexivity.
Qed.

(** A string of the ASCII range is normalized to a number when, stripped,
    it is made of digits, and the number is the one the digits write; it
    is normalized to itself when, stripped, it is empty; anything else is
    refused.  So no string gives a negative number: a sign is not a
    digit. *)
Theorem NumberQuestion_normalize_string
        (env : Env) (s : string) (option : optarg) (w : world)
        (v : pyvalue) (w' : world) :
  Str.is_ascii s = true ->
  NumberQuestion_normalize env (VStr s) option w = (Ok v, w') ->
  w' = w
  /\ ((exists n, v = VInt n /\ (0 <= n)%Z
                 /\ Str.isdigit (Str.strip s) = true
                 /\ n = Str.digits_to_Z (Str.strip s))
      \/ (v = VStr "" /\ Str.strip s = "")).
Proof.
  intros _. unfold NumberQuestion_normalize. cbn [strip_if_str].
  destruct (Str.isdigit (Str.strip s)) eqn:Hdigit.
  - rewrite (to_int_of_digits _ _ Hdigit).
    match goal with
    | |- context [if ?b then None else _] => destruct b
    end; [discriminate |].
    intros H. inversion H. split; [reflexivity |]. left.
    eexists. split; [reflexivity |]. split; [apply digits_to_Z_nonneg |].
    split; reflexivity.
  - destruct (Str.strip s) as [| c r] eqn:Hs.
    + intros H. inversion H. split; [reflexivity |]. right.
      split; reflexivity.
    + discriminate.
Qed.

(** The theorem at work: [" 042 "] is normalized to 42. *)
Lemma NumberQuestion_normalize_string_witness :
  api_world [] = api_world []
  /\ ((exists n, VInt 42 = VInt n /\ (0 <= n)%Z
                 /\ Str.isdigit (Str.strip " 042 ") = true
                 /\ n = Str.digits_to_Z (Str.strip " 042 "))
      \/ (VInt 42 = VStr "" /\ Str.strip " 042 " = "")).
Proof.
  exact (@NumberQuestion_normalize_string plain_env " 042 " (OptDict [])
           (api_world []) (VInt 42) (api_world []) eq_refl eq_refl).
Defined.

Lemma signed_number_is_refused :
  is_ok (fst (NumberQuestion_normalize plain_env (VStr "-5") (OptDict [])
                (api_world [])))
  = false.
Proof. reflexivity. Qed.

(* ================================================================= *)
(** ** What [_prevalidate] lets through *)

Lemma Question_prevalidate_ok (env : Env) (self : Question) (w : world)
      (r : Question) (w' : world) :
  Question_prevalidate env self w = (Ok r, w') -> r = self.
Proof.
  intros H. unfold Question_prevalidate in H.
  apply bind_inv_ok in H. destruct H as (u & w1 & _ & H).
  apply bind_inv_ok in H. destruct H as (u1 & w2 & _ & H).
  inversion H. reflexivity.
Qed.

(** An answer that passes the base check is there, unless the question is
    optional, and it is one of the choices, when the question has
    choices. *)
Theorem Question_prevalidate_accepts
        (env : Env) (self : Question) (w : world) (r : Question) (w' : world) :
  Question_prevalidate env self w = (Ok r, w') ->
  r = self
  /\ (Py.is_none_or_empty (attr self "value") = true ->
      Py.truthy (attr self "optional") = true)
  /\ (Py.is_none_or_empty (attr self "value") = false ->
      Py.truthy (attr self "choices") = true ->
      Py.contains (attr self "choices") (attr self "value") = Ok true).
Proof.
  intros H. split; [eapply Question_prevalidate_ok; exact H |].
  unfold Question_prevalidate in H.
  apply bind_inv_ok in H. destruct H as (u & w1 & Hrequired & H).
  apply bind_inv_ok in H. destruct H as (u1 & w2 & Hchecks & _).
  split.
  - intros Hempty. rewrite Hempty in Hrequired.
    destruct (Py.truthy (attr self "optional")); [reflexivity |].
    discriminate Hrequired.
  - intros Hvalue Hchoices. rewrite Hvalue in Hchecks. cbn [negb when] in Hchecks.
    apply bind_inv_ok in Hchecks. destruct Hchecks as (u2 & w3 & Hin & _).
    rewrite Hchoices in Hin.
    apply bind_inv_ok in Hin. destruct Hin as (found & w4 & Hfound & Hin).
    unfold lift in Hfound. inversion Hfound. subst.
    destruct found; [assumption |].
    cbn [negb] in Hin. apply bind_inv_ok in Hin.
    destruct Hin as (choices & w5 & _ & Hin). discriminate Hin.
Qed.

(** a question of the base class with the given attributes *)
Definition string_question (attrs : dict) : Question :=
  {| q_class := StringQuestion; q_attrs := attrs |}.

Lemma Question_prevalidate_accepts_witness :
  Py.contains (VList [VStr "a"; VStr "b"]) (VStr "b") = Ok true.
Proof.
  refine (proj2 (proj2
            (@Question_prevalidate_accepts plain_env
               (string_question [("name", VStr "q");
                                 ("choices", VList [VStr "a"; VStr "b"]);
                                 ("value", VStr "b")])
               (api_world []) _ _ _)) eq_refl eq_refl).
  reflexivity.
Defined.

(** a value of which [int] is taken as the model has it: a string is of
    the ASCII range *)
Definition is_ascii_value (v : pyvalue) : bool :=
  match v with
  | VStr s => Str.is_ascii s
  | _ => true
  end.

(** A value that passes the check of [NumberQuestion] has an integer,
    [int(value)], which is within the bounds of the question: so has a
    string with a sign, white space around it or underscores between its
    digits, and a float, which is cut towards zero. *)
Theorem NumberQuestion_prevalidate_bounds
        (env : Env) (self : Question) (w : world) (r : Question) (w' : world)
        (lo hi : Z) :
  NumberQuestion_prevalidate env self w = (Ok r, w') ->
  is_ascii_value (attr self "value") = true ->
  Py.is_none_or_empty (attr self "value") = false ->
  attr self "min" = VInt lo ->
  attr self "max" = VInt hi ->
  exists n, py_int env (attr self "value") = Ok n /\ (lo <= n <= hi)%Z.
Proof.
  intros H _ Hvalue Hmin Hmax. unfold NumberQuestion_prevalidate in H.
  apply bind_inv_ok in H. destruct H as (s1 & w1 & Hbase & H).
  apply Question_prevalidate_ok in Hbase. subst s1.
  rewrite Hvalue, Hmin, Hmax in H. cbn [is_None negb] in H.
  apply bind_inv_ok in H. destruct H as (u & w2 & Hlow & H).
  apply bind_inv_ok in H. destruct H as (u1 & w3 & Hhigh & _).
  apply bind_inv_ok in Hlow. destruct Hlow as (n & w4 & Hn & Hlow).
  apply bind_inv_ok in Hhigh. destruct Hhigh as (n' & w5 & Hn' & Hhigh).
  unfold lift in Hn, Hn'. inversion Hn. inversion Hn'. subst.
  assert (n' = n) by congruence. subst n'.
  exists n. split; [assumption |].
  apply bind_inv_ok in Hlow. destruct Hlow as (below & w6 & Hb & Hlow).
  apply bind_inv_ok in Hhigh. destruct Hhigh as (above & w7 & Ha & Hhigh).
  unfold lift, int_lt in Hb. unfold lift, int_gt in Ha.
  inversion Hb. inversion Ha. subst.
  destruct (n <? lo)%Z eqn:E1; [discriminate Hlow |].
  destruct (hi <? n)%Z eqn:E2; [discriminate Hhigh |].
  apply Z.ltb_ge in E1. apply Z.ltb_ge in E2. lia.
Qed.

Definition number_question (attrs : dict) : Question :=
  {| q_class := NumberQuestion; q_attrs := attrs |}.

(** The theorem at work: the answer ["-5"] to a question with the bounds
    -10 and 10. *)
Lemma NumberQuestion_prevalidate_bounds_witness :
  exists n, py_int plain_env (VStr "-5") = Ok n /\ (-10 <= n <= 10)%Z.
Proof.
  refine (@NumberQuestion_prevalidate_bounds plain_env
            (number_question [("name", VStr "q"); ("optional", VBool true);
                              ("value", VStr "-5"); ("min", VInt (-10));
                              ("max", VInt 10)])
            (api_world []) _ _ (-10) 10 _ eq_refl eq_refl eq_refl eq_refl).
  reflexivity.
Defined.

(** [int] as the checks of [NumberQuestion] take it. *)
Lemma py_int_examples :
  map (py_int plain_env)
      [VStr "-5"; VStr " +1_000 "; VStr "007"; VFloat (FFinite (-7 # 2));
       VBool true]
  = [Ok (-5)%Z; Ok 1000%Z; Ok 7%Z; Ok (-3)%Z; Ok 1%Z]
  /\ map (fun v => is_ok (py_int plain_env v))
         [VStr "1__0"; VStr "_1"; VStr "1_"; VStr "- 1"; VStr "";
          VStr "1.5"; VFloat FNaN; VFloat FPosInf; VNone]
     = [false; false; false; false; false; false; false; false; false].
Proof. split; reflexivity. Qed.

(** A question whose bounds let -5 through refuses -11. *)
Lemma number_below_minimum_is_refused :
  is_ok (fst (NumberQuestion_prevalidate plain_env
                (number_question [("name", VStr "q"); ("optional", VBool true);
                                  ("value", VStr "-11"); ("min", VInt (-10));
                                  ("max", VInt 10)])
                (api_world [])))
  = false.
Proof. reflexivity. Qed.

(* ================================================================= *)
(** ** Passwords *)

Lemma is_none_or_empty_str (s : string) :
  Py.is_none_or_empty (VStr s) = String.eqb s "".
Proof. destruct s; reflexivity. Qed.

Lemma any_forbidden_char (s : string) :
  any_char_in (Py.chars forbidden_chars) (VStr s)
  = Ok (Py.is_substring "{" s || Py.is_substring "}" s).
Proof.
  unfold forbidden_chars. simpl.
  destruct (Py.is_substring "{" s); [reflexivity |].
  destruct (Py.is_substring "}" s); reflexivity.
Qed.

(** A password that passes the check of [PasswordQuestion] has none of the
    forbidden characters, the two braces. *)
Theorem PasswordQuestion_prevalidate_forbidden_chars
        (env : Env) (self : Question) (w : world) (r : Question) (w' : world)
        (s : string) :
  PasswordQuestion_prevalidate env self w = (Ok r, w') ->
  attr self "value" = VStr s ->
  s = "" \/ (Py.is_substring "{" s = false /\ Py.is_substring "}" s = false).
Proof.
  intros H Hvalue. unfold PasswordQuestion_prevalidate in H.
  apply bind_inv_ok in H. destruct H as (s1 & w1 & Hbase & H).
  apply Question_prevalidate_ok in Hbase. subst s1.
  rewrite Hvalue, is_none_or_empty_str in H.
  destruct (String.eqb s "") eqn:Hs;
    [left; apply String.eqb_eq; exact Hs | right].
  cbn [negb] in H.
  apply bind_inv_ok in H. destruct H as (forbidden & w2 & Hany & H).
  apply bind_inv_ok in H. destruct H as (u & w3 & Hwhen & _).
  destruct forbidden; [discriminate Hwhen |].
  rewrite any_forbidden_char in Hany.
  unfold lift in Hany. injection Hany as Hchars _.
  apply orb_false_iff in Hchars. exact Hchars.
Qed.

Definition password_question (attrs : dict) : Question :=
  {| q_class := PasswordQuestion; q_attrs := attrs |}.

Lemma PasswordQuestion_prevalidate_forbidden_chars_witness :
  "s3cret" = ""
  \/ (Py.is_substring "{" "s3cret" = false
      /\ Py.is_substring "}" "s3cret" = false).
Proof.
  refine (@PasswordQuestion_prevalidate_forbidden_chars plain_env
            (password_question [("name", VStr "pw"); ("value", VStr "s3cret")])
            (api_world []) _ _ "s3cret" _ eq_refl).
  reflexivity.
Defined.

Lemma password_with_brace_is_refused :
  fst (PasswordQuestion_prevalidate plain_env
         (password_question [("name", VStr "pw"); ("value", VStr "a{b")])
         (api_world []))
  = Err (YunohostValidationError "pattern_password_app"
           [("forbidden_chars", VStr "{}")]).
Proof. reflexivity. Qed.

(* ================================================================= *)
(** ** Resolution out of a terminal *)

Definition is_terminal_event (e : event) : bool :=
  match e with
  | EvPrompt _ _ _ | EvDisplay _ => true
  | _ => false
  end.

(** neither the terminal nor the log of errors *)
Definition silent (e : event) : bool :=
  negb (is_terminal_event e) && negb (is_error_log e).

Lemma ask_display_out_of_terminal (env : Env) (self : Question) (w : world) :
  interactive_in w = false -> ask_display env self w = (Ok self, w).
Proof.
  intros Hint. unfold ask_display.
  rewrite (bind_ok _ (interactive_run w)). rewrite Hint. reflexivity.
Qed.

Lemma attempt_out_of_terminal (env : Env) (self : Question) (w : world) :
  interactive_in w = false ->
  ext_by silent w (snd (attempt env self w)).
Proof.
  intros Hint. unfold attempt.
  rewrite (bind_ok _ (@ask_display_out_of_terminal env self w Hint)).
  cbv beta zeta.
  assert (Hkeeps : keeps (ext_by silent)
            (outcome <- catch (ask_validate env (ask_default self)) ;;
             ret (ask_default self, outcome))).
  { apply keeps_bind.
    - apply keeps_catch, keeps_ask_validate. intros; reflexivity.
    - intros outcome. apply keeps_ret. }
  apply Hkeeps.
Qed.

Lemma ask_loop_out_of_terminal (env : Env) (range : list nat) (self : Question)
      (w : world) :
  interactive_in w = false ->
  ext_by silent w (snd (ask_loop env range self w)).
Proof.
  intros Hint. destruct range as [| i rest]; [apply frame_refl |].
  cbn [ask_loop]. pose proof (@attempt_out_of_terminal env self w Hint) as Hatt.
  unfold bind at 1.
  destruct (attempt env self w) as [[pass | e] w1]; cbn [snd] in *;
    [| exact Hatt].
  destruct (snd pass) as [validated | e]; [exact Hatt |].
  destruct (is_YunohostValidationError e); [| exact Hatt].
  rewrite (bind_ok _ (interactive_run w1)).
  rewrite (ext_by_interactive Hatt), Hint, andb_false_r. exact Hatt.
Qed.

(** Out of an interactive terminal the resolution of a question neither
    displays nor prompts, and logs no error: there is nobody to ask
    again. *)
Theorem ask_if_needed_silent_out_of_terminal
        (env : Env) (self : Question) (w : world) :
  interactive_in w = false ->
  ext_by silent w (snd (ask_if_needed env self w)).
Proof.
  intros Hint. unfold ask_if_needed.
  pose proof (@ask_loop_out_of_terminal env (seq 0 5) self w Hint) as Hloop.
  unfold bind at 1.
  destruct (ask_loop env (seq 0 5) self w) as [[validated | e] w1];
    cbn [snd] in *; [| exact Hloop].
  eapply frame_trans; [exact Hloop |].
  assert (Hkeeps : keeps (ext_by silent)
            (value <- post_parse_value env validated ;;
             ret (setattr validated "value" value))).
  { apply keeps_bind.
    - apply keeps_post_parse_value; intros; reflexivity.
    - intros value. apply keeps_ret. }
  apply Hkeeps.
Qed.

Lemma ask_if_needed_silent_out_of_terminal_witness :
  ext_by silent (api_world [])
         (snd (ask_if_needed plain_env maybe_question (api_world []))).
Proof.
  exact (@ask_if_needed_silent_out_of_terminal plain_env maybe_question
           (api_world []) eq_refl).
Defined.

(* ================================================================= *)
(** ** Answers to redact *)

(** The answer of a question to redact, when it is a string that is not
    empty, is added to the data to redact of every operation logger; the
    answer is returned as it is. *)
Theorem redacted_answer_reaches_operation_loggers
        (env : Env) (self : Question) (s : string) (w : world) :
  Py.truthy (attr self "redact") = true ->
  attr self "value" = VStr s ->
  String.eqb s "" = false ->
  let r := Question_post_parse_value env self w in
  fst r = Ok (VStr s)
  /\ List.length (oplog_instances (snd r)) = List.length (oplog_instances w)
  /\ forall l, In l (oplog_instances (snd r)) -> In s l.
Proof.
  intros Hredact Hvalue Hs r. subst r. unfold Question_post_parse_value.
  rewrite Hredact. cbn [negb]. cbv zeta. rewrite Hvalue.
  unfold bind, modify, ret. cbn [fst snd oplog_instances set_oplog_instances].
  cbn [Py.truthy]. rewrite Hs. cbn [negb].
  split; [reflexivity |]. split; [apply length_map |].
  intros l Hl. apply in_map_iff in Hl. destruct Hl as (l0 & <- & _).
  apply in_or_app. right. apply in_or_app. left. left. reflexivity.
Qed.

Definition one_logger (w : world) : world := set_oplog_instances w [[]].

Lemma redacted_answer_reaches_operation_loggers_witness :
  fst (Question_post_parse_value plain_env
         (password_question [("redact", VBool true); ("value", VStr "s3cret")])
         (one_logger (api_world [])))
  = Ok (VStr "s3cret").
Proof.
  exact (proj1 (@redacted_answer_reaches_operation_loggers plain_env
                  (password_question [("redact", VBool true);
                                      ("value", VStr "s3cret")])
                  "s3cret" (one_logger (api_world []))
                  eq_refl eq_refl eq_refl)).
Defined.

(* ================================================================= *)
(** ** The answer lists of [BooleanQuestion] *)

(** Each call of [BooleanQuestion.normalize] that passes the two
    assertions appends the yes token to the list of yes answers of the
    class and the no token to its list of no answers, whatever the value
    and whatever the call then returns or raises: the two lists grow with
    every call. *)
Theorem BooleanQuestion_normalize_extends_answers
        (env : Env) (value : pyvalue) (option : optarg) (w : world) :
  let yes_token :=
    Str.lower (py_str env (Dict.get (option_dict option) "yes" (VInt 1))) in
  let no_token :=
    Str.lower (py_str env (Dict.get (option_dict option) "no" (VInt 0))) in
  Str.mem yes_token (no_answers w) = false ->
  Str.mem no_token (yes_answers w) = false ->
  let w' := snd (BooleanQuestion_normalize env value option w) in
  yes_answers w' = yes_answers w ++ [yes_token]
  /\ no_answers w' = no_answers w ++ [no_token].
Proof.
  intros yes_token no_token Hyes Hno w'. subst w'.
  unfold BooleanQuestion_normalize, bind, get_world, when, modify, raise, ret.
  cbn [fst snd]. fold yes_token no_token. rewrite Hyes, Hno.
  cbn [yes_answers no_answers set_yes_answers set_no_answers].
  repeat match goal with
         | |- context [if ?b then _ else _] => destruct b
         end; split; reflexivity.
Qed.

Lemma BooleanQuestion_normalize_extends_answers_witness :
  yes_answers (snd (BooleanQuestion_normalize plain_env (VStr "maybe")
                      (OptDict []) (api_world [])))
  = declared_yes_answers ++ ["1"].
Proof.
  exact (proj1 (@BooleanQuestion_normalize_extends_answers plain_env
                  (VStr "maybe") (OptDict []) (api_world [])
                  eq_refl eq_refl)).
Defined.

(* ================================================================= *)
(** ** [get] only reads *)

(** From [w] to [w'] the files, the terminal and the faults to come are
    the same, and the events added satisfy [P]. *)
Definition quiet (P : event -> bool) (w w' : world) : Prop :=
  fs w' = fs w /\ ext_by P w w'.

#[export] Instance quiet_frame (P : event -> bool) : Frame (quiet P).
Proof.
  split.
  - intro w. split; [reflexivity | apply frame_refl].
  - intros a b c [H1 H2] [K1 K2]. split; [congruence |].
    eapply frame_trans; eassumption.
Qed.

Lemma events_quiet (P : event -> bool) (A : Type) (m : M A) :
  keeps (only_events P) m -> keeps (quiet P) m.
Proof.
  intros Hm w. destruct (only_events_ext (Hm w)) as [Hext Hfs].
  split; assumption.
Qed.

Section Quiet.

Variable P : event -> bool.

Lemma quiet_emit (e : event) : P e = true -> keeps (quiet P) (emit e).
Proof. intros He. apply events_quiet, events_emit, He. Qed.

Lemma quiet_external (name : string) : keeps (quiet P) (external name).
Proof. apply events_quiet, events_external. Qed.

Lemma quiet_set_yes_answers (f : world -> list string) :
  keeps (quiet P) (modify (fun w => set_yes_answers w (f w))).
Proof.
  intro w. split; [reflexivity |]. apply ext_by_same_trace; reflexivity.
Qed.

Lemma quiet_set_no_answers (f : world -> list string) :
  keeps (quiet P) (modify (fun w => set_no_answers w (f w))).
Proof.
  intro w. split; [reflexivity |]. apply ext_by_same_trace; reflexivity.
Qed.

Hypothesis P_stat : forall p, P (EvIO Stat p) = true.
Hypothesis P_toml : forall p, P (EvIO ReadToml p) = true.
Hypothesis P_yaml : forall p, P (EvIO ReadYaml p) = true.
Hypothesis P_log : forall l m, P (EvLog l m) = true.

Lemma quiet_logger (level msg : string) : keeps (quiet P) (logger level msg).
Proof. apply quiet_emit, P_log. Qed.

Local Hint Resolve quiet_emit quiet_external quiet_set_yes_answers
  quiet_set_no_answers quiet_logger : frame.

Variable env : Env.

Lemma quiet_get_config_panel (self : ConfigPanel) :
  keeps (quiet P) (_get_config_panel env self).
Proof.
  apply events_quiet, events_get_config_panel; auto.
Qed.

Lemma quiet_load_current_values (self : ConfigPanel) :
  keeps (quiet P) (_load_current_values self).
Proof.
  unfold _load_current_values, _get_default_values, collect_default,
    os_path_exists, os_path_isfile, read_yaml.
  frame.
Qed.

Lemma quiet_hydrate (self : ConfigPanel) :
  keeps (quiet P) (_hydrate env self).
Proof. unfold _hydrate, hydrate_option. frame. Qed.

Lemma quiet_BooleanQuestion_normalize (value : pyvalue) (option : optarg) :
  keeps (quiet P) (BooleanQuestion_normalize env value option).
Proof. unfold BooleanQuestion_normalize. frame. Qed.
Local Hint Resolve quiet_BooleanQuestion_normalize : frame.

Lemma quiet_humanize (c : qclass) (value : pyvalue) (option : optarg) :
  keeps (quiet P) (humanize env c value option).
Proof.
  destruct c; simpl;
    first [ progress (unfold Question_humanize); frame
          | progress (unfold TagsQuestion_humanize); frame
          | progress (unfold BooleanQuestion_humanize); frame ].
Qed.
Local Hint Resolve quiet_get_config_panel quiet_load_current_values
  quiet_hydrate quiet_humanize : frame.

Lemma quiet_get (self : ConfigPanel) (key : option string) (mode : string) :
  keeps (quiet P) (get env self key mode).
Proof. unfold get, format_item. frame. Qed.

End Quiet.

(** looking for a file, reading a description or settings, logging *)
Definition is_read_event (e : event) : bool :=
  match e with
  | EvIO Stat _ | EvIO ReadToml _ | EvIO ReadYaml _ => true
  | EvLog _ _ => true
  | _ => false
  end.

(** Whatever the key and the mode, and whether it returns or raises, [get]
    leaves the files as they are; it looks for files, reads the
    description and the settings and logs, and that is all: nothing is
    written, nothing is asked, no service is reloaded. *)
Theorem get_only_reads
        (env : Env) (self : ConfigPanel) (key : option string) (mode : string)
        (w : world) :
  let w' := snd (get env self key mode w) in
  fs w' = fs w
  /\ exists evs,
      trace w' = trace w ++ evs /\ forallb is_read_event evs = true.
Proof.
  intros w'. subst w'.
  destruct (@quiet_get is_read_event
              (fun _ => eq_refl) (fun _ => eq_refl) (fun _ => eq_refl)
              (fun _ _ => eq_refl) env self key mode w)
    as (Hfs & _ & _ & _ & Hevs).
  split; [exact Hfs | exact Hevs].
Qed.

(** the events of a [get] of the stored password *)
Lemma get_only_reads_example :
  trace (snd (get plain_env example_panel (Some "p1.s1.pw") "classic"
                  secret_world))
  = [EvIO Stat toml_path; EvIO ReadToml toml_path;
     EvIO Stat settings_path; EvIO Stat settings_path;
     EvIO ReadYaml settings_path;
     EvLog "debug" "Hydrating config with current values"].
Proof. vm_compute. reflexivity. Qed.

(* ================================================================= *)
(** ** What the apply step writes *)

Lemma ext_trace (w w' : world) :
  ext w w' -> exists evs, trace w' = trace w ++ evs.
Proof. intros (_ & _ & _ & evs & H & _). exists evs. exact H. Qed.

Ltac ext_step H :=
  eapply (@keeps_run ext); [| exact H]; unfold ext; frame.

(** [values_to_save] of [_apply]: the values with the new values over
    them, without those that are the default of their option when the save
    mode is [diff]. *)
Definition saved_by (self : ConfigPanel) (d : dict) : Prop :=
  let merged := Dict.update (values self) (new_values self) in
  match save_mode self with
  | None => False
  | Some mode =>
      if String.eqb mode "diff" then
        exists defaults w0,
          fst (_get_default_values self w0) = Ok defaults
          /\ d = filter (fun kv =>
                           negb (Py.eqb (Dict.get defaults (fst kv) VNone)
                                        (snd kv)))
                        merged
      else d = merged
  end.

Lemma _apply_inv (env : Env) (self : ConfigPanel) (w w' : world) :
  _apply env self w = (Ok tt, w') ->
  exists pre path d,
    save_path self = Some path
    /\ trace w' = trace w ++ pre ++ [EvIO (WriteYaml d) path]
    /\ FS.find path (fs w') = Some (NYaml d)
    /\ saved_by self d.
Proof.
  intros H. unfold _apply in H.
  apply bind_inv_ok in H. destruct H as (u & w1 & H1 & H).
  apply bind_inv_ok in H. destruct H as (path & w2 & Hpath & H).
  destruct (save_path self) as [p |] eqn:Hsave; [| discriminate Hpath].
  inversion Hpath. subst. cbv zeta in H.
  apply bind_inv_ok in H. destruct H as (found & w3 & H3 & H).
  apply bind_inv_ok in H. destruct H as (u1 & w4 & H4 & H).
  apply bind_inv_ok in H. destruct H as (d & w5 & H5 & H).
  apply write_to_yaml_ok in H. destruct H as [Htrace Hfind].
  assert (E1 : ext w w2) by ext_step H1.
  assert (E3 : ext w2 w3) by ext_step H3.
  assert (E4 : ext w3 w4) by ext_step H4.
  assert (E5 : ext w4 w5 /\ saved_by self d).
  { unfold saved_by. destruct (save_mode self) as [mode |];
      [| discriminate H5].
    destruct (String.eqb mode "diff").
    - apply bind_inv_ok in H5. destruct H5 as (defaults & w6 & H6 & H5).
      inversion H5. subst. split; [ext_step H6 |].
      exists defaults, w4. rewrite H6. split; reflexivity.
    - inversion H5. subst. split; [apply frame_refl | reflexivity]. }
  destruct E5 as [E5 Hsaved].
  destruct (ext_trace (frame_trans _ _ _ (frame_trans _ _ _ E1 E3)
                         (frame_trans _ _ _ E4 E5))) as (pre & Hpre).
  exists pre, path, d. split; [reflexivity |].
  split; [rewrite Htrace, Hpre, app_assoc; reflexivity |].
  split; [exact Hfind | exact Hsaved].
Qed.


(** a panel that saves the difference with the defaults, and an option
    that has the default 1 *)
Definition diff_panel : ConfigPanel :=
  set_new_values
    (set_values
       (set_config (with_save_mode example_panel "diff")
          [("panels",
            VList [VDict [("sections",
              VList [VDict [("options",
                VList [VDict [("id", VStr "o1"); ("default", VInt 1)];
                       VDict [("id", VStr "o2"); ("default", VInt 0)]])]])]])])
       [("o1", VInt 0); ("o2", VInt 0)])
    [("o1", VInt 1); ("o2", VInt 1)].


(** In the save mode [diff], [o1] is set to its default and is left out. *)
Lemma diff_mode_leaves_defaults_out :
  FS.find settings_path (fs (snd (_apply plain_env diff_panel (api_world []))))
  = Some (NYaml [("o2", VInt 1)]).
Proof. vm_compute. reflexivity. Qed.

(* ================================================================= *)
(** ** A [set] that returns *)

Lemma operation_logger_call_ok (method : string) (w : world) (u : unit)
      (w' : world) :
  operation_logger_call Logger method w = (Ok u, w') ->
  trace w' = trace w ++ [EvOperationLogger method].
Proof.
  unfold operation_logger_call, external, emit, modify, get_world, bind, ret.
  cbn [fault set_trace trace].
  match goal with
  | |- context [fault w ?name] => destruct (fault w name)
  end; cbn; intros H; inversion H; reflexivity.
Qed.

(** When [set] returns, with an operation logger, the operation was
    started, the settings were written after that, and the last two things
    done were to log the success and to close the operation. *)
Theorem set_returns_after_closing_operation
        (env : Env) (self : ConfigPanel) (key : option string)
        (value : pyvalue) (args_ args_file : option string) (w : world)
        (self' : ConfigPanel) (w' : world) :
  set env self key value args_ args_file Logger w = (Ok self', w') ->
  exists before between after path d,
    save_path self' = Some path
    /\ trace w'
       = trace w ++ before ++ [EvOperationLogger "start"]
         ++ between ++ [EvIO (WriteYaml d) path]
         ++ after ++ [EvLog "success" "Config updated as expected";
                      EvOperationLogger "success"].
Proof.
  intros H. unfold set in H.
  apply bind_inv_ok in H. destruct H as (self1 & w1 & Hcollect & H).
  apply bind_inv_ok in H. destruct H as (u1 & w2 & Hstart & H).
  apply bind_inv_ok in H. destruct H as (u2 & w3 & Happly & H).
  apply bind_inv_ok in H. destruct H as (u3 & w4 & Hreload & H).
  apply bind_inv_ok in H. destruct H as (u4 & w5 & Hlog & H).
  apply bind_inv_ok in H. destruct H as (u5 & w6 & Hsuccess & H).
  inversion H. subst. clear H.
  destruct u2.
  destruct (@apply_guarded_ok env self' w2 w3 Happly) as (wa & Hwa & Hclean).
  destruct (@_apply_inv env self' w2 wa Hwa)
    as (between & path & d & Hpath & Hwritten & _ & _).
  assert (Ecollect : ext w w1).
  { eapply (@keeps_run ext); [| exact Hcollect]. apply keeps_set_collect. }
  assert (Ereload : ext w3 w4).
  { eapply (@keeps_run ext); [| exact Hreload]. apply keeps_reload_services. }
  destruct (ext_trace Ecollect) as (before & Hbefore).
  destruct (ext_trace (frame_trans _ _ _ Hclean Ereload)) as (after & Hafter).
  apply operation_logger_call_ok in Hstart.
  apply operation_logger_call_ok in Hsuccess.
  inversion Hlog. subst w5. cbn [trace set_trace] in Hsuccess.
  exists before, between, after, path, d. split; [exact Hpath |].
  rewrite Hsuccess, Hafter, Hwritten, Hstart, Hbefore.
  repeat rewrite <- app_assoc. reflexivity.
Qed.

Lemma set_returns_after_closing_operation_witness :
  exists before between after path d,
    save_path full_panel = Some path
    /\ trace (snd (set_yes Logger))
       = trace boolean_world ++ before ++ [EvOperationLogger "start"]
         ++ between ++ [EvIO (WriteYaml d) path]
         ++ after ++ [EvLog "success" "Config updated as expected";
                      EvOperationLogger "success"].
Proof.
  destruct (@set_returns_after_closing_operation plain_env full_panel
              (Some "p1.s1.o1") (VStr "yes") None None boolean_world
              (match fst (set_yes Logger) with
               | Ok self' => self'
               | Err _ => full_panel
               end)
              (snd (set_yes Logger)))
    as (before & between & after & path & d & Hpath & Htrace).
  - vm_compute. reflexivity.
  - exists before, between, after, path, d. split; [| exact Htrace].
    exact Hpath.
Defined.

(* ================================================================= *)
(** ** Reloading the services *)


















(** a panel and a section that name their services *)
Definition services_panel : ConfigPanel :=
  set_config example_panel
    [("panels",
      VList [VDict [("services", VList [VStr "nginx"; VStr "__APP__"]);
                    ("sections",
                     VList [VDict [("services",
                                    VList [VStr "ssh"; VStr "nginx"])]])]])].


(** With an interpreter that walks a set in the order of insertion. *)
Lemma reload_example :
  trace (snd (_reload_services plain_env services_panel (api_world [])))
  = [EvLog "info" "Reloading services..."; EvReload "__APP__";
     EvReload "ssh"; EvReload "nginx"].
Proof. vm_compute. reflexivity. Qed.

(** the panel of a subclass that has set its application *)
Definition with_app (self : ConfigPanel) (a : string) : ConfigPanel :=
  {| config_path := config_path self; save_path := save_path self;
     config := config self; values := values self;
     new_values := new_values self;
     filter_key := filter_key self; args := args self;
     save_mode := save_mode self; app := Some a |}.

(** After the replacement of [__APP__] two names can be one service, and a
    service other than [nginx] can come after it. *)
Lemma reload_example_of_application :
  trace (snd (_reload_services plain_env
                (with_app services_panel "nginx") (api_world [])))
  = [EvLog "info" "Reloading services..."; EvReload "nginx";
     EvReload "ssh"; EvReload "nginx"].
Proof. vm_compute. reflexivity. Qed.

(* ================================================================= *)
(** ** Tags: joined by [normalize], split by [_prevalidate] *)

Lemma split_no_sep (sep : ascii) (x : string) :
  Str.count sep x = 0 -> Str.split sep x = [x].
Proof.
  induction x as [| c r IH]; simpl; [reflexivity |].
  destruct (Ascii.eqb c sep); [discriminate |].
  intros H. rewrite (IH H). reflexivity.
Qed.

Lemma split_app_sep (sep : ascii) (x r : string) :
  Str.count sep x = 0 ->
  Str.split sep (x ++ String sep r) = x :: Str.split sep r.
Proof.
  induction x as [| c x IH]; simpl.
  - intros _. rewrite Ascii.eqb_refl. reflexivity.
  - destruct (Ascii.eqb c sep); [discriminate |].
    intros H. rewrite (IH H). reflexivity.
Qed.

Lemma split_join (sep : ascii) (tag : string) (tags : list string) :
  Forall (fun t => Str.count sep t = 0) (tag :: tags) ->
  Str.split sep (Str.join (String sep EmptyString) (tag :: tags))
  = tag :: tags.
Proof.
  revert tag. induction tags as [| t tags IH]; intros tag Hall.
  - simpl. apply split_no_sep. inversion Hall. assumption.
  - inversion Hall as [| ? ? Htag Hrest]. subst.
    change (Str.join (String sep EmptyString) (tag :: t :: tags))
      with (tag ++ String sep (Str.join (String sep EmptyString) (t :: tags)))%string.
    rewrite (@split_app_sep sep tag _ Htag), (IH t Hrest). reflexivity.
Qed.

Lemma py_join_strings (sep : string) (l : list string) :
  py_join sep (VList (map VStr l)) = Ok (Str.join sep l).
Proof.
  unfold py_join. cbn [Py.iter].
  match goal with
  | |- match ?strings (map VStr l) with _ => _ end = _ =>
      assert (H : strings (map VStr l) = Ok l)
        by (induction l as [| x l IH]; simpl;
            [reflexivity | rewrite IH; reflexivity]);
      rewrite H
  end.
  reflexivity.
Qed.

Lemma get_set_same (d : dict) (k : string) (v : pyvalue) :
  Dict.get (Dict.set d k v) k VNone = v.
Proof.
  unfold Dict.get. induction d as [| [k0 v0] d IH]; simpl.
  - rewrite String.eqb_refl. reflexivity.
  - destruct (String.eqb k k0) eqn:E; simpl; rewrite E; [reflexivity | exact IH].
Qed.

Lemma attr_setattr_same (self : Question) (k : string) (v : pyvalue) :
  attr (setattr self k v) k = v.
Proof. apply get_set_same. Qed.

(** A list of tags, none of which has a comma, is joined by [normalize]
    into one string; [_prevalidate] splits the string into the list again,
    which is the value it leaves. *)
Theorem tags_survive_validation
        (env : Env) (self : Question) (tag : string) (tags : list string)
        (option : optarg) (w : world) :
  Forall (fun t => Str.count "," t = 0) (tag :: tags) ->
  TagsQuestion_normalize (VList (map VStr (tag :: tags))) option w
  = (Ok (VStr (Str.join "," (tag :: tags))), w)
  /\ forall r w',
      TagsQuestion_prevalidate env
        (setattr self "value" (VStr (Str.join "," (tag :: tags)))) w
      = (Ok r, w') ->
      attr r "value" = VList (map VStr (tag :: tags)).
Proof.
  intros Hall. split.
  - unfold TagsQuestion_normalize. cbn [map].
    change (VStr tag :: map VStr tags) with (map VStr (tag :: tags)).
    rewrite py_join_strings. reflexivity.
  - intros r w' H. unfold TagsQuestion_prevalidate in H.
    rewrite attr_setattr_same in H. cbv zeta in H.
    apply bind_inv_ok in H. destruct H as (items & w1 & _ & H).
    apply bind_inv_ok in H. destruct H as (checked & w2 & _ & H).
    inversion H. rewrite attr_setattr_same.
    transitivity
      (VList (map VStr (Str.split "," (Str.join "," (tag :: tags)))));
      [reflexivity |].
    rewrite (@split_join "," tag tags Hall). reflexivity.
Qed.

Definition tags_question (attrs : dict) : Question :=
  {| q_class := TagsQuestion; q_attrs := attrs |}.

Lemma tags_survive_validation_witness :
  TagsQuestion_normalize (VList (map VStr ["red"; "green"])) (OptDict [])
                         (api_world [])
  = (Ok (VStr "red,green"), api_world []).
Proof.
  refine (proj1 (@tags_survive_validation plain_env
                   (tags_question [("name", VStr "t")]) "red" ["green"]
                   (OptDict []) (api_world []) _)).
  repeat constructor.
Defined.

(** The empty list does not come back: it is joined into the empty string,
    which is split into one empty tag. *)
Lemma no_tags_become_one_empty_tag :
  Str.split "," (Str.join "," []) = [""].
Proof. reflexivity. Qed.

(* ================================================================= *)
(** ** The file of a file question *)

Lemma mkdtemp_run (prefix : string) (w : world) :
  fault w "mkdtemp" = None ->
  exists w1,
    mkdtemp prefix w
    = (Ok ("/tmp/" ++ prefix ++ Str.of_Z (Z.of_nat (tmp_seed w)))%string, w1)
    /\ upload_dirs w1 = upload_dirs w
    /\ fault w1 = fault w
    /\ tmp_seed w1 = S (tmp_seed w).
Proof.
  intros Hfault. unfold mkdtemp, external, emit, modify, get_world, bind, ret.
  cbn [fault]. rewrite Hfault. cbv beta iota zeta.
  eexists. split; [reflexivity |]. repeat split.
Qed.

Lemma mkstemp_run (dir : string) (w : world) :
  fault w "mkstemp" = None ->
  exists w1,
    mkstemp dir w
    = (Ok (dir ++ "/tmp" ++ Str.of_Z (Z.of_nat (tmp_seed w)))%string, w1)
    /\ upload_dirs w1 = upload_dirs w
    /\ fault w1 = fault w.
Proof.
  intros Hfault. unfold mkstemp, external, emit, modify, get_world, bind, ret.
  cbn [fault]. rewrite Hfault. cbv beta iota zeta.
  eexists. split; [reflexivity |]. repeat split.
Qed.

Lemma write_to_file_ok (p content : string) (w w' : world) :
  write_to_file p content w = (Ok tt, w') ->
  FS.find p (fs w') = Some (NRaw content).
Proof.
  unfold write_to_file, external, emit, modify, get_world, bind, ret.
  cbn [fault fs set_trace trace].
  destruct (fault w "write_to_file"); cbn; intros H; inversion H.
  apply find_put_same.
Qed.

Lemma prefix_app (a b : string) : String.prefix a (a ++ b) = true.
Proof.
  induction a as [| c a IH]; simpl; [destruct b; reflexivity |].
  destruct (ascii_dec c c) as [_ | Hc]; [exact IH | congruence].
Qed.

Lemma append_assoc (a b c : string) :
  ((a ++ b) ++ c = a ++ (b ++ c))%string.
Proof. induction a as [| x a IH]; simpl; [| rewrite IH]; reflexivity. Qed.

(** what [_post_parse_value] does once the file has its place *)
Definition save_upload (env : Env) (self : Question) (file_path : string)
  : M pyvalue :=
  logger "debug"
    ("Saving file " ++ py_str env (attr self "name")
     ++ " for file question into " ++ file_path)%string ;;
  w <- get_world ;;
  content <-
    (if negb (String.eqb (interface_type w) "api")
     then read_file (py_str env (attr self "value"))
     else lift (b64decode env (attr self "value"))) ;;
  write_to_file file_path content ;;
  ret (VStr file_path).

Lemma up_save_upload (env : Env) (self : Question) (file_path : string) :
  keeps same_upload_dirs (save_upload env self file_path).
Proof.
  pose proof up_emit. pose proof up_logger. pose proof up_external.
  pose proof up_set_fs.
  unfold save_upload, read_file, write_to_file. frame; auto.
Qed.

Lemma save_upload_ok (env : Env) (self : Question) (file_path : string)
      (w : world) (v : pyvalue) (w' : world) :
  save_upload env self file_path w = (Ok v, w') ->
  v = VStr file_path
  /\ exists content, FS.find file_path (fs w') = Some (NRaw content).
Proof.
  intros H. unfold save_upload in H.
  apply bind_inv_ok in H. destruct H as (u & w1 & _ & H).
  apply bind_inv_ok in H. destruct H as (w0 & w2 & _ & H).
  apply bind_inv_ok in H. destruct H as (content & w3 & _ & H).
  apply bind_inv_ok in H. destruct H as ([] & w4 & Hwrite & H).
  inversion H. subst. split; [reflexivity |].
  exists content. eapply write_to_file_ok. exact Hwrite.
Qed.

(** For a value that is there, [FileQuestion._post_parse_value] makes a
    directory of its own and records it in the upload directories of the
    class before it reads and writes, so that the directory is recorded
    also when the reading or the writing fails; what it returns is the
    path of a file below that directory, and the file is there. *)
Theorem uploaded_file_is_recorded
        (env : Env) (self : Question) (w : world) :
  Py.truthy (attr self "value") = true ->
  fault w "mkdtemp" = None ->
  fault w "mkstemp" = None ->
  let dir :=
    ("/tmp/" ++ "ynh_filequestion_" ++ Str.of_Z (Z.of_nat (tmp_seed w)))%string
  in
  let r := FileQuestion_post_parse_value env self w in
  upload_dirs (snd r) = upload_dirs w ++ [dir]
  /\ forall v,
      fst r = Ok v ->
      exists path content,
        v = VStr path
        /\ String.prefix (dir ++ "/") path = true
        /\ FS.find path (fs (snd r)) = Some (NRaw content).
Proof.
  intros Hvalue Hmkdtemp Hmkstemp dir r. subst r.
  unfold FileQuestion_post_parse_value. rewrite Hvalue. cbn [negb].
  destruct (@mkdtemp_run "ynh_filequestion_" w Hmkdtemp)
    as (w1 & Hdir & Hup1 & Hfault1 & _).
  fold dir in Hdir. rewrite (bind_ok _ Hdir).
  destruct (@mkstemp_run dir w1) as (w2 & Hfile & Hup2 & _);
    [rewrite Hfault1; exact Hmkstemp |].
  rewrite (bind_ok _ Hfile).
  set (path := (dir ++ "/tmp" ++ Str.of_Z (Z.of_nat (tmp_seed w1)))%string).
  rewrite (bind_ok _ (eq_refl :
    modify (fun w => set_upload_dirs w (upload_dirs w ++ [dir])) w2
    = (Ok tt, set_upload_dirs w2 (upload_dirs w2 ++ [dir])))).
  fold (save_upload env self path).
  pose proof (@up_save_upload env self path
                (set_upload_dirs w2 (upload_dirs w2 ++ [dir]))) as Hkept.
  unfold same_upload_dirs in Hkept. cbn [upload_dirs set_upload_dirs] in Hkept.
  split.
  - rewrite Hkept, Hup2, Hup1. reflexivity.
  - intros v Hv.
    destruct (save_upload env self path
                (set_upload_dirs w2 (upload_dirs w2 ++ [dir])))
      as [res wf] eqn:Hrun.
    cbn [fst snd] in *. subst res.
    apply save_upload_ok in Hrun. destruct Hrun as (-> & content & Hfind).
    exists path, content. split; [reflexivity |]. split; [| exact Hfind].
    unfold path.
    change ("/tmp" ++ Str.of_Z (Z.of_nat (tmp_seed w1)))%string
      with ("/" ++ ("tmp" ++ Str.of_Z (Z.of_nat (tmp_seed w1))))%string.
    rewrite <- append_assoc. apply prefix_app.
Qed.

Definition file_question (attrs : dict) : Question :=
  {| q_class := FileQuestion; q_attrs := attrs |}.

Lemma uploaded_file_is_recorded_witness :
  upload_dirs
    (snd (FileQuestion_post_parse_value plain_env
            (file_question [("name", VStr "f"); ("value", VStr "aGVsbG8=")])
            (api_world [])))
  = ["/tmp/ynh_filequestion_0"].
Proof.
  exact (proj1 (@uploaded_file_is_recorded plain_env
                  (file_question [("name", VStr "f");
                                  ("value", VStr "aGVsbG8=")])
                  (api_world []) eq_refl eq_refl eq_refl)).
Defined.

(* ================================================================= *)
(** ** [set] after its apply step, whatever the step does *)

(** What [set] does once the guarded apply step has returned: it reloads
    the services, logs the success and closes the operation. *)
Definition set_finish (env : Env) (self : ConfigPanel)
           (operation_logger : operation_logger_arg) : M ConfigPanel :=
  _reload_services env self ;;
  logger "success" "Config updated as expected" ;;
  operation_logger_call operation_logger "success" ;;
  ret self.

Lemma quiet_any_emit (e : event) : keeps (quiet any_event) (emit e).
Proof. apply quiet_emit. reflexivity. Qed.

Lemma quiet_any_logger (level msg : string) :
  keeps (quiet any_event) (logger level msg).
Proof. apply quiet_logger. reflexivity. Qed.

(** None of this touches a file. *)
Lemma quiet_set_finish (env : Env) (self : ConfigPanel)
      (operation_logger : operation_logger_arg) :
  keeps (quiet any_event) (set_finish env self operation_logger).
Proof.
  pose proof quiet_any_emit. pose proof quiet_any_logger.
  pose proof (quiet_external any_event).
  unfold set_finish, _reload_services, add_services,
    service_reload_or_restart, operation_logger_call.
  frame; auto.
Qed.

(** C2, as the code has it.  When [set] has come to its apply step, and
    removing a directory does not fail: whatever the step does, whether
    [set] then returns or raises, every upload directory that file
    questions have recorded is gone when [set] is left.  When the step
    raises [e], [set] raises [e], and from the start of the apply step on
    no method of the operation logger is called: the operation that was
    started is not closed. *)
Theorem set_cleans_upload_dirs
        (env : Env) (self : ConfigPanel) (key : option string)
        (value : pyvalue) (args_ args_file : option string)
        (operation_logger : operation_logger_arg) (w : world)
        (self1 : ConfigPanel) (w1 w2 : world) :
  set_collect env self key value args_ args_file w = (Ok self1, w1) ->
  start_operation operation_logger w1 = (Ok tt, w2) ->
  fault w2 "rmtree" = None ->
  let r := set env self key value args_ args_file operation_logger w in
  (forall d, In d (upload_dirs w2) -> FS.exists_ d (fs (snd r)) = false)
  /\ (forall e,
         fst (_apply env self1 w2) = Err e ->
         fst r = Err e /\ ext_by not_operation_logger w2 (snd r)).
Proof.
  intros Hcollect Hstart Hfault r.
  destruct (@apply_guarded_run env self1 w2 Hfault) as (Hres & Hgone & Hext).
  assert (Hrun : r = (apply_guarded env self1 ;;
                      set_finish env self1 operation_logger) w2).
  { subst r. unfold set.
    rewrite (bind_ok _ Hcollect). rewrite (bind_ok _ Hstart). reflexivity. }
  destruct (apply_guarded env self1 w2) as [[[] | e'] w3] eqn:Hguarded;
    cbn [fst snd] in Hres, Hgone, Hext.
  - rewrite (bind_ok _ Hguarded) in Hrun. split.
    + intros d Hd. rewrite Hrun.
      destruct (quiet_set_finish env self1 operation_logger w3) as [Hfs _].
      unfold FS.exists_ in *. rewrite Hfs. apply Hgone. exact Hd.
    + intros e He. rewrite He in Hres. discriminate Hres.
  - rewrite (bind_err _ Hguarded) in Hrun. rewrite Hrun. cbn [fst snd]. split.
    + exact Hgone.
    + intros e He. rewrite He in Hres. inversion Hres. subst e'.
      split; [reflexivity | exact Hext].
Qed.

(** *** A write that succeeds, with an upload directory *)

Definition uploaded_world : world :=
  set_upload_dirs
    (set_fs boolean_world (fs boolean_world ++ [(upload_dir, NDir)]))
    [upload_dir].

Definition uploaded_set : result ConfigPanel * world :=
  set plain_env full_panel (Some "p1.s1.o1") (VStr "yes") None None Logger
      uploaded_world.

(** The theorem at work, on a [set] that raises from its apply step and on
    a [set] that returns: the upload directory is gone in both. *)
Lemma set_cleans_upload_dirs_witness :
  (FS.exists_ upload_dir (fs (snd failing_set)) = false
   /\ fst failing_set = Err (MoulinetteError "cannot_write_file"))
  /\ FS.exists_ upload_dir (fs (snd uploaded_set)) = false.
Proof.
  split.
  - edestruct (@set_cleans_upload_dirs
                 plain_env full_panel (Some "p1.s1.o1") (VStr "yes")
                 None None Logger failing_write_world) as [Hgone Hfails].
    + vm_compute. reflexivity.
    + vm_compute. reflexivity.
    + reflexivity.
    + split.
      * apply Hgone. vm_compute. left. reflexivity.
      * refine (proj1 (Hfails (MoulinetteError "cannot_write_file") _)).
        vm_compute. reflexivity.
  - edestruct (@set_cleans_upload_dirs
                 plain_env full_panel (Some "p1.s1.o1") (VStr "yes")
                 None None Logger uploaded_world) as [Hgone _].
    + vm_compute. reflexivity.
    + vm_compute. reflexivity.
    + reflexivity.
    + apply Hgone. vm_compute. left. reflexivity.
Defined.

(** The [set] that returns has written the settings and closed the
    operation; the directory was there before. *)
Lemma uploaded_set_returns :
  (is_ok (fst uploaded_set),
   FS.exists_ upload_dir (fs uploaded_world),
   FS.find settings_path (fs (snd uploaded_set)),
   filter is_operation_logger_event (trace (snd uploaded_set)))
  = (true, true, Some (NYaml [("o1", VInt 1)]),
     [EvOperationLogger "start"; EvOperationLogger "success"]).
Proof. vm_compute. reflexivity. Qed.

(* ================================================================= *)
(** ** [set] without an operation logger, to its end *)


(** *** A panel that names its services *)

Definition services_description : dict :=
  [("version", version_one);
   ("p1", VDict [("services", VList [VStr "nginx"; VStr "ssh"]);
                 ("s1", VDict boolean_option)])].

Definition services_world : world :=
  api_world [(toml_path, NToml services_description);
             (settings_path, NYaml [("o1", VInt 0)])].

Definition set_reloading : result ConfigPanel * world :=
  set plain_env full_panel (Some "p1.s1.o1") (VStr "yes") None None NoLogger
      services_world.





(** What that call has done when it raises: the settings are written with
    the new value, then the two services are reloaded, [nginx] last, and
    the success is logged. *)
Lemma set_reloading_trace :
  (fst set_reloading,
   FS.find settings_path (fs (snd set_reloading)),
   skipn 11 (trace (snd set_reloading)))
  = (Err (AttributeError "NoneType" "success"),
     Some (NYaml [("o1", VInt 1)]),
     [EvIO (WriteYaml [("o1", VInt 1)]) settings_path;
      EvLog "info" "Reloading services...";
      EvReload "ssh"; EvReload "nginx";
      EvLog "success" "Config updated as expected"]).
Proof. vm_compute. reflexivity. Qed.
